(** * llm-grader: the response pipeline, embedded and verified

    The development follows the three classes of the repository:
    [MultiModelClient] (src/engine/grading_client.py), [GradingEngine]
    (src/engine/grading_engine.py) and the facade [CodeGrader] (grader.py).
    They sit on a small model of the Python runtime they use: dynamically
    typed values, exceptions as an error monad, the [str] methods, [re.search]
    on the patterns of the engine, binary64 floats and a JSON decoder.

    Python strings are modelled as sequences of code points below 256
    (Rocq's [string]); floats are the kernel's binary64 floats, so every
    float the code computes is computed here bit for bit. *)

From Stdlib Require Import ZArith String Ascii Floats Bool List Lia.
From stdpp Require Import base option list gmap strings pretty.

Set Warnings "-register-all".
#[local] Open Scope string_scope.

(** ** Exceptions and the error monad *)

(** The exception classes that the code raises or that the runtime raises
    under it; each carries the text [str(e)] gives. *)
Inductive exn : Type :=
| ValueError (msg : string)
| ConnectionError (msg : string)
| KeyError (msg : string)
| IndexError (msg : string)
| TypeError (msg : string)
| AttributeError (msg : string)
| OverflowError (msg : string)
| RequestException (msg : string)
| RecursionError (msg : string).

Definition str_of_exn (e : exn) : string :=
  match e with
  | ValueError m | ConnectionError m | KeyError m | IndexError m
  | TypeError m | AttributeError m | OverflowError m | RequestException m
  | RecursionError m => m
  end.

(** A computation either returns or raises. *)
Inductive result (A : Type) : Type :=
| Ok (a : A)
| Raise (e : exn).
Arguments Ok {A} a.
Arguments Raise {A} e.

#[global] Instance result_ret : MRet result := @Ok.

#[global] Instance result_bind : MBind result :=
  fun A B (k : A -> result B) (m : result A) =>
    match m with
    | Ok a => k a
    | Raise e => Raise e
    end.

#[global] Instance result_fmap : FMap result :=
  fun A B (f : A -> B) (m : result A) =>
    match m with
    | Ok a => Ok (f a)
    | Raise e => Raise e
    end.

Definition returns {A : Type} (m : result A) : Prop := exists a, m = Ok a.

Definition raises {A : Type} (m : result A) : Prop := exists e, m = Raise e.

(** ** Values *)

(** What [json.loads] can produce, which is also everything that flows
    through the untyped fields of a grading result. *)
Inductive pyval : Type :=
| PyNone
| PyBool (b : bool)
| PyInt (z : Z)
| PyFloat (f : float)
| PyStr (s : string)
| PyList (l : list pyval)
| PyDict (d : gmap string pyval).

(** Truth value testing ([bool(v)], the test of [if v] and [v or w]). *)
Definition truthy (v : pyval) : bool :=
  match v with
  | PyNone => false
  | PyBool b => b
  | PyInt z => negb (z =? 0)%Z
  | PyFloat f => negb (PrimFloat.is_zero f)
  | PyStr s => negb (String.eqb s "")
  | PyList l => match l with [] => false | _ :: _ => true end
  | PyDict d => negb (bool_decide (d = ∅))
  end.

(** [a or b] *)
Definition py_or (a b : pyval) : pyval := if truthy a then a else b.

(** [d.get(k, dflt)] on a dict *)
Definition dict_get (d : gmap string pyval) (k : string) (dflt : pyval) : pyval :=
  default dflt (d !! k).

(** [k in d] on a dict *)
Definition dict_has (d : gmap string pyval) (k : string) : bool :=
  bool_decide (is_Some (d !! k)).

Definition is_none (v : pyval) : bool :=
  match v with PyNone => true | _ => false end.

(** The name [type(v).__name__] that the runtime prints in its messages. *)
Definition type_name (v : pyval) : string :=
  match v with
  | PyNone => "NoneType"
  | PyBool _ => "bool"
  | PyInt _ => "int"
  | PyFloat _ => "float"
  | PyStr _ => "str"
  | PyList _ => "list"
  | PyDict _ => "dict"
  end.

(** ** Strings *)

(** [str.isspace] on one code point below 256 *)
Definition isspace (c : ascii) : bool :=
  let n := nat_of_ascii c in
  (((9 <=? n) && (n <=? 13)) || ((28 <=? n) && (n <=? 32)) || (n =? 133) || (n =? 160))%nat.

Definition isdigit (c : ascii) : bool :=
  let n := nat_of_ascii c in ((48 <=? n) && (n <=? 57))%nat.

(** [s.startswith(p)] *)
Fixpoint str_startswith (p s : string) : bool :=
  match p, s with
  | "", _ => true
  | String _ _, "" => false
  | String a p', String b s' => Ascii.eqb a b && str_startswith p' s'
  end.

(** Lowest offset at which [sub] occurs in [s]. *)
Fixpoint index_of (sub s : string) : option nat :=
  if str_startswith sub s then Some 0
  else match s with
       | "" => None
       | String _ s' => S <$> index_of sub s'
       end.

(** Highest offset at which [sub] occurs in [s]. *)
Fixpoint rindex_of (sub s : string) : option nat :=
  match s with
  | "" => if str_startswith sub s then Some 0 else None
  | String _ s' =>
      match rindex_of sub s' with
      | Some k => Some (S k)
      | None => if str_startswith sub s then Some 0 else None
      end
  end.

(** [sub in s] *)
Definition str_contains (sub s : string) : bool :=
  bool_decide (is_Some (index_of sub s)).

Fixpoint str_drop (n : nat) (s : string) : string :=
  match n, s with
  | O, _ => s
  | S _, "" => ""
  | S n', String _ s' => str_drop n' s'
  end.

Fixpoint str_take (n : nat) (s : string) : string :=
  match n, s with
  | O, _ => ""
  | S _, "" => ""
  | S n', String c s' => String c (str_take n' s')
  end.

Definition str_len (s : string) : Z := Z.of_nat (String.length s).

(** How a slice bound is read: a negative bound counts from the end, and
    every bound is clamped to the string. *)
Definition slice_bound (len i : Z) : Z :=
  if (i <? 0)%Z then Z.max 0 (i + len) else Z.min i len.

(** [s[start:stop]] *)
Definition str_slice (s : string) (start stop : Z) : string :=
  let a := slice_bound (str_len s) start in
  let b := slice_bound (str_len s) stop in
  str_take (Z.to_nat (b - a)) (str_drop (Z.to_nat a) s).

(** [s[start:]] *)
Definition str_slice_from (s : string) (start : Z) : string :=
  str_drop (Z.to_nat (slice_bound (str_len s) start)) s.

(** [s.find(sub)], [s.find(sub, start)] and [s.rfind(sub)]: an index, or -1 *)
Definition str_find_from (s sub : string) (start : Z) : Z :=
  let a := slice_bound (str_len s) start in
  if (str_len s <? start)%Z then (-1)%Z
  else match index_of sub (str_drop (Z.to_nat a) s) with
       | Some k => (a + Z.of_nat k)%Z
       | None => (-1)%Z
       end.

Definition str_find (s sub : string) : Z := str_find_from s sub 0.

Definition str_rfind (s sub : string) : Z :=
  match rindex_of sub s with
  | Some k => Z.of_nat k
  | None => (-1)%Z
  end.

Fixpoint str_lstrip (s : string) : string :=
  match s with
  | "" => ""
  | String c s' => if isspace c then str_lstrip s' else s
  end.

Fixpoint str_rstrip (s : string) : string :=
  match s with
  | "" => ""
  | String c s' =>
      match str_rstrip s' with
      | "" => if isspace c then "" else String c ""
      | r => String c r
      end
  end.

(** [s.strip()] *)
Definition str_strip (s : string) : string := str_rstrip (str_lstrip s).

(** [s.lower()], on code points below 256: A-Z and the upper-case letters
    of Latin-1 move 32 places up. *)
Definition lower_char (c : ascii) : ascii :=
  let n := nat_of_ascii c in
  if (((65 <=? n) && (n <=? 90)) || ((192 <=? n) && (n <=? 222) && negb (n =? 215)))%nat
  then ascii_of_nat (n + 32) else c.

Fixpoint str_lower (s : string) : string :=
  match s with
  | "" => ""
  | String c s' => String (lower_char c) (str_lower s')
  end.

(** ** Floats *)

(** The binary64 float nearest to the integer [z] (ties to even), which is
    what Python's int-to-float conversion and [float] of a digit string
    compute; past the largest finite float the rounding yields infinity. *)
Definition float_of_Z (z : Z) : float :=
  SF2Prim (binary_normalize 53 1024 z 0 false).

(** The float nearest to [m * 10^e] for [m >= 0], with the sign [neg].  For a
    negative [e] the quotient is taken with 65 bits or more and one sticky
    bit, so that rounding it rounds the exact value. *)
Definition float_of_decimal (neg : bool) (m e : Z) : float :=
  if (m =? 0)%Z then SF2Prim (S754_zero neg)
  else if (0 <=? e)%Z then
    SF2Prim (binary_round 53 1024 neg (Z.to_pos (m * 10 ^ e)) 0)
  else
    let d := (10 ^ (- e))%Z in
    let s := Z.max 0 (Z.log2 d - Z.log2 m + 66) in
    let n := (m * 2 ^ s)%Z in
    let sticky := if (n mod d =? 0)%Z then 0%Z else 1%Z in
    SF2Prim (binary_round 53 1024 neg (Z.to_pos (2 * (n / d) + sticky)) (- (s + 1))).

(** Python's [int / float] and [float(int)] refuse an integer that rounds
    to infinity. *)
Definition int_to_float (z : Z) : result float :=
  let f := float_of_Z z in
  if PrimFloat.is_infinity f
  then Raise (OverflowError "int too large to convert to float")
  else Ok f.

(** The value of a string of decimal digits, most significant first. *)
Fixpoint digits_value (acc : Z) (s : string) : Z :=
  match s with
  | "" => acc
  | String c s' => digits_value (10 * acc + (Z.of_nat (nat_of_ascii c) - 48)) s'
  end.

(** Whether every character of [s] satisfies [p]. *)
Fixpoint str_forall (p : ascii -> bool) (s : string) : bool :=
  match s with
  | "" => true
  | String c s' => p c && str_forall p s'
  end.

Definition all_digits (s : string) : bool := str_forall isdigit s.

(** Splits [s] at its first ".": the part before, and the part after when
    there is a ".". *)
Fixpoint split_dot (s : string) : string * option string :=
  match s with
  | "" => ("", None)
  | String c s' =>
      if Ascii.eqb c "." then ("", Some s')
      else let '(a, b) := split_dot s' in (String c a, b)
  end.

(** Whether [s] is decimal digits with at most one "." among them, and a
    digit at all. *)
Definition is_decimal (s : string) : bool :=
  let '(ip, fp) := split_dot s in
  all_digits ip && all_digits (default "" fp)
  && negb (String.eqb (ip +:+ default "" fp) "").

(** The float nearest to the number that the decimal [s] writes. *)
Definition decimal_float (s : string) : float :=
  let '(ip, fp) := split_dot s in
  float_of_decimal false (digits_value 0 (ip +:+ default "" fp))
    (- Z.of_nat (String.length (default "" fp))).

(** [float(s)] for the strings the engine passes to it: decimal digits with
    at most one "." among them, as captured by [\d+] and [\d+\.?\d*].  The
    other spellings Python reads (signs, exponents, inf, nan, blanks around)
    never reach this call and are answered with the ValueError of a string
    that is no number. *)
Definition float_of_str (s : string) : result float :=
  if is_decimal s then Ok (decimal_float s)
  else Raise (ValueError ("could not convert string to float: '" +:+ s +:+ "'")).

(** The number a value stands for in arithmetic, when it is one. *)
Definition as_float (v : pyval) : result float :=
  match v with
  | PyBool b => Ok (if b then 1%float else 0%float)
  | PyInt z => int_to_float z
  | PyFloat f => Ok f
  | _ => Raise (TypeError ("unsupported operand type(s) for /: '" +:+ type_name v
                            +:+ "' and 'float'"))
  end.

(** ** Regular expressions *)

(** The fragment of [re] that the engine's patterns use: literal
    characters, the classes [\s] and [\d], the greedy postfix operators
    [*], [+] and [?] on one character, and one capturing group. *)
Inductive charset : Type :=
| Lit (c : ascii)
| Space
| Digit.

Definition charset_mem (cs : charset) (c : ascii) : bool :=
  match cs with
  | Lit a => Ascii.eqb a c
  | Space => isspace c
  | Digit => isdigit c
  end.

Inductive quant : Type := Once | ZeroOrOne | ZeroOrMore | OneOrMore.

Inductive node : Type :=
| Atom (cs : charset) (q : quant)
| GroupOpen
| GroupClose.

Definition regex : Type := list node.

(** Compiling a pattern text.  [pending] is the atom read last, which a
    postfix operator may still follow; [esc] says that the character read
    last was a backslash. *)
Definition flush (pending : option charset) : regex :=
  match pending with
  | Some a => [Atom a Once]
  | None => []
  end.

Definition escaped (c : ascii) : charset :=
  if Ascii.eqb c "s" then Space
  else if Ascii.eqb c "d" then Digit
  else Lit c.

Fixpoint re_compile_from (pending : option charset) (esc : bool) (p : string) : regex :=
  match p with
  | "" => flush pending
  | String c p' =>
      if esc then re_compile_from (Some (escaped c)) false p'
      else
        match pending, c with
        | Some a, "*"%char => Atom a ZeroOrMore :: re_compile_from None false p'
        | Some a, "+"%char => Atom a OneOrMore :: re_compile_from None false p'
        | Some a, "?"%char => Atom a ZeroOrOne :: re_compile_from None false p'
        | _, "\"%char => (flush pending ++ re_compile_from None true p')%list
        | _, "("%char => (flush pending ++ GroupOpen :: re_compile_from None false p')%list
        | _, ")"%char => (flush pending ++ GroupClose :: re_compile_from None false p')%list
        | _, _ => (flush pending ++ re_compile_from (Some (Lit c)) false p')%list
        end
  end.

Definition re_compile (p : string) : regex := re_compile_from None false p.

(** The matcher's state: the text of the group being captured, if one is
    open, and the text of the group once closed. *)
Record mstate : Type := MState {
  recording : option string;
  group1 : option string
}.

Definition consume (c : ascii) (st : mstate) : mstate :=
  MState ((fun a => a +:+ String c "") <$> recording st) (group1 st).

(** As many characters of [p] as there are, then [k]; on failure of [k]
    one fewer, and so on down to none (greedy, backtracking). *)
Fixpoint greedy (p : ascii -> bool) (k : mstate -> string -> option mstate)
    (st : mstate) (s : string) : option mstate :=
  match s with
  | String c s' =>
      if p c then
        match greedy p k (consume c st) s' with
        | Some m => Some m
        | None => k st s
        end
      else k st s
  | "" => k st s
  end.

Definition one (p : ascii -> bool) (k : mstate -> string -> option mstate)
    (st : mstate) (s : string) : option mstate :=
  match s with
  | String c s' => if p c then k (consume c st) s' else None
  | "" => None
  end.

(** A match of the whole of [r] that starts at the head of [s]. *)
Fixpoint match_here (r : regex) (st : mstate) (s : string) : option mstate :=
  match r with
  | [] => Some st
  | GroupOpen :: r' => match_here r' (MState (Some "") (group1 st)) s
  | GroupClose :: r' => match_here r' (MState None (recording st)) s
  | Atom cs Once :: r' => one (charset_mem cs) (match_here r') st s
  | Atom cs ZeroOrOne :: r' =>
      match one (charset_mem cs) (match_here r') st s with
      | Some m => Some m
      | None => match_here r' st s
      end
  | Atom cs ZeroOrMore :: r' => greedy (charset_mem cs) (match_here r') st s
  | Atom cs OneOrMore :: r' =>
      one (charset_mem cs) (greedy (charset_mem cs) (match_here r')) st s
  end.

(** [re.search(pattern, text)], answered with [match.group(1)] of the
    leftmost match, or [None] when the pattern matches nowhere. *)
Fixpoint search_from (r : regex) (s : string) : option string :=
  match match_here r (MState None None) s with
  | Some m => Some (default "" (group1 m))
  | None =>
      match s with
      | "" => None
      | String _ s' => search_from r s'
      end
  end.

Definition re_search (pattern text : string) : option string :=
  search_from (re_compile pattern) text.

(** ** The runtime's services *)

(** What [json.loads] answers: the decoded value, a [JSONDecodeError] with
    the text [str(e)] gives, or an exception of another class.  CPython
    raises two of the latter: RecursionError when the text nests deeper
    than the recursion limit leaves room for, and ValueError for an integer
    of more than 4300 digits (a plain ValueError, which no handler for
    JSONDecodeError catches). *)
Inductive decoded : Type :=
| Decoded (v : pyval)
| JSONDecodeError (msg : string)
| OtherError (e : exn).

(** The services of the interpreter and its library that the code calls and
    that are taken as given: the JSON decoder behind [json.loads] and
    [response.json()], and [repr] of a value that is not a string, as an
    f-string prints it.  Every theorem about the code holds for any such
    services; [reference_runtime] below is one that computes. *)
Class Runtime : Type := {
  json_loads : string -> decoded;
  py_repr : pyval -> string
}.

(** [str(v)], as an f-string formats a value *)
Definition py_str `{Runtime} (v : pyval) : string :=
  match v with
  | PyStr s => s
  | _ => py_repr v
  end.

(** *** A reference JSON decoder

    The grammar, the messages and the two limits of CPython 3.11's
    decoder, on texts of code points below 256.  It is used to run the code
    on concrete responses.  An escape above 00FF names a character that
    the string model lacks; it is reported as an invalid escape, where
    CPython decodes it. *)
Module Json.

#[local] Open Scope nat_scope.

(** The decoder's answers: what was read, the message of the failure and
    the offset it points at, or an exception that is no JSONDecodeError. *)
Inductive parse (A : Type) : Type :=
| Parsed (a : A)
| Failed (msg : string) (pos : nat)
| Aborted (e : exn).
Arguments Parsed {A} a.
Arguments Failed {A} msg pos.
Arguments Aborted {A} e.

#[local] Instance parse_bind : MBind parse :=
  fun A B (k : A -> parse B) (m : parse A) =>
    match m with
    | Parsed a => k a
    | Failed msg pos => Failed msg pos
    | Aborted e => Aborted e
    end.

Definition dquote : ascii := "034".
Definition backslash : ascii := "092".

Definition json_ws (c : ascii) : bool :=
  let n := nat_of_ascii c in (n =? 32) || (n =? 9) || (n =? 10) || (n =? 13).

Fixpoint skip_ws (s : string) (pos : nat) : string * nat :=
  match s with
  | String c s' => if json_ws c then skip_ws s' (S pos) else (s, pos)
  | "" => (s, pos)
  end.

Definition hex_digit (c : ascii) : option nat :=
  let n := nat_of_ascii c in
  if (48 <=? n) && (n <=? 57) then Some (n - 48)
  else if (65 <=? n) && (n <=? 70) then Some (n - 55)
  else if (97 <=? n) && (n <=? 102) then Some (n - 87)
  else None.

Definition unescape (c : ascii) : option ascii :=
  if Ascii.eqb c dquote then Some dquote
  else if Ascii.eqb c backslash then Some backslash
  else if Ascii.eqb c "/" then Some "/"%char
  else if Ascii.eqb c "b" then Some "008"%char
  else if Ascii.eqb c "f" then Some "012"%char
  else if Ascii.eqb c "n" then Some "010"%char
  else if Ascii.eqb c "r" then Some "013"%char
  else if Ascii.eqb c "t" then Some "009"%char
  else None.

(** The rest of a string literal, [begin] being the offset of its opening
    quote: the text it denotes, and what follows its closing quote.  A bad
    escape is reported at its backslash, a bad [u] escape at the [u]. *)
Fixpoint scan_string (begin : nat) (acc : string) (s : string) (pos : nat)
    : parse (string * string * nat) :=
  match s with
  | "" => Failed "Unterminated string starting at" begin
  | String c s' =>
      if Ascii.eqb c dquote then Parsed (acc, s', S pos)
      else if Ascii.eqb c backslash then
        match s' with
        | "" => Failed "Unterminated string starting at" begin
        | String "u" (String h1 (String h2 (String h3 (String h4 s'')))) =>
            match hex_digit h1, hex_digit h2, hex_digit h3, hex_digit h4 with
            | Some 0, Some 0, Some a, Some b =>
                scan_string begin (acc +:+ String (ascii_of_nat (16 * a + b)) "") s'' (pos + 6)
            | _, _, _, _ => Failed "Invalid \uXXXX escape" (S pos)
            end
        | String "u" _ => Failed "Invalid \uXXXX escape" (S pos)
        | String e s'' =>
            match unescape e with
            | Some ch => scan_string begin (acc +:+ String ch "") s'' (pos + 2)
            | None => Failed "Invalid \escape" pos
            end
        end
      else if nat_of_ascii c <? 32 then Failed "Invalid control character at" pos
      else scan_string begin (acc +:+ String c "") s' (S pos)
  end.

Fixpoint take_digits (s : string) : string * string :=
  match s with
  | String c s' =>
      if isdigit c then let '(d, r) := take_digits s' in (String c d, r) else ("", s)
  | "" => ("", "")
  end.

(** The integer part of a number: "0", or digits that do not start with 0. *)
Definition int_part (s : string) : option (string * string) :=
  match s with
  | String "0" s' => Some ("0", s')
  | String c _ => if isdigit c then Some (take_digits s) else None
  | "" => None
  end.

(** The fraction of a number, when a "." and a digit follow. *)
Definition frac_part (s : string) : option (string * string) :=
  match s with
  | String "." s' =>
      match take_digits s' with
      | ("", _) => None
      | (d, r) => Some (d, r)
      end
  | _ => None
  end.

(** The exponent of a number, when "e" or "E", a sign or none, and a digit
    follow: its value, its length in characters, and the rest. *)
Definition exp_part (s : string) : option (Z * nat * string) :=
  match s with
  | String c s' =>
      if Ascii.eqb c "e" || Ascii.eqb c "E" then
        let '(neg, signlen, s'') :=
          match s' with
          | String "-" t => (true, 1, t)
          | String "+" t => (false, 1, t)
          | _ => (false, 0, s')
          end in
        match take_digits s'' with
        | ("", _) => None
        | (d, r) =>
            let v := digits_value 0 d in
            Some (if neg then (- v)%Z else v, 1 + signlen + String.length d, r)
        end
      else None
  | "" => None
  end.

(** [int(digits)], which refuses more digits than
    [sys.get_int_max_str_digits()], 4300 unless the program changes it. *)
Definition max_str_digits : nat := 4300.

Definition int_of_digits (neg : bool) (digits : string) : result pyval :=
  if max_str_digits <? String.length digits then
    Raise (ValueError ("Exceeds the limit (" +:+ pretty max_str_digits
             +:+ " digits) for integer string conversion: value has "
             +:+ pretty (String.length digits)
             +:+ " digits; use sys.set_int_max_str_digits() to increase the limit"))
  else
    let v := digits_value 0 digits in
    Ok (PyInt (if neg then (- v)%Z else v)).

(** A number at the head of [s], if there is one: an int without fraction
    and exponent, a float otherwise. *)
Definition scan_number (s : string) (pos : nat)
    : option (parse (pyval * string * nat)) :=
  let '(neg, s0, p0) :=
    match s with
    | String "-" t => (true, t, S pos)
    | _ => (false, s, pos)
    end in
  '(ip, s1) ← int_part s0;
  let p1 := p0 + String.length ip in
  match frac_part s1, exp_part s1 with
  | None, None =>
      match int_of_digits neg ip with
      | Ok v => Some (Parsed (v, s1, p1))
      | Raise e => Some (Aborted e)
      end
  | None, Some (e, elen, s2) =>
      Some (Parsed (PyFloat (float_of_decimal neg (digits_value 0 ip) e), s2, p1 + elen))
  | Some (fp, s2), _ =>
      let p2 := p1 + 1 + String.length fp in
      let m := digits_value 0 (ip +:+ fp) in
      let scale := (- Z.of_nat (String.length fp))%Z in
      match exp_part s2 with
      | Some (e, elen, s3) =>
          Some (Parsed (PyFloat (float_of_decimal neg m (e + scale)), s3, p2 + elen))
      | None => Some (Parsed (PyFloat (float_of_decimal neg m scale), s2, p2))
      end
  end.

Definition literal (word : string) (v : pyval) (s : string) (pos : nat)
    : option (parse (pyval * string * nat)) :=
  if str_startswith word s
  then Some (Parsed (v, str_drop (String.length word) s, pos + String.length word))
  else None.

(** The values that need no recursion: literals and numbers. *)
Definition scan_scalar (s : string) (pos : nat) : parse (pyval * string * nat) :=
  let tries :=
    match s with
    | String "n" _ => literal "null" PyNone s pos
    | String "t" _ => literal "true" (PyBool true) s pos
    | String "f" _ => literal "false" (PyBool false) s pos
    | String "N" _ => literal "NaN" (PyFloat nan) s pos
    | String "I" _ => literal "Infinity" (PyFloat infinity) s pos
    | String "-" _ =>
        match scan_number s pos with
        | Some r => Some r
        | None => literal "-Infinity" (PyFloat neg_infinity) s pos
        end
    | _ => scan_number s pos
    end in
  match tries with
  | Some r => r
  | None => Failed "Expecting value" pos
  end.

(** The RecursionError of a container that is entered when the recursion
    limit leaves no room. *)
Definition too_deep (container : string) : exn :=
  RecursionError ("maximum recursion depth exceeded while decoding a JSON "
                    +:+ container +:+ " from a unicode string").

(** A failure that the scanner reports from within [depth] containers.
    The scanner builds its JSONDecodeError by a call into Python, which
    takes three levels of the recursion room itself: with fewer left, the
    call raises RecursionError, worded by the level at which it stops.
    A missing value is exempt: it is reported once the scanner has
    returned. *)
Definition raised_at {A : Type} (room depth : nat) (msg : string) (pos : nat)
    : parse A :=
  if depth + 3 <=? room then Failed msg pos
  else if depth + 1 =? room then
    Aborted (RecursionError "maximum recursion depth exceeded")
  else
    Aborted (RecursionError
               "maximum recursion depth exceeded while calling a Python object").

Definition within {A : Type} (room depth : nat) (r : parse A) : parse A :=
  match r with
  | Failed msg pos => raised_at room depth msg pos
  | _ => r
  end.

(** One value at the head of [s]; the elements of an array after its "[";
    the members of an object after its "{".  [depth] counts the containers
    around the value, and a container is entered only while [depth] is
    below [room], the nesting that the recursion limit leaves to this call
    of the decoder.  [fuel] bounds the calls, which are fewer than twice
    the characters read. *)
Fixpoint scan_once (room depth fuel : nat) (s : string) (pos : nat) {struct fuel}
    : parse (pyval * string * nat) :=
  match fuel with
  | O => Failed "Expecting value" pos
  | S fuel' =>
      match s with
      | String "034" s' =>
          '(str, r, p) ← within room depth (scan_string pos "" s' (S pos));
          Parsed (PyStr str, r, p)
      | String "[" s' =>
          if room <=? depth then Aborted (too_deep "array")
          else
            let '(s1, p1) := skip_ws s' (S pos) in
            match s1 with
            | String "]" s2 => Parsed (PyList [], s2, S p1)
            | _ => scan_elements room (S depth) fuel' [] s1 p1
            end
      | String "{" s' =>
          if room <=? depth then Aborted (too_deep "object")
          else
            let '(s1, p1) := skip_ws s' (S pos) in
            match s1 with
            | String "}" s2 => Parsed (PyDict ∅, s2, S p1)
            | _ => scan_members room (S depth) fuel' ∅ s1 p1
            end
      | _ => scan_scalar s pos
      end
  end
with scan_elements (room depth fuel : nat) (acc : list pyval) (s : string) (pos : nat)
    {struct fuel} : parse (pyval * string * nat) :=
  match fuel with
  | O => Failed "Expecting value" pos
  | S fuel' =>
      '(v, s1, p1) ← scan_once room depth fuel' s pos;
      let '(s2, p2) := skip_ws s1 p1 in
      match s2 with
      | String "]" s3 => Parsed (PyList (acc ++ [v])%list, s3, S p2)
      | String "," s3 =>
          let '(s4, p4) := skip_ws s3 (S p2) in
          scan_elements room depth fuel' (acc ++ [v])%list s4 p4
      | _ => raised_at room depth "Expecting ',' delimiter" p2
      end
  end
with scan_members (room depth fuel : nat) (acc : gmap string pyval) (s : string)
    (pos : nat) {struct fuel} : parse (pyval * string * nat) :=
  match fuel with
  | O => Failed "Expecting value" pos
  | S fuel' =>
      match s with
      | String "034" s0 =>
          '(key, s1, p1) ← within room depth (scan_string pos "" s0 (S pos));
          let '(s2, p2) := skip_ws s1 p1 in
          match s2 with
          | String ":" s3 =>
              let '(s4, p4) := skip_ws s3 (S p2) in
              '(v, s5, p5) ← scan_once room depth fuel' s4 p4;
              let '(s6, p6) := skip_ws s5 p5 in
              match s6 with
              | String "}" s7 => Parsed (PyDict (<[key := v]> acc), s7, S p6)
              | String "," s7 =>
                  let '(s8, p8) := skip_ws s7 (S p6) in
                  scan_members room depth fuel' (<[key := v]> acc) s8 p8
              | _ => raised_at room depth "Expecting ',' delimiter" p6
              end
          | _ => raised_at room depth "Expecting ':' delimiter" p2
          end
      | _ => raised_at room depth "Expecting property name enclosed in double quotes" pos
      end
  end.

(** The line and the column of offset [pos] in [doc], both from 1. *)
Fixpoint line_col (doc : string) (pos line col : nat) : nat * nat :=
  match pos, doc with
  | O, _ | _, "" => (line, col)
  | S pos', String c doc' =>
      if Ascii.eqb c "010" then line_col doc' pos' (S line) 1
      else line_col doc' pos' line (S col)
  end.

Definition errmsg (doc msg : string) (pos : nat) : string :=
  let '(line, col) := line_col doc pos 1 1 in
  msg +:+ ": line " +:+ pretty line +:+ " column " +:+ pretty col
      +:+ " (char " +:+ pretty pos +:+ ")".

(** [json.loads(doc)], called where the recursion limit leaves [room]
    nested containers to the decoder: under the default limit of 1000 that
    is 999 less the frames in use, those of [loads], [decode] and
    [raw_decode] among them. *)
Definition loads (room : nat) (doc : string) : decoded :=
  let '(s0, p0) := skip_ws doc 0 in
  match scan_once room 0 (2 * String.length doc + 4) s0 p0 with
  | Failed msg pos => JSONDecodeError (errmsg doc msg pos)
  | Aborted e => OtherError e
  | Parsed (v, s1, p1) =>
      match skip_ws s1 p1 with
      | ("", _) => Decoded v
      | (_, p2) => JSONDecodeError (errmsg doc "Extra data" p2)
      end
  end.

End Json.

(** [repr] of the values with a fixed short spelling; the reference runtime
    does not spell floats and containers, which no run below prints. *)
Definition reference_repr (v : pyval) : string :=
  match v with
  | PyNone => "None"
  | PyBool true => "True"
  | PyBool false => "False"
  | PyInt z => pretty z
  | PyStr s => "'" +:+ s +:+ "'"
  | PyFloat _ => "<float>"
  | PyList _ => "<list>"
  | PyDict _ => "<dict>"
  end.

(** The room of the decoder where [parse_json_response] is reached through
    the facade's [grade_code], called from [main] of grader.py run as a
    script: nine frames are in use. *)
Definition reference_room : nat := 990.

Definition reference_runtime : Runtime :=
  {| json_loads := Json.loads reference_room; py_repr := reference_repr |}.

(** Writes a JSON text with single quotes standing for the double quotes a
    Rocq string cannot hold. *)
Fixpoint dq (s : string) : string :=
  match s with
  | "" => ""
  | String c s' => String (if Ascii.eqb c "'" then Json.dquote else c) (dq s')
  end.

(** ** Operations on values of unknown type *)

Definition newline : string := String "010" "".

Definition list_has_str (sub : string) (l : list pyval) : bool :=
  existsb (fun v => match v with PyStr s => String.eqb s sub | _ => false end) l.

(** [sub in v] for a string [sub]: a substring test on a string, an element
    test on a list, a key test on a dict, a TypeError on anything else. *)
Definition py_in (sub : string) (v : pyval) : result bool :=
  match v with
  | PyStr s => Ok (str_contains sub s)
  | PyList l => Ok (list_has_str sub l)
  | PyDict d => Ok (dict_has d sub)
  | _ => Raise (TypeError ("argument of type '" +:+ type_name v +:+ "' is not iterable"))
  end.

(** [v[k]] for a string [k] *)
Definition py_getitem (v : pyval) (k : string) : result pyval :=
  match v with
  | PyDict d =>
      match d !! k with
      | Some x => Ok x
      | None => Raise (KeyError ("'" +:+ k +:+ "'"))
      end
  | PyStr _ => Raise (TypeError "string indices must be integers, not 'str'")
  | PyList _ => Raise (TypeError "list indices must be integers or slices, not str")
  | _ => Raise (TypeError ("'" +:+ type_name v +:+ "' object is not subscriptable"))
  end.

(** [v[0]] *)
Definition py_first (v : pyval) : result pyval :=
  match v with
  | PyList (x :: _) => Ok x
  | PyList [] => Raise (IndexError "list index out of range")
  | PyStr (String c _) => Ok (PyStr (String c ""))
  | PyStr "" => Raise (IndexError "string index out of range")
  | PyDict _ => Raise (KeyError "0")
  | _ => Raise (TypeError ("'" +:+ type_name v +:+ "' object is not subscriptable"))
  end.

(** [v.get(k, dflt)]: only a dict has the method. *)
Definition py_get (v : pyval) (k : string) (dflt : pyval) : result pyval :=
  match v with
  | PyDict d => Ok (dict_get d k dflt)
  | _ => Raise (AttributeError ("'" +:+ type_name v +:+ "' object has no attribute 'get'"))
  end.

(** ** The provider's side of a call *)

(** What [requests.post] does: it returns a response, of which the code
    reads [status_code] and [text], or it raises. *)
Inductive http_outcome : Type :=
| HttpResponse (status_code : Z) (text : string)
| HttpFailure (e : exn).

(** Everything the outside world contributes to one call of
    [evaluate_code]: the provider's answer to the request (its URL and the
    prompt it carries; the rest of the payload is fixed for a client) and
    the readings of [time.time()], one for each place of the code that
    takes one: on entry, after the provider replied, in the branch of an
    unknown provider, and in the exception handler. *)
Record exchange : Type := Exchange {
  post : string -> string -> http_outcome;
  t_start : float;
  t_replied : float;
  t_unsupported : float;
  t_failed : float
}.

Module GradingResponse.

(** The client's dataclass.  Defaults: [grade], [percentage], [feedback]
    and [error_message] None, [raw_response] the empty string,
    [processing_time] 0.0. *)
Record t : Type := mk {
  success : bool;
  grade : option float;
  percentage : option float;
  feedback : option (gmap string pyval);
  raw_response : pyval;
  processing_time : float;
  error_message : option string
}.

(** [GradingResponse(success=True, raw_response=.., processing_time=..)] *)
Definition succeeded (raw : pyval) (time : float) : t :=
  mk true None None None raw time None.

(** [GradingResponse(success=False, error_message=.., processing_time=..)] *)
Definition failed (msg : option string) (time : float) : t :=
  mk false None None None (PyStr "") time msg.

End GradingResponse.

Module MultiModelClient.

(** The client's configuration.  Its headers, which only travel with the
    request, are left out. *)
Record t : Type := mk {
  api_key : string;
  model : string;
  provider : string;
  base_url : string
}.

Definition __init__ (api_key model provider : string) : result t :=
  let p := str_lower provider in
  if String.eqb p "openai" then
    Ok (mk api_key model p "https://api.openai.com/v1/chat/completions")
  else if String.eqb p "anthropic" then
    Ok (mk api_key model p "https://api.anthropic.com/v1/messages")
  else if String.eqb p "gemini" then
    Ok (mk api_key model p "https://generativelanguage.googleapis.com/v1beta/models")
  else if String.eqb p "groq" then
    Ok (mk api_key model p "https://api.groq.com/openai/v1/chat/completions")
  else Raise (ValueError ("Unsupported provider: " +:+ provider)).

(** [self.model_mapping.get(self.model, self.model)] *)
Definition model_mapping (m : string) : string :=
  if String.eqb m "gemini-1.5-flash" then "gemini-1.5-flash-latest"
  else if String.eqb m "gemini-1.5-pro" then "gemini-1.5-pro-latest"
  else m.

Section WithRuntime.
Context `{Runtime}.

(** [response.json()]: requests raises an exception of its own in place of
    the decoder's JSONDecodeError and lets every other exception pass. *)
Definition response_json (text : string) : result pyval :=
  match json_loads text with
  | Decoded v => Ok v
  | JSONDecodeError msg => Raise (RequestException msg)
  | OtherError e => Raise e
  end.

(** The part the four calls share from [requests.post] on: the elapsed
    time is read once the provider replied; status 200 yields the text
    that [extract] finds in the decoded body, any other status a failed
    response naming the provider, the status and the body. *)
Definition call (x : exchange) (url prompt : string) (start_time : float)
    (extract : pyval -> result pyval) (name : string)
    : result GradingResponse.t :=
  match post x url prompt with
  | HttpFailure e => Raise e
  | HttpResponse status_code text =>
      let processing_time := PrimFloat.sub (t_replied x) start_time in
      if (status_code =? 200)%Z then
        data ← response_json text;
        content ← extract data;
        Ok (GradingResponse.succeeded content processing_time)
      else
        Ok (GradingResponse.failed
              (Some (name +:+ " API error: " +:+ pretty status_code +:+ " - " +:+ text))
              processing_time)
  end.

(** [data["choices"][0]["message"]["content"]] *)
Definition choice_message_content (data : pyval) : result pyval :=
  a ← py_getitem data "choices";
  b ← py_first a;
  c ← py_getitem b "message";
  py_getitem c "content".

Definition _call_openai (self : t) (x : exchange) (prompt : string)
    (start_time : float) : result GradingResponse.t :=
  call x (base_url self) prompt start_time choice_message_content "OpenAI".

(** [data["content"][0]["text"]] *)
Definition _call_anthropic (self : t) (x : exchange) (prompt : string)
    (start_time : float) : result GradingResponse.t :=
  call x (base_url self) prompt start_time
    (fun data => a ← py_getitem data "content"; b ← py_first a; py_getitem b "text")
    "Anthropic".

Definition _call_groq (self : t) (x : exchange) (prompt : string)
    (start_time : float) : result GradingResponse.t :=
  call x (base_url self) prompt start_time choice_message_content "Groq".

(** [data["candidates"][0]["content"]["parts"][0]["text"]] *)
Definition _call_gemini (self : t) (x : exchange) (prompt : string)
    (start_time : float) : result GradingResponse.t :=
  let model_name := model_mapping (model self) in
  let url := base_url self +:+ "/" +:+ model_name +:+ ":generateContent?key="
               +:+ api_key self in
  call x url prompt start_time
    (fun data =>
       a ← py_getitem data "candidates"; b ← py_first a;
       c ← py_getitem b "content"; d ← py_getitem c "parts";
       e ← py_first d; py_getitem e "text")
    "Gemini".

Definition evaluate_code (self : t) (x : exchange) (prompt : string)
    : GradingResponse.t :=
  let start_time := t_start x in
  let attempt :=
    if String.eqb (provider self) "openai" then _call_openai self x prompt start_time
    else if String.eqb (provider self) "anthropic" then
      _call_anthropic self x prompt start_time
    else if String.eqb (provider self) "gemini" then _call_gemini self x prompt start_time
    else if String.eqb (provider self) "groq" then _call_groq self x prompt start_time
    else Ok (GradingResponse.failed
               (Some ("Unsupported provider: " +:+ provider self))
               (PrimFloat.sub (t_unsupported x) start_time)) in
  match attempt with
  | Ok response => response
  | Raise e =>
      GradingResponse.failed
        (Some ("Error calling " +:+ provider self +:+ " API: " +:+ str_of_exn e))
        (PrimFloat.sub (t_failed x) start_time)
  end.

(** The text between the fences of a response, or the response itself. *)
Definition fenced_text (response_text : string) : string :=
  if str_contains "```json" response_text then
    let start := (str_find response_text "```json" + 7)%Z in
    let end_ := str_find_from response_text "```" start in
    str_strip (str_slice response_text start end_)
  else if str_contains "```" response_text then
    let start := (str_find response_text "```" + 3)%Z in
    let end_ := str_rfind response_text "```" in
    str_strip (str_slice response_text start end_)
  else str_strip response_text.

(** The removal of a language marker. *)
Definition unmarked (json_str : string) : string :=
  if str_startswith ("json" +:+ newline) json_str then str_slice_from json_str 5
  else json_str.

(** The error of a method that the value's type does not have. *)
Definition no_attribute (v : pyval) (name : string) : exn :=
  AttributeError ("'" +:+ type_name v +:+ "' object has no attribute '" +:+ name +:+ "'").

Definition parse_json_response (response_text : pyval) : result pyval :=
  match response_text with
  | PyStr text =>
      match json_loads (unmarked (fenced_text text)) with
      | Decoded v => Ok v
      | JSONDecodeError msg =>
          Ok (PyDict (<["error" := PyStr ("Invalid JSON response: " +:+ msg)]>
                        (<["raw_response" := PyStr text]> ∅)))
      | OtherError e => Raise e
      end
  | _ =>
      (* [response_text] is no string: the two [in] tests still run, the
         first method call after them does not *)
      a ← py_in "```json" response_text;
      if a : bool then Raise (no_attribute response_text "find")
      else
        b ← py_in "```" response_text;
        Raise (no_attribute response_text (if b : bool then "find" else "strip"))
  end.

Definition test_connection (self : t) (x : exchange) : result GradingResponse.t :=
  let test_prompt := "Respond with exactly: 'Connection successful'" in
  let response := evaluate_code self x test_prompt in
  ok ← (if GradingResponse.success response
        then py_in "Connection successful" (GradingResponse.raw_response response)
        else Ok false);
  if ok : bool then
    Ok (GradingResponse.mk true None None None (PyStr "Connection test passed")
          0%float None)
  else
    Ok (GradingResponse.mk false None None None (PyStr "") 0%float
          (Some (match GradingResponse.error_message response with
                 | Some m => if String.eqb m "" then "Connection test failed" else m
                 | None => "Connection test failed"
                 end))).

End WithRuntime.

End MultiModelClient.

(** ** The prompt generator *)

(** src/prompts/generator.py builds each prompt by filling the problem, the
    code and the optional reference solution into one of three fixed texts.
    Each of the three is a total function of its arguments; the texts
    themselves play no part below, so the generator is taken through its
    interface. *)
Class PromptGenerator : Type := {
  generate_json_prompt : string -> string -> option string -> string;
  generate_simple_prompt : string -> string -> string;
  generate_comprehensive_prompt : string -> string -> option string -> string
}.

(** ** The prompt templates *)

(** src/prompts/generator.py, text for text.  A Rocq string cannot hold a
    double quote, so the templates are written with a tilde in its place
    (the source has no tilde) and [tq] puts the double quotes back. *)
Module Prompts.

Fixpoint tq (s : string) : string :=
  match s with
  | "" => ""
  | String c s' => String (if Ascii.eqb c "~" then "034"%char else c) (tq s')
  end.

Definition _get_system_prompt : string :=
  "You are an expert computer science professor evaluating student code submissions. 

Your evaluation approach:
- Thorough analysis across multiple dimensions
- Fair and consistent scoring
- Constructive feedback for learning
- Clear justification for scores

Evaluate code on:
1. Correctness (40 pts): Functionality, edge cases, syntax, logic
2. Efficiency (27 pts): Time/space complexity, optimal algorithms  
3. Data Structures (15 pts): Appropriate selection and usage
4. Code Quality (10 pts): Readability, documentation, structure
5. Testing (8 pts): Test design, debugging, error handling

Total: 100 points".

Definition _get_metrics : string :=
  "
GRADING RUBRIC (100 points total):

CORRECTNESS (40 points):
- Test Case Coverage (20 pts): Passes basic tests (10) + edge cases (10)
- Edge Case Handling (10 pts): Boundary conditions, empty inputs, etc.
- No Syntax Errors (5 pts): Code compiles and runs without errors
- Logical Accuracy (5 pts): Algorithm correctly implements requirements

EFFICIENCY (27 points):
- Time Complexity (11 pts): Meets requirements (6) + analysis in comments (5)
- Optimal Algorithm (10 pts): Best approach (5) + considers optimizations (5)
- Space Complexity (6 pts): Efficient memory usage (3) + avoids waste (3)

DATA STRUCTURES (15 points):
- Structure Selection (8 pts): Appropriate choice (4) + explains rationale (4)
- Usage Efficiency (7 pts): Optimal utilization (4) + performance impact (3)

CODE QUALITY (10 points):
- Documentation (4 pts): Clear comments (2) + function descriptions (2)
- Modularity (3 pts): Functions/modules (2) + single responsibility (1)
- Naming (3 pts): Descriptive names (2) + follows conventions (1)

TESTING (8 points):
- Test Design (4 pts): Creates tests (2) + covers scenarios (2)
- Debugging (2 pts): Systematic approach (1) + documents process (1)
- Error Handling (2 pts): Validates inputs and handles errors
".

(** [self.system_prompt] and [self.metrics], as [__init__] sets them *)
Definition system_prompt : string := _get_system_prompt.

Definition metrics : string := _get_metrics.

(** The test [if model_solution:] fails for None and for the empty string. *)
Definition given (model_solution : option string) : option string :=
  match model_solution with
  | Some m => if String.eqb m "" then None else Some m
  | None => None
  end.

Definition generate_json_prompt (problem student_code : string)
    (model_solution : option string) : string :=
  let model_section :=
    match given model_solution with
    | Some model_solution =>
        "
## REFERENCE SOLUTION:
```
"
    +:+ model_solution
    +:+ "
```
"
    | None => ""
    end in
  system_prompt
    +:+ "

## PROBLEM:
"
    +:+ problem
    +:+ "
"
    +:+ model_section
    +:+ "
## STUDENT CODE:
```
"
    +:+ student_code
    +:+ "
```

"
    +:+ metrics
    +:+ tq "

## REQUIRED OUTPUT:
Respond with ONLY a valid JSON object in this exact format:

```json
{
    ~total_score~: number,
    ~percentage~: number,
    ~is_correct~: boolean,
    ~category_scores~: {
        ~correctness~: {~score~: number, ~max~: 40, ~feedback~: ~string~},
        ~efficiency~: {~score~: number, ~max~: 27, ~feedback~: ~string~},
        ~data_structures~: {~score~: number, ~max~: 15, ~feedback~: ~string~},
        ~code_quality~: {~score~: number, ~max~: 10, ~feedback~: ~string~},
        ~testing~: {~score~: number, ~max~: 8, ~feedback~: ~string~}
    },
    ~issues~: [
        {
            ~line_number~: number,
            ~description~: ~string~,
            ~severity~: ~critical|major|minor~,
            ~suggestion~: ~string~
        }
    ],
    ~strengths~: [~string~],
    ~recommendations~: [~string~],
    ~complexity_analysis~: {
        ~time_complexity~: ~string~,
        ~space_complexity~: ~string~
    }
}
```

Evaluate the code now and respond with only the JSON object.".

Definition generate_simple_prompt (problem student_code : string) : string :=
  "I want you to act as a programming teacher that helps students solve programming assignments.

Review the student's code for the following problem:

Problem: "
    +:+ problem
    +:+ "

Student Code: "
    +:+ student_code
    +:+ tq "

Identify if the code executes correctly and fulfills the problem's requirements. If not, provide a JSON object with:
- ~is_correct~: A boolean indicating whether the code is correct.
- ~hints~: An array of objects, each with:
  - ~line_number~: The line number of the issue.
  - ~code_line~: The code line with the issue.
  - ~hint~: A short explanation of what is wrong.

Example output:
{
    ~is_correct~: false,
    ~hints~: [
        {
            ~line_number~: 3,
            ~code_line~: ~x = x + 2~,
            ~hint~: ~The variable 'x' is used before being initialized.~
        }
    ]
}

If the code is correct, return:
{
    ~is_correct~: true,
    ~hints~: []
}".

Definition generate_comprehensive_prompt (problem student_code : string)
    (model_solution : option string) : string :=
  let model_section :=
    match given model_solution with
    | Some model_solution =>
        "
## MODEL SOLUTION:
```
"
    +:+ model_solution
    +:+ "
```
"
    | None => ""
    end in
  system_prompt
    +:+ "

## PROBLEM DESCRIPTION:
"
    +:+ problem
    +:+ "
"
    +:+ model_section
    +:+ "
## STUDENT SUBMISSION:
```
"
    +:+ student_code
    +:+ "
```

"
    +:+ metrics
    +:+ "

## EVALUATION INSTRUCTIONS:
Provide a comprehensive evaluation including:

1. **FUNCTIONALITY ANALYSIS**
   - Does the code solve the problem correctly?
   - What test cases would it pass/fail?
   - Are there logical errors or bugs?

2. **EFFICIENCY EVALUATION**
   - Time and space complexity analysis
   - Is this optimal for the problem?
   - Suggestions for optimization

3. **CODE QUALITY ASSESSMENT**
   - Readability and maintainability
   - Best practices adherence
   - Areas for improvement

4. **SCORING BREAKDOWN**
   - Correctness: ___/40 points
   - Efficiency: ___/27 points
   - Data Structures: ___/15 points
   - Code Quality: ___/10 points
   - Testing: ___/8 points
   
   **TOTAL: ___/100 points**

5. **RECOMMENDATIONS**
   - Top 3 strengths
   - Top 3 areas for improvement
   - Specific suggestions for enhancement".

End Prompts.

(** The generator of the repository. *)
Definition source_prompts : PromptGenerator :=
  {| generate_json_prompt := Prompts.generate_json_prompt;
     generate_simple_prompt := Prompts.generate_simple_prompt;
     generate_comprehensive_prompt := Prompts.generate_comprehensive_prompt |}.

Module GradingResult.

(** The engine's dataclass.  The fields after [success] default to None,
    but for [processing_time], which defaults to 0.0; a field the code
    leaves to its default is None here. *)
Record t : Type := mk {
  student_id : string;
  problem : string;
  code : string;
  success : bool;
  grade : pyval;
  percentage : pyval;
  feedback : pyval;
  issues : pyval;
  recommendations : pyval;
  strengths : pyval;
  processing_time : float;
  error_message : option string
}.

(** [GradingResult(student_id=.., problem=.., code=.., success=False,
    processing_time=.., error_message=..)] *)
Definition failed (student_id problem code : string) (time : float)
    (msg : option string) : t :=
  mk student_id problem code false PyNone PyNone PyNone PyNone PyNone PyNone time msg.

End GradingResult.

Module GradingEngine.

(** The engine holds its client; its [prompt_generator] is the
    [PromptGenerator] of the context. *)
Record t : Type := mk {
  client : MultiModelClient.t
}.

Definition __init__ (api_key model provider : string) : result t :=
  client ← MultiModelClient.__init__ api_key model provider;
  Ok (mk client).

Definition score_patterns : list string :=
  [ "TOTAL:\s*(\d+)/100";
    "Total:\s*(\d+)/100";
    "Score:\s*(\d+)/100";
    "Grade:\s*(\d+)/100" ].

(** The loop over the score patterns: the first pattern that matches gives
    the grade and ends the loop. *)
Fixpoint first_score (patterns : list string) (text : string) : result (option float) :=
  match patterns with
  | [] => Ok None
  | pattern :: rest =>
      match re_search pattern text with
      | Some group1 => grade ← float_of_str group1; Ok (Some grade)
      | None => first_score rest text
      end
  end.

Definition opt_float (g : option float) : pyval :=
  match g with
  | Some f => PyFloat f
  | None => PyNone
  end.

Section WithRuntime.
Context `{Runtime} `{PromptGenerator}.

(** The result of both JSON parsers when the extractor's object has the key
    "error". *)
Definition parsing_error (student_id problem code : string)
    (response : GradingResponse.t) (parsed : pyval) : result GradingResult.t :=
  e ← py_getitem parsed "error";
  Ok (GradingResult.failed student_id problem code
        (GradingResponse.processing_time response)
        (Some ("JSON parsing error: " +:+ py_str e))).

(** [(grade / 100.0 * 100) if grade else 0] *)
Definition score_as_percentage (grade : pyval) : result pyval :=
  if truthy grade then
    g ← as_float grade;
    Ok (PyFloat (PrimFloat.mul (PrimFloat.div g 100%float) 100%float))
  else Ok (PyInt 0).

Definition _parse_json_result (self : t) (student_id problem code : string)
    (response : GradingResponse.t) : result GradingResult.t :=
  parsed ← MultiModelClient.parse_json_response (GradingResponse.raw_response response);
  has_error ← py_in "error" parsed;
  if has_error : bool then parsing_error student_id problem code response parsed
  else
    grade ← py_get parsed "total_score" (PyInt 0);
    fallback ← score_as_percentage grade;
    percentage ← py_get parsed "percentage" fallback;
    issues ← py_get parsed "issues" (PyList []);
    recommendations ← py_get parsed "recommendations" (PyList []);
    strengths ← py_get parsed "strengths" (PyList []);
    Ok (GradingResult.mk student_id problem code true grade percentage parsed
          issues recommendations strengths
          (GradingResponse.processing_time response) None).

Definition _parse_simple_result (self : t) (student_id problem code : string)
    (response : GradingResponse.t) : result GradingResult.t :=
  parsed ← MultiModelClient.parse_json_response (GradingResponse.raw_response response);
  has_error ← py_in "error" parsed;
  if has_error : bool then parsing_error student_id problem code response parsed
  else
    is_correct ← py_get parsed "is_correct" (PyBool false);
    hints ← py_get parsed "hints" (PyList []);
    let grade :=
      if truthy is_correct then 100%float
      else if negb (truthy hints) then 50%float else 25%float in
    Ok (GradingResult.mk student_id problem code true (PyFloat grade) (PyFloat grade)
          parsed hints PyNone PyNone
          (GradingResponse.processing_time response) None).

Definition _parse_text_result (self : t) (student_id problem code : string)
    (response : GradingResponse.t) : result GradingResult.t :=
  match GradingResponse.raw_response response with
  | PyStr text =>
      found ← first_score score_patterns text;
      grade ← match found with
              | Some g => Ok (Some g)
              | None =>
                  match re_search "(\d+\.?\d*)%" text with
                  | Some group1 => g ← float_of_str group1; Ok (Some g)
                  | None => Ok None
                  end
              end;
      let percentage := default 0%float grade in
      Ok (GradingResult.mk student_id problem code true (opt_float grade)
            (PyFloat percentage) (PyDict {[ "raw_text" := PyStr text ]})
            PyNone PyNone PyNone
            (GradingResponse.processing_time response) None)
  | v =>
      Raise (TypeError ("expected string or bytes-like object, got '"
                          +:+ type_name v +:+ "'"))
  end.

(** The prompt that [grade_code] generates for an evaluation type. *)
Definition select_prompt (evaluation_type problem code : string)
    (model_solution : option string) : string :=
  if String.eqb evaluation_type "json" then
    generate_json_prompt problem code model_solution
  else if String.eqb evaluation_type "simple" then
    generate_simple_prompt problem code
  else if String.eqb evaluation_type "comprehensive" then
    generate_comprehensive_prompt problem code model_solution
  else generate_json_prompt problem code model_solution.

(** What [grade_code] does with the client's response. *)
Definition grade_response (self : t) (student_id problem code : string)
    (evaluation_type : string) (response : GradingResponse.t)
    : result GradingResult.t :=
  if negb (GradingResponse.success response) then
    Ok (GradingResult.failed student_id problem code
          (GradingResponse.processing_time response)
          (GradingResponse.error_message response))
  else if String.eqb evaluation_type "json" then
    _parse_json_result self student_id problem code response
  else if String.eqb evaluation_type "simple" then
    _parse_simple_result self student_id problem code response
  else _parse_text_result self student_id problem code response.

Definition grade_code (self : t) (x : exchange) (student_id problem code : string)
    (evaluation_type : string) (model_solution : option string)
    : result GradingResult.t :=
  let prompt := select_prompt evaluation_type problem code model_solution in
  let response := MultiModelClient.evaluate_code (client self) x prompt in
  grade_response self student_id problem code evaluation_type response.

Definition test_connection (self : t) (x : exchange) : result bool :=
  r ← MultiModelClient.test_connection (client self) x;
  Ok (GradingResponse.success r).

(** [submission[k]] *)
Definition submission_item (submission : gmap string string) (k : string)
    : result string :=
  match submission !! k with
  | Some v => Ok v
  | None => Raise (KeyError ("'" +:+ k +:+ "'"))
  end.

(** The loop of [grade_batch]; [net i] is the outside world during the
    call of [evaluate_code] for the submission at index [i], and [results]
    the list built so far. *)
Fixpoint grade_batch_loop (self : t) (net : nat -> exchange) (i : nat)
    (submissions : list (gmap string string)) (evaluation_type : string)
    (results : list GradingResult.t) : result (list GradingResult.t) :=
  match submissions with
  | [] => Ok results
  | submission :: rest =>
      let student_id := default "unknown" (submission !! "student_id") in
      problem ← submission_item submission "problem";
      code ← submission_item submission "code";
      r ← grade_code self (net i) student_id problem code evaluation_type
            (submission !! "model_solution");
      grade_batch_loop self net (S i) rest evaluation_type (results ++ [r])
  end.

Definition grade_batch (self : t) (net : nat -> exchange)
    (submissions : list (gmap string string)) (evaluation_type : string)
    : result (list GradingResult.t) :=
  grade_batch_loop self net 0 submissions evaluation_type [].

End WithRuntime.

End GradingEngine.

Module CodeGrader.

Record t : Type := mk {
  engine : GradingEngine.t;
  provider : string
}.

Definition opt_str (s : option string) : pyval :=
  match s with
  | Some m => PyStr m
  | None => PyNone
  end.

Definition _format_result (result : GradingResult.t) : gmap string pyval :=
  <["student_id" := PyStr (GradingResult.student_id result)]>
  (<["success" := PyBool (GradingResult.success result)]>
  (<["grade" := GradingResult.grade result]>
  (<["percentage" := GradingResult.percentage result]>
  (<["feedback" := GradingResult.feedback result]>
  (<["issues" := py_or (GradingResult.issues result) (PyList [])]>
  (<["recommendations" := py_or (GradingResult.recommendations result) (PyList [])]>
  (<["strengths" := py_or (GradingResult.strengths result) (PyList [])]>
  (<["processing_time" := PyFloat (GradingResult.processing_time result)]>
  (<["error" := opt_str (GradingResult.error_message result)]> ∅))))))))).

Section WithRuntime.
Context `{Runtime} `{PromptGenerator}.

Definition _test_connection (self : t) (x : exchange) : result unit :=
  ok ← GradingEngine.test_connection (engine self) x;
  if negb ok then
    Raise (ConnectionError ("Failed to connect to " +:+ provider self
             +:+ " API. Please check your API key and internet connection."))
  else Ok tt.

(** [x] is the outside world during the connection test. *)
Definition __init__ (x : exchange) (api_key model provider : string) : result t :=
  engine ← GradingEngine.__init__ api_key model provider;
  let self := mk engine provider in
  _ ← _test_connection self x;
  Ok self.

Definition grade_code (self : t) (x : exchange) (problem student_code : string)
    (student_id format : string) (model_solution : option string)
    : result (gmap string pyval) :=
  r ← GradingEngine.grade_code (engine self) x student_id problem student_code
        format model_solution;
  Ok (_format_result r).

Definition grade_multiple (self : t) (net : nat -> exchange)
    (submissions : list (gmap string string)) (format : string)
    : result (list (gmap string pyval)) :=
  results ← GradingEngine.grade_batch (engine self) net submissions format;
  Ok (map _format_result results).

Definition get_prompt_only (self : t) (problem student_code format : string)
    (model_solution : option string) : string :=
  if String.eqb format "json" then
    generate_json_prompt problem student_code model_solution
  else if String.eqb format "simple" then
    generate_simple_prompt problem student_code
  else if String.eqb format "comprehensive" then
    generate_comprehensive_prompt problem student_code model_solution
  else generate_json_prompt problem student_code model_solution.

End WithRuntime.

End CodeGrader.

(** The convenience functions of grader.py.  [quick_grade] builds a grader,
    which tests the connection in the world [x_test], and grades one
    submission in the world [x] under the facade's defaults: the student
    "student" and no reference solution. *)
Definition quick_grade `{Runtime} `{PromptGenerator} (x_test x : exchange)
    (api_key problem code format model provider : string)
    : result (gmap string pyval) :=
  grader ← CodeGrader.__init__ x_test api_key model provider;
  CodeGrader.grade_code grader x problem code "student" format None.

(** [get_prompt] makes a generator of its own and passes no reference
    solution. *)
Definition get_prompt (problem code format : string) : string :=
  if String.eqb format "json" then
    Prompts.generate_json_prompt problem code None
  else if String.eqb format "simple" then
    Prompts.generate_simple_prompt problem code
  else if String.eqb format "comprehensive" then
    Prompts.generate_comprehensive_prompt problem code None
  else Prompts.generate_json_prompt problem code None.

(** ** Running the code *)

(** A generator with bare templates, and an outside world that gives one
    answer whatever the request: what it takes to run a call on a concrete
    response. *)
Definition plain_prompts : PromptGenerator :=
  {| generate_json_prompt := fun problem code _ => "json: " +:+ problem +:+ newline +:+ code;
     generate_simple_prompt := fun problem code => "simple: " +:+ problem +:+ newline +:+ code;
     generate_comprehensive_prompt :=
       fun problem code _ => "comprehensive: " +:+ problem +:+ newline +:+ code |}.

Definition answering (o : http_outcome) : exchange :=
  Exchange (fun _ _ => o) 100%float 102.5%float 102.5%float 102.5%float.

(** [s] as a JSON string literal. *)
Fixpoint json_quote_body (s : string) : string :=
  match s with
  | "" => ""
  | String c s' =>
      (if Ascii.eqb c Json.dquote then String Json.backslash (String Json.dquote "")
       else if Ascii.eqb c Json.backslash then String Json.backslash (String Json.backslash "")
       else if Ascii.eqb c "010" then String Json.backslash "n"
       else String c "") +:+ json_quote_body s'
  end.

Definition json_quote (s : string) : string :=
  String Json.dquote (json_quote_body s +:+ String Json.dquote "").


(** The provider's reply with status 200 whose completion is [content], in
    the shape of the OpenAI and Groq endpoints. *)
Definition completion (content : string) : http_outcome :=
  HttpResponse 200
    (dq "{'choices': [{'message': {'role': 'assistant', 'content': "
       +:+ json_quote content +:+ "}}]}").

Definition openai_client : MultiModelClient.t :=
  MultiModelClient.mk "sk-test" "gpt-3.5-turbo" "openai"
    "https://api.openai.com/v1/chat/completions".

Definition openai_engine : GradingEngine.t := GradingEngine.mk openai_client.

(** ** The words of the specification *)

(** Python's [==] on two numbers: an int and a float are equal when the
    float is that very integer (no rounding of the int). *)
Definition float_is_Z (f : float) (z : Z) : bool :=
  match Prim2SF f with
  | S754_zero _ => (z =? 0)%Z
  | S754_finite neg m e =>
      let v := if neg then Z.neg m else Z.pos m in
      if (0 <=? e)%Z then (z =? v * 2 ^ e)%Z
      else ((v mod 2 ^ (- e) =? 0) && (z =? v / 2 ^ (- e)))%Z
  | _ => false
  end.

Definition num_eq (a b : pyval) : bool :=
  match a, b with
  | PyInt x, PyInt y => (x =? y)%Z
  | PyFloat f, PyFloat g => PrimFloat.eqb f g
  | PyInt z, PyFloat f | PyFloat f, PyInt z => float_is_Z f z
  | _, _ => false
  end.

(** A field is present when it is not None. *)
Definition present (v : pyval) : Prop := v <> PyNone.

(** The invariant of a grading result as the specification words it. *)
Definition result_invariant (r : GradingResult.t) : Prop :=
  (GradingResult.success r = false ->
     GradingResult.grade r = PyNone /\ GradingResult.percentage r = PyNone
     /\ GradingResult.feedback r = PyNone /\ is_Some (GradingResult.error_message r))
  /\ (GradingResult.success r = true ->
        present (GradingResult.grade r) /\ present (GradingResult.percentage r)).

(** The score patterns in the order the specification gives them: a line
    TOTAL: N/100, then Total:, then Score:, then Grade:. *)
Definition claimed_patterns : list string :=
  [ "TOTAL:\s*(\d+)/100"; "Total:\s*(\d+)/100"; "Score:\s*(\d+)/100";
    "Grade:\s*(\d+)/100" ].

(** What the first pattern of a list that matches somewhere in the text
    captures. *)
Definition first_capture (patterns : list string) (text : string) : option string :=
  head (omap (fun pattern => re_search pattern text) patterns).

(** The grade of a text response in the specification's words: the number
    of the first score pattern that matches, else the first number followed
    by a percent sign, else none. *)
Definition claimed_grade (text : string) : option float :=
  decimal_float <$>
    match first_capture claimed_patterns text with
    | Some g => Some g
    | None => re_search "(\d+\.?\d*)%" text
    end.

(** The sentinel that the extractor returns in place of raising. *)
Definition sentinel (msg text : string) : pyval :=
  PyDict (<["error" := PyStr ("Invalid JSON response: " +:+ msg)]>
            (<["raw_response" := PyStr text]> ∅)).

(** ** Notions for the statements and the proofs *)

(** [sub] occurs in [s] at offset [i]. *)
Definition occurs_at (sub s : string) (i : nat) : Prop :=
  i <= String.length s /\ str_startswith sub (str_drop i s) = true.

(** The occurrence at [i] is the first one. *)
Definition first_at (sub s : string) (i : nat) : Prop :=
  occurs_at sub s i /\ forall j, j < i -> ~ occurs_at sub s j.

(** The occurrence at [i] is the last one. *)
Definition last_at (sub s : string) (i : nat) : Prop :=
  occurs_at sub s i /\ forall j, i < j -> ~ occurs_at sub s j.

(** The occurrence at [i] is the first one at or after offset [n]. *)
Definition first_from (sub s : string) (n i : nat) : Prop :=
  n <= i /\ occurs_at sub s i /\ forall j, n <= j -> j < i -> ~ occurs_at sub s j.

(** [s] between an opening fence tagged json and a closing fence, each on
    a line of its own. *)
Definition fence_wrap (s : string) : string :=
  "```json" +:+ newline +:+ s +:+ newline +:+ "```".

(** The state of a match after the characters of [t] were consumed one by
    one. *)
Fixpoint consume_all (t : string) (st : mstate) : mstate :=
  match t with
  | "" => st
  | String c t' => consume_all t' (consume c st)
  end.

(** A regex without group marks. *)
Definition group_free (r : regex) : bool :=
  forallb (fun n => match n with Atom _ _ => true | _ => false end) r.

(** The result that [_parse_json_result] builds from a decoded object
    without the key "error", [fallback] being the scaled score. *)
Definition json_result (sid problem code : string) (response : GradingResponse.t)
    (d : gmap string pyval) (fallback : pyval) : GradingResult.t :=
  GradingResult.mk sid problem code true
    (dict_get d "total_score" (PyInt 0))
    (dict_get d "percentage" fallback)
    (PyDict d)
    (dict_get d "issues" (PyList []))
    (dict_get d "recommendations" (PyList []))
    (dict_get d "strengths" (PyList []))
    (GradingResponse.processing_time response) None.

(** The result that [_parse_simple_result] builds from a decoded object
    without the key "error". *)
Definition simple_result (sid problem code : string) (response : GradingResponse.t)
    (d : gmap string pyval) : GradingResult.t :=
  let grade :=
    if truthy (dict_get d "is_correct" (PyBool false)) then 100%float
    else if negb (truthy (dict_get d "hints" (PyList []))) then 50%float
    else 25%float in
  GradingResult.mk sid problem code true (PyFloat grade) (PyFloat grade) (PyDict d)
    (dict_get d "hints" (PyList [])) PyNone PyNone
    (GradingResponse.processing_time response) None.

(** [(total_score / 100.0 * 100)] for an integer score. *)
Definition scaled (z : Z) : float :=
  PrimFloat.mul (PrimFloat.div (float_of_Z z) 100%float) 100%float.

(** The integer scores from 0 to 100 at which the scaled score is not the
    score. *)
Definition off_scores : list Z := [7; 14; 28; 29; 55; 56; 57; 58]%Z.

(** How the facade fills a list-valued entry from the engine's field: never
    with None; with the field when it is truthy, with an empty list when
    it is None, empty or otherwise falsy. *)
Definition defaulted (field : pyval) (entry : option pyval) : Prop :=
  exists v, entry = Some v /\ v <> PyNone
    /\ (truthy field = true -> v = field)
    /\ (truthy field = false -> v = PyList []).

(** The provider names that [MultiModelClient.__init__] accepts. *)
Definition supported_provider (provider : string) : bool :=
  let p := str_lower provider in
  String.eqb p "openai" || String.eqb p "anthropic" || String.eqb p "gemini"
  || String.eqb p "groq".



(** The name under which the call for each provider reports a status
    other than 200. *)
Definition provider_names : list (string * string) :=
  [ ("openai", "OpenAI"); ("anthropic", "Anthropic"); ("gemini", "Gemini");
    ("groq", "Groq") ].

(** The key that the call for each provider reads first in a decoded
    body. *)
Definition first_keys : list (string * string) :=
  [ ("openai", "choices"); ("anthropic", "content"); ("gemini", "candidates");
    ("groq", "choices") ].

(** The URL that [evaluate_code] posts to: the base URL, but for Gemini,
    where the model's name and the API key are part of it. *)
Definition request_url (self : MultiModelClient.t) : string :=
  if String.eqb (MultiModelClient.provider self) "gemini" then MultiModelClient.base_url self +:+ "/"
         +:+ MultiModelClient.model_mapping (MultiModelClient.model self)
         +:+ ":generateContent?key=" +:+ MultiModelClient.api_key self
  else MultiModelClient.base_url self.

(** Where the call for each provider looks for the completion in a decoded
    body. *)
Definition completion_of (provider : string) (data : pyval) : result pyval :=
  if String.eqb provider "anthropic" then
    a ← py_getitem data "content"; b ← py_first a; py_getitem b "text"
  else if String.eqb provider "gemini" then
    a ← py_getitem data "candidates"; b ← py_first a;
    c ← py_getitem b "content"; d ← py_getitem c "parts";
    e ← py_first d; py_getitem e "text"
  else
    a ← py_getitem data "choices"; b ← py_first a;
    c ← py_getitem b "message"; py_getitem c "content".

(** The prompt of the connection test. *)
Definition test_prompt : string := "Respond with exactly: 'Connection successful'".

(** The values that [in] accepts on its right. *)
Definition iterable (v : pyval) : bool :=
  match v with
  | PyStr _ | PyList _ | PyDict _ => true
  | _ => false
  end.

(** A text without a backtick. *)
Definition no_backtick (s : string) : bool :=
  str_forall (fun c => negb (Ascii.eqb c "`")) s.

(** The keys of the facade's output. *)
Definition result_keys : list string :=
  [ "student_id"; "success"; "grade"; "percentage"; "feedback"; "issues";
    "recommendations"; "strengths"; "processing_time"; "error" ].

(** Two outside worlds whose clocks read the same. *)
Definition same_clocks (x x' : exchange) : Prop :=
  t_start x = t_start x' /\ t_replied x = t_replied x'
  /\ t_unsupported x = t_unsupported x' /\ t_failed x = t_failed x'.

(** The submission at each index of a batch has its two required keys, and
    [item] relates it to the outcome at the same index. *)
Definition itemwise {A : Type} (submissions : list (gmap string string))
    (outcomes : list A)
    (item : nat -> string -> string -> string -> option string -> A -> Prop) : Prop :=
  length outcomes = length submissions
  /\ forall k submission, submissions !! k = Some submission ->
       exists problem code outcome,
         submission !! "problem" = Some problem
         /\ submission !! "code" = Some code
         /\ outcomes !! k = Some outcome
         /\ item k (default "unknown" (submission !! "student_id")) problem code
              (submission !! "model_solution") outcome.

(** * Facts about the runtime model *)

(** ** The error monad *)

Lemma bind_Ok {A B : Type} (a : A) (k : A -> result B) : (Ok a ≫= k) = k a.
Proof. reflexivity. Qed.

Lemma bind_Raise {A B : Type} (e : exn) (k : A -> result B) : (Raise e ≫= k) = Raise e.
Proof. reflexivity. Qed.

Lemma bind_Ok_inv {A B : Type} (m : result A) (k : A -> result B) (b : B) :
  (m ≫= k) = Ok b -> exists a, m = Ok a /\ k a = Ok b.
Proof. destruct m as [a|e]; [eauto | discriminate]. Qed.

(** Splits an equation [m ≫= k = Ok b] in the hypotheses. *)
Ltac bind_inv H :=
  let a := fresh "a" in
  let Ha := fresh "Ha" in
  apply bind_Ok_inv in H; destruct H as (a & Ha & H).

(** ** Strings: lengths, prefixes and slices *)

Lemma str_app_nil_l (s : string) : "" +:+ s = s.
Proof. reflexivity. Qed.

Lemma str_app_cons (c : ascii) (a b : string) : String c a +:+ b = String c (a +:+ b).
Proof. reflexivity. Qed.

(** Pushes the appends of a goal inwards, past the characters in front. *)
Ltac push_app := rewrite ?str_app_cons, ?str_app_nil_l.

Lemma str_length_app (a b : string) :
  String.length (a +:+ b) = String.length a + String.length b.
Proof. induction a as [|c a IH]; push_app; simpl; [reflexivity | now rewrite IH]. Qed.

Lemma str_app_assoc (a b c : string) : (a +:+ b) +:+ c = a +:+ (b +:+ c).
Proof. induction a as [|x a IH]; push_app; [reflexivity | now rewrite IH]. Qed.

Lemma str_app_nil_r (a : string) : a +:+ "" = a.
Proof. induction a as [|x a IH]; push_app; [reflexivity | now rewrite IH]. Qed.

Lemma str_drop_nil (n : nat) : str_drop n "" = "".
Proof. now destruct n. Qed.

Lemma str_drop_app (a b : string) : str_drop (String.length a) (a +:+ b) = b.
Proof. induction a as [|x a IH]; push_app; simpl; [now destruct b | exact IH]. Qed.

Lemma str_drop_app_le (n : nat) (a b : string) :
  n <= String.length a -> str_drop n (a +:+ b) = str_drop n a +:+ b.
Proof.
  revert n; induction a as [|x a IH]; intros [|n] Hn; push_app; simpl in *;
    try reflexivity.
  - lia.
  - apply IH; lia.
Qed.

Lemma str_drop_drop (m n : nat) (s : string) :
  str_drop n (str_drop m s) = str_drop (m + n) s.
Proof.
  revert s; induction m as [|m IH]; intros s; simpl; [reflexivity |].
  destruct s as [|c s]; [now rewrite str_drop_nil | apply IH].
Qed.

Lemma str_drop_length (n : nat) (s : string) :
  String.length (str_drop n s) = String.length s - n.
Proof.
  revert s; induction n as [|n IH]; intros [|c s]; simpl; try reflexivity; try lia.
  apply IH.
Qed.

Lemma str_drop_all (n : nat) (s : string) : String.length s <= n -> str_drop n s = "".
Proof.
  revert s; induction n as [|n IH]; intros [|c s] Hn; simpl in *; try reflexivity; try lia.
  apply IH; lia.
Qed.

Lemma str_take_drop_substring (m n : nat) (s : string) :
  str_take n (str_drop m s) = substring m n s.
Proof.
  revert n s; induction m as [|m IH]; intros n s.
  - simpl. revert s; induction n as [|n IHn]; intros [|c s]; simpl; try reflexivity.
    now rewrite IHn.
  - destruct s as [|c s]; simpl; [now destruct n | apply IH].
Qed.

Lemma str_take_app (a b : string) : str_take (String.length a) (a +:+ b) = a.
Proof. induction a as [|x a IH]; push_app; simpl; [reflexivity | now rewrite IH]. Qed.

Lemma str_startswith_length (p s : string) :
  str_startswith p s = true -> String.length p <= String.length s.
Proof.
  revert s; induction p as [|a p IH]; intros [|b s] H; simpl in *; try lia; try discriminate.
  apply andb_prop in H as [_ H]. apply IH in H. lia.
Qed.

Lemma str_startswith_app (p s : string) : str_startswith p (p +:+ s) = true.
Proof.
  induction p as [|a p IH]; push_app; simpl; [reflexivity |].
  now rewrite Ascii.eqb_refl.
Qed.

Lemma str_startswith_split (p s : string) :
  str_startswith p s = true -> s = p +:+ str_drop (String.length p) s.
Proof.
  revert s; induction p as [|a p IH]; intros [|b s] H; push_app; simpl in *;
    try reflexivity; try discriminate.
  apply andb_prop in H as [Hab H]. apply Ascii.eqb_eq in Hab. subst b.
  f_equal. now apply IH.
Qed.

(** ** Occurrences of a substring *)

Lemma occurs_at_0 (sub s : string) :
  occurs_at sub s 0 <-> str_startswith sub s = true.
Proof. unfold occurs_at; simpl. split; [tauto | split; [lia | assumption]]. Qed.

Lemma occurs_at_S (sub : string) (c : ascii) (s : string) (i : nat) :
  occurs_at sub (String c s) (S i) <-> occurs_at sub s i.
Proof. unfold occurs_at; simpl. split; intros [? ?]; split; try assumption; lia. Qed.

Lemma occurs_at_drop (sub s : string) (n i : nat) :
  n <= String.length s -> (occurs_at sub (str_drop n s) i <-> occurs_at sub s (n + i)).
Proof.
  intros Hn. unfold occurs_at. rewrite str_drop_drop, str_drop_length.
  split; intros [? ?]; split; try assumption; lia.
Qed.

Lemma index_of_Some (sub s : string) (i : nat) :
  index_of sub s = Some i <-> first_at sub s i.
Proof.
  unfold first_at. revert i; induction s as [|c s IH]; intros i; simpl.
  - destruct (str_startswith sub "") eqn:E; split.
    + intros [= <-]. split; [now apply occurs_at_0 | intros; lia].
    + intros [[Hi _] _]. simpl in Hi. f_equal; lia.
    + discriminate.
    + intros [[Hi Hs] _]. simpl in Hi. rewrite str_drop_nil in Hs. congruence.
  - destruct (str_startswith sub (String c s)) eqn:E; split.
    + intros [= <-]. split; [now apply occurs_at_0 | intros; lia].
    + intros [_ Hmin]. destruct i as [|i]; [reflexivity |].
      exfalso. apply (Hmin 0); [lia | now apply occurs_at_0].
    + destruct (index_of sub s) as [k|] eqn:Ek; simpl; [| discriminate].
      intros [= <-]. destruct (proj1 (IH k) eq_refl) as [Hk Hmin]. split.
      * now apply occurs_at_S.
      * intros [|j] Hj; [rewrite occurs_at_0; congruence |].
        rewrite occurs_at_S. apply Hmin; lia.
    + intros [Hi Hmin]. destruct i as [|i].
      * apply occurs_at_0 in Hi. congruence.
      * assert (Hk : index_of sub s = Some i).
        { apply IH. split; [now apply occurs_at_S in Hi |].
          intros j Hj Hocc. apply (Hmin (S j)); [lia | now apply occurs_at_S]. }
        now rewrite Hk.
Qed.

Lemma index_of_None (sub s : string) :
  index_of sub s = None <-> forall j, ~ occurs_at sub s j.
Proof.
  induction s as [|c s IH]; simpl.
  - destruct (str_startswith sub "") eqn:E; split; try discriminate; try reflexivity.
    + intros Hno. exfalso. apply (Hno 0). now apply occurs_at_0.
    + intros _ j [Hj Hs]. simpl in Hj. rewrite str_drop_nil in Hs. congruence.
  - destruct (str_startswith sub (String c s)) eqn:E; split; try discriminate.
    + intros Hno. exfalso. apply (Hno 0). now apply occurs_at_0.
    + destruct (index_of sub s) eqn:Ek; simpl; [discriminate |].
      intros _ [|j]; [rewrite occurs_at_0; congruence |].
      rewrite occurs_at_S. now apply (proj1 IH eq_refl).
    + intros Hno. assert (Hk : index_of sub s = None).
      { apply IH. intros j Hocc. apply (Hno (S j)). now apply occurs_at_S. }
      now rewrite Hk.
Qed.

Lemma rindex_of_None (sub s : string) :
  rindex_of sub s = None <-> forall j, ~ occurs_at sub s j.
Proof.
  induction s as [|c s IH]; simpl.
  - destruct (str_startswith sub "") eqn:E; split; try discriminate; try reflexivity.
    + intros Hno. exfalso. apply (Hno 0). now apply occurs_at_0.
    + intros _ j [Hj Hs]. simpl in Hj. rewrite str_drop_nil in Hs. congruence.
  - split.
    + intros Hr j. destruct (rindex_of sub s) eqn:Ek; [discriminate |].
      destruct (str_startswith sub (String c s)) eqn:E; [discriminate |].
      destruct j as [|j]; [rewrite occurs_at_0; congruence |].
      rewrite occurs_at_S. now apply (proj1 IH eq_refl).
    + intros Hno. assert (Hs : rindex_of sub s = None).
      { apply IH. intros j Hocc. apply (Hno (S j)). now apply occurs_at_S. }
      rewrite Hs. destruct (str_startswith sub (String c s)) eqn:E; [| reflexivity].
      exfalso. apply (Hno 0). now apply occurs_at_0.
Qed.

Lemma rindex_of_Some (sub s : string) (i : nat) :
  rindex_of sub s = Some i <-> last_at sub s i.
Proof.
  unfold last_at. revert i; induction s as [|c s IH]; intros i; simpl.
  - destruct (str_startswith sub "") eqn:E; split.
    + intros [= <-]. split; [now apply occurs_at_0 |].
      intros j Hj [Hlen _]. simpl in Hlen. lia.
    + intros [[Hi _] _]. simpl in Hi. f_equal; lia.
    + discriminate.
    + intros [[Hi Hs] _]. rewrite str_drop_nil in Hs. congruence.
  - destruct (rindex_of sub s) as [k|] eqn:Ek.
    + split.
      * intros [= <-]. destruct (proj1 (IH k) eq_refl) as [Hk Hmax].
        split; [now apply occurs_at_S |].
        intros [|j] Hj; [lia |]. rewrite occurs_at_S. apply Hmax; lia.
      * intros [Hi Hmax]. destruct (proj1 (IH k) eq_refl) as [Hk Hmax']. f_equal.
        destruct i as [|i].
        -- exfalso. apply (Hmax (S k)); [lia | now apply occurs_at_S].
        -- apply occurs_at_S in Hi.
           destruct (Nat.lt_trichotomy i k) as [Hlt|[Heq|Hgt]]; [| congruence |].
           ++ exfalso. apply (Hmax (S k)); [lia | now apply occurs_at_S].
           ++ exfalso. now apply (Hmax' i).
    + pose proof (proj1 (rindex_of_None sub s) Ek) as Hno.
      destruct (str_startswith sub (String c s)) eqn:E; split.
      * intros [= <-]. split; [now apply occurs_at_0 |].
        intros [|j] Hj; [lia |]. rewrite occurs_at_S. apply Hno.
      * intros [Hi _]. destruct i as [|i]; [reflexivity |].
        apply occurs_at_S in Hi. now apply Hno in Hi.
      * discriminate.
      * intros [Hi _]. destruct i as [|i].
        -- apply occurs_at_0 in Hi. congruence.
        -- apply occurs_at_S in Hi. now apply Hno in Hi.
Qed.

Lemma str_contains_true (sub s : string) :
  str_contains sub s = true <-> exists i, first_at sub s i.
Proof.
  unfold str_contains. rewrite bool_decide_eq_true. split.
  - intros [i Hi]. exists i. now apply index_of_Some.
  - intros [i Hi]. exists i. now apply index_of_Some.
Qed.

Lemma str_contains_false (sub s : string) :
  str_contains sub s = false <-> forall j, ~ occurs_at sub s j.
Proof.
  unfold str_contains. rewrite bool_decide_eq_false, <- index_of_None.
  destruct (index_of sub s); split; intros Hx; try reflexivity; try discriminate.
  - exfalso. apply Hx. eauto.
  - intros [? ?]. discriminate.
Qed.

(** ** Python's indices *)

Lemma slice_bound_nat (s : string) (a : nat) :
  a <= String.length s -> slice_bound (str_len s) (Z.of_nat a) = Z.of_nat a.
Proof.
  intros Ha. unfold slice_bound, str_len.
  destruct (Z.ltb_spec (Z.of_nat a) 0); lia.
Qed.

Lemma occurs_at_bound (sub s : string) (i : nat) :
  occurs_at sub s i -> i + String.length sub <= String.length s.
Proof.
  intros [Hi Hs]. apply str_startswith_length in Hs.
  rewrite str_drop_length in Hs. lia.
Qed.

Lemma str_find_from_first (s sub : string) (n i : nat) :
  n <= String.length s -> first_from sub s n i ->
  str_find_from s sub (Z.of_nat n) = Z.of_nat i.
Proof.
  intros Hn (Hni & Hocc & Hmin). unfold str_find_from.
  rewrite slice_bound_nat by assumption. rewrite Nat2Z.id.
  destruct (Z.ltb_spec (str_len s) (Z.of_nat n)) as [Hlt|_]; [unfold str_len in Hlt; lia |].
  assert (Hk : index_of sub (str_drop n s) = Some (i - n)).
  { apply index_of_Some. split.
    - apply occurs_at_drop; [assumption |]. now replace (n + (i - n)) with i by lia.
    - intros j Hj Hocc'. apply occurs_at_drop in Hocc'; [| assumption].
      apply (Hmin (n + j)); [lia | lia | assumption]. }
  rewrite Hk. lia.
Qed.

Lemma str_find_from_none (s sub : string) (n : nat) :
  n <= String.length s -> (forall j, n <= j -> ~ occurs_at sub s j) ->
  str_find_from s sub (Z.of_nat n) = (-1)%Z.
Proof.
  intros Hn Hno. unfold str_find_from.
  rewrite slice_bound_nat by assumption. rewrite Nat2Z.id.
  destruct (Z.ltb_spec (str_len s) (Z.of_nat n)) as [Hlt|_]; [reflexivity |].
  assert (Hk : index_of sub (str_drop n s) = None).
  { apply index_of_None. intros j Hocc. apply occurs_at_drop in Hocc; [| assumption].
    apply (Hno (n + j)); [lia | assumption]. }
  now rewrite Hk.
Qed.

Lemma str_find_first (s sub : string) (i : nat) :
  first_at sub s i -> str_find s sub = Z.of_nat i.
Proof.
  intros [Hocc Hmin]. unfold str_find.
  apply (str_find_from_first s sub 0 i); [lia |].
  split; [lia |]. split; [assumption |]. intros j _ Hj. now apply Hmin.
Qed.

Lemma str_rfind_last (s sub : string) (i : nat) :
  last_at sub s i -> str_rfind s sub = Z.of_nat i.
Proof. intros Hl. unfold str_rfind. apply rindex_of_Some in Hl. now rewrite Hl. Qed.

Lemma str_slice_nat (s : string) (a b : nat) :
  a <= String.length s -> b <= String.length s ->
  str_slice s (Z.of_nat a) (Z.of_nat b) = substring a (b - a) s.
Proof.
  intros Ha Hb. unfold str_slice. rewrite !slice_bound_nat by assumption.
  rewrite Nat2Z.id, <- str_take_drop_substring. f_equal. lia.
Qed.

Lemma str_slice_to_last (s : string) (a : nat) :
  a <= String.length s ->
  str_slice s (Z.of_nat a) (-1) = substring a (String.length s - 1 - a) s.
Proof.
  intros Ha. unfold str_slice. rewrite slice_bound_nat by assumption.
  rewrite Nat2Z.id, <- str_take_drop_substring. f_equal.
  unfold slice_bound, str_len. simpl. lia.
Qed.

(** ** The extractor's fences *)

Lemma fenced_text_json (text : string) (i j : nat) :
  first_at "```json" text i -> first_from "```" text (i + 7) j ->
  MultiModelClient.fenced_text text = str_strip (substring (i + 7) (j - (i + 7)) text).
Proof.
  intros Hi Hj. unfold MultiModelClient.fenced_text.
  assert (Hc : str_contains "```json" text = true) by (apply str_contains_true; eauto).
  rewrite Hc, (str_find_first _ _ _ Hi).
  pose proof (occurs_at_bound _ _ _ (proj1 Hi)) as Hlen. simpl in Hlen.
  pose proof (occurs_at_bound _ _ _ (proj1 (proj2 Hj))) as Hlen'. simpl in Hlen'.
  replace (Z.of_nat i + 7)%Z with (Z.of_nat (i + 7)) by lia.
  rewrite (str_find_from_first _ _ _ _ Hlen Hj).
  now rewrite str_slice_nat by lia.
Qed.

Lemma fenced_text_json_open (text : string) (i : nat) :
  first_at "```json" text i -> (forall j, i + 7 <= j -> ~ occurs_at "```" text j) ->
  MultiModelClient.fenced_text text
  = str_strip (substring (i + 7) (String.length text - 1 - (i + 7)) text).
Proof.
  intros Hi Hno. unfold MultiModelClient.fenced_text.
  assert (Hc : str_contains "```json" text = true) by (apply str_contains_true; eauto).
  rewrite Hc, (str_find_first _ _ _ Hi).
  pose proof (occurs_at_bound _ _ _ (proj1 Hi)) as Hlen. simpl in Hlen.
  replace (Z.of_nat i + 7)%Z with (Z.of_nat (i + 7)) by lia.
  rewrite (str_find_from_none _ _ _ Hlen Hno).
  now rewrite str_slice_to_last by lia.
Qed.

Lemma fenced_text_plain (text : string) (i j : nat) :
  (forall k, ~ occurs_at "```json" text k) ->
  first_at "```" text i -> last_at "```" text j ->
  MultiModelClient.fenced_text text = str_strip (substring (i + 3) (j - (i + 3)) text).
Proof.
  intros Hno Hi Hj. unfold MultiModelClient.fenced_text.
  assert (Hc : str_contains "```json" text = false) by now apply str_contains_false.
  assert (Hc' : str_contains "```" text = true) by (apply str_contains_true; eauto).
  rewrite Hc, Hc', (str_find_first _ _ _ Hi), (str_rfind_last _ _ _ Hj).
  pose proof (occurs_at_bound _ _ _ (proj1 Hi)) as Hlen. simpl in Hlen.
  pose proof (occurs_at_bound _ _ _ (proj1 Hj)) as Hlen'. simpl in Hlen'.
  replace (Z.of_nat i + 3)%Z with (Z.of_nat (i + 3)) by lia.
  now rewrite str_slice_nat by lia.
Qed.

Lemma occurs_at_longer (text : string) (k : nat) :
  occurs_at "```json" text k -> occurs_at "```" text k.
Proof.
  intros [Hk Hs]. split; [assumption |].
  destruct (str_drop k text) as [|a [|b [|c r]]]; simpl in *;
    rewrite ?andb_false_r in Hs; try discriminate.
  apply andb_prop in Hs as [Ha Hs]. apply andb_prop in Hs as [Hb Hs].
  apply andb_prop in Hs as [Hc _]. now rewrite Ha, Hb, Hc.
Qed.

Lemma fenced_text_none (text : string) :
  (forall k, ~ occurs_at "```" text k) ->
  MultiModelClient.fenced_text text = str_strip text.
Proof.
  intros Hno. unfold MultiModelClient.fenced_text.
  assert (Hc : str_contains "```json" text = false).
  { apply str_contains_false. intros k Hk. apply (Hno k). now apply occurs_at_longer. }
  assert (Hc' : str_contains "```" text = false) by now apply str_contains_false.
  now rewrite Hc, Hc'.
Qed.

(** ** Stripping *)

Lemma str_rstrip_newline (s : string) : str_rstrip (s +:+ newline) = str_rstrip s.
Proof.
  induction s as [|c s IH]; push_app; [reflexivity |].
  simpl. now rewrite IH.
Qed.

Lemma str_strip_newline_r (s : string) : str_strip (s +:+ newline) = str_strip s.
Proof.
  unfold str_strip. induction s as [|c s IH]; push_app; [reflexivity |].
  simpl. destruct (isspace c); [exact IH |].
  rewrite <- str_app_cons. apply str_rstrip_newline.
Qed.

Lemma str_strip_newline_l (s : string) : str_strip (newline +:+ s) = str_strip s.
Proof. reflexivity. Qed.

(** ** A response wrapped in a fence *)

Lemma fence_not_across_newline (t : string) :
  str_startswith "```" (t +:+ newline +:+ "```") = true -> str_startswith "```" t = true.
Proof.
  destruct t as [|a [|b [|c r]]]; push_app; simpl; try discriminate.
  - rewrite andb_false_r. discriminate.
  - rewrite !andb_false_r. discriminate.
  - now rewrite !andb_true_r.
Qed.

Lemma fence_wrap_closing (s : string) :
  str_contains "```" s = false ->
  first_from "```" (fence_wrap s) 7 (String.length s + 9).
Proof.
  intros Hno. pose proof (proj1 (str_contains_false _ _) Hno) as Hocc.
  assert (Hlen : String.length (fence_wrap s) = String.length s + 12).
  { unfold fence_wrap. rewrite !str_length_app. simpl. lia. }
  split; [lia |]. split.
  - split; [lia |].
    replace (fence_wrap s) with (("```json" +:+ newline +:+ s +:+ newline) +:+ "```")
      by (unfold fence_wrap; now rewrite !str_app_assoc).
    replace (String.length s + 9)
      with (String.length ("```json" +:+ newline +:+ s +:+ newline))
      by (rewrite !str_length_app; simpl; lia).
    now rewrite str_drop_app.
  - intros j Hj7 Hj [_ Hs].
    replace j with (7 + (j - 7)) in Hs by lia.
    rewrite <- str_drop_drop in Hs.
    change (str_drop 7 (fence_wrap s)) with (newline +:+ s +:+ newline +:+ "```") in Hs.
    destruct (j - 7) as [|m] eqn:Em; [discriminate Hs |].
    change (str_drop (S m) (newline +:+ s +:+ newline +:+ "```"))
      with (str_drop m (s +:+ newline +:+ "```")) in Hs.
    rewrite str_drop_app_le in Hs by lia.
    apply fence_not_across_newline in Hs.
    apply (Hocc m). split; [lia | assumption].
Qed.

Lemma fenced_text_wrap (s : string) :
  str_contains "```" s = false ->
  MultiModelClient.fenced_text (fence_wrap s) = str_strip s.
Proof.
  intros Hno.
  rewrite (fenced_text_json (fence_wrap s) 0 (String.length s + 9)).
  - rewrite <- str_take_drop_substring.
    change (str_drop (0 + 7) (fence_wrap s))
      with (newline +:+ s +:+ newline +:+ "```").
    replace (newline +:+ s +:+ newline +:+ "```")
      with ((newline +:+ s +:+ newline) +:+ "```") by now rewrite !str_app_assoc.
    replace (String.length s + 9 - (0 + 7))
      with (String.length (newline +:+ s +:+ newline))
      by (rewrite !str_length_app; simpl; lia).
    rewrite str_take_app, <- str_app_assoc, str_strip_newline_r.
    apply str_strip_newline_l.
  - split; [| intros; lia]. apply occurs_at_0. apply str_startswith_app.
  - now apply fence_wrap_closing.
Qed.

(** ** What a match consumes and captures *)

Lemma consume_all_recording (t : string) (st : mstate) :
  recording (consume_all t st) = (fun a => a +:+ t) <$> recording st
  /\ group1 (consume_all t st) = group1 st.
Proof.
  revert st; induction t as [|c t IH]; intros [rec g]; simpl.
  - split; [| reflexivity]. destruct rec; simpl; [now rewrite str_app_nil_r | reflexivity].
  - destruct (IH (consume c (MState rec g))) as [Hr Hg]. rewrite Hr, Hg. split; [| reflexivity].
    destruct rec; simpl; [| reflexivity].
    now rewrite str_app_assoc.
Qed.

Lemma consume_all_idle (t : string) (g : option string) :
  consume_all t (MState None g) = MState None g.
Proof. induction t as [|c t IH]; simpl; [reflexivity | exact IH]. Qed.

Lemma consume_all_open (t acc : string) (g : option string) :
  consume_all t (MState (Some acc) g) = MState (Some (acc +:+ t)) g.
Proof.
  revert acc; induction t as [|c t IH]; intros acc; simpl.
  - now rewrite str_app_nil_r.
  - unfold consume; simpl. rewrite IH. now rewrite str_app_assoc.
Qed.

Lemma str_forall_app (p : ascii -> bool) (a b : string) :
  str_forall p (a +:+ b) = str_forall p a && str_forall p b.
Proof.
  induction a as [|c a IH]; push_app; simpl; [reflexivity |].
  now rewrite IH, andb_assoc.
Qed.

Lemma one_Some (p : ascii -> bool) (k : mstate -> string -> option mstate)
    (st : mstate) (s : string) (m : mstate) :
  one p k st s = Some m ->
  exists c s', s = String c s' /\ p c = true /\ k (consume c st) s' = Some m.
Proof.
  destruct s as [|c s']; simpl; [discriminate |].
  destruct (p c) eqn:E; [| discriminate]. eauto.
Qed.

Lemma greedy_Some (p : ascii -> bool) (k : mstate -> string -> option mstate)
    (st : mstate) (s : string) (m : mstate) :
  greedy p k st s = Some m ->
  exists t s', s = t +:+ s' /\ str_forall p t = true /\ k (consume_all t st) s' = Some m.
Proof.
  revert st; induction s as [|c s IH]; intros st; simpl.
  - intros Hk. exists "", "". auto.
  - destruct (p c) eqn:E.
    + destruct (greedy p k (consume c st) s) as [m'|] eqn:G.
      * intros [= <-]. destruct (IH _ G) as (t & s' & -> & Ht & Hk).
        exists (String c t), s'. simpl. rewrite E, Ht. auto.
      * intros Hk. exists "", (String c s). auto.
    + intros Hk. exists "", (String c s). auto.
Qed.

(** One step of [match_here] on an atom: the characters [t] that the atom
    took, all in its class, and the rest of the match. *)
Lemma match_atom (cs : charset) (q : quant) (r : regex) (st : mstate) (s : string)
    (m : mstate) :
  match_here (Atom cs q :: r) st s = Some m ->
  exists t s', s = t +:+ s' /\ str_forall (charset_mem cs) t = true
    /\ match q with
       | Once => String.length t = 1
       | ZeroOrOne => String.length t <= 1
       | ZeroOrMore => True
       | OneOrMore => 1 <= String.length t
       end
    /\ match_here r (consume_all t st) s' = Some m.
Proof.
  destruct q; simpl.
  - intros Hm. apply one_Some in Hm as (c & s' & -> & Hc & Hm).
    exists (String c ""), s'. simpl. rewrite Hc. auto.
  - destruct (one (charset_mem cs) (match_here r) st s) as [m'|] eqn:E.
    + intros [= <-]. apply one_Some in E as (c & s' & -> & Hc & Hm).
      exists (String c ""), s'. simpl. rewrite Hc. auto.
    + intros Hm. exists "", s. simpl. auto with arith.
  - intros Hm. apply greedy_Some in Hm as (t & s' & -> & Ht & Hm). eauto 8.
  - intros Hm. apply one_Some in Hm as (c & s0 & -> & Hc & Hm).
    apply greedy_Some in Hm as (t & s' & -> & Ht & Hm).
    exists (String c t), s'. simpl. rewrite Hc, Ht. repeat split; auto with arith.
Qed.

(** Outside a group, atoms leave the state as it is. *)
Lemma match_here_idle (p r : regex) (g : option string) (s : string) (m : mstate) :
  group_free p = true ->
  match_here (p ++ r)%list (MState None g) s = Some m ->
  exists s', match_here r (MState None g) s' = Some m.
Proof.
  revert s; induction p as [|n p IH]; intros s Hp Hm; [eauto |].
  destruct n as [cs q| |]; simpl in Hp; try discriminate.
  rewrite <- app_comm_cons in Hm.
  apply match_atom in Hm as (t & s' & _ & _ & _ & Hm).
  rewrite consume_all_idle in Hm. eauto.
Qed.

Lemma match_here_idle_end (p : regex) (g : option string) (s : string) (m : mstate) :
  group_free p = true -> match_here p (MState None g) s = Some m -> m = MState None g.
Proof.
  intros Hp Hm. rewrite <- (app_nil_r p) in Hm.
  apply match_here_idle in Hm as [s' Hm]; [| assumption].
  simpl in Hm. congruence.
Qed.

Lemma search_from_Some (r : regex) (s g : string) :
  search_from r s = Some g ->
  exists s' m, match_here r (MState None None) s' = Some m /\ g = default "" (group1 m).
Proof.
  induction s as [|c s IH]; simpl.
  - destruct (match_here r (MState None None) "") as [m|] eqn:E; [| discriminate].
    intros [= <-]. eauto.
  - destruct (match_here r (MState None None) (String c s)) as [m|] eqn:E.
    + intros [= <-]. eauto.
    + exact IH.
Qed.

(** ** Decimals *)

Lemma split_dot_digits (d r : string) :
  all_digits d = true ->
  split_dot (d +:+ r) = (d +:+ fst (split_dot r), snd (split_dot r)).
Proof.
  unfold all_digits. induction d as [|c d IH]; push_app; simpl.
  - intros _. now destruct (split_dot r).
  - intros H. apply andb_prop in H as [Hc Hd].
    assert (Hdot : Ascii.eqb c "." = false).
    { apply Ascii.eqb_neq. intros ->. discriminate Hc. }
    rewrite Hdot, (IH Hd). reflexivity.
Qed.

Lemma is_decimal_digits (c : ascii) (d : string) :
  all_digits (String c d) = true -> is_decimal (String c d) = true.
Proof.
  intros H. unfold is_decimal.
  rewrite <- (str_app_nil_r (String c d)), (split_dot_digits _ "" H).
  simpl. rewrite !str_app_nil_r. simpl. now rewrite H.
Qed.

Lemma is_decimal_dotted (c : ascii) (d e : string) :
  all_digits (String c d) = true -> all_digits e = true ->
  is_decimal (String c d +:+ "." +:+ e) = true.
Proof.
  intros H He. unfold is_decimal. rewrite (split_dot_digits _ _ H). simpl.
  rewrite str_app_nil_r, str_app_nil_l. now rewrite H, He.
Qed.

(** ** What the score patterns capture *)

Lemma match_here_open (r : regex) (st : mstate) (s : string) :
  match_here (GroupOpen :: r) st s = match_here r (MState (Some "") (group1 st)) s.
Proof. reflexivity. Qed.

Lemma match_here_close (r : regex) (st : mstate) (s : string) :
  match_here (GroupClose :: r) st s = match_here r (MState None (recording st)) s.
Proof. reflexivity. Qed.

Lemma nonempty_cons (t : string) : 1 <= String.length t -> exists c d, t = String c d.
Proof. destruct t as [|c d]; simpl; [lia | eauto]. Qed.

(** A pattern whose only group is [(\d+)] captures a decimal. *)
Lemma digit_capture (r p q : regex) (s : string) (m : mstate) :
  r = (p ++ GroupOpen :: Atom Digit OneOrMore :: GroupClose :: q)%list ->
  group_free p = true -> group_free q = true ->
  match_here r (MState None None) s = Some m ->
  exists g, group1 m = Some g /\ is_decimal g = true.
Proof.
  intros -> Hp Hq Hm.
  apply match_here_idle in Hm as [s1 Hm]; [| assumption].
  rewrite match_here_open in Hm.
  apply match_atom in Hm as (t & s2 & _ & Ht & Hlen & Hm).
  rewrite consume_all_open, match_here_close in Hm. simpl in Hm.
  apply match_here_idle_end in Hm; [| assumption]. subst m. simpl.
  apply nonempty_cons in Hlen as (c & d & ->).
  exists (String c d). split; [reflexivity | now apply is_decimal_digits].
Qed.

Lemma dot_or_nothing (t : string) :
  str_forall (charset_mem (Lit ".")) t = true -> String.length t <= 1 ->
  t = "" \/ t = ".".
Proof.
  destruct t as [|c [|c' t]]; intros H Hlen; [now left | right | simpl in Hlen; lia].
  change (Ascii.eqb "." c && true = true) in H.
  rewrite andb_true_r in H. apply Ascii.eqb_eq in H. now subst c.
Qed.

(** The group of the percentage pattern (digits, a "." or none, digits or
    none) captures a decimal. *)
Lemma decimal_capture (q : regex) (s : string) (m : mstate) :
  group_free q = true ->
  match_here (GroupOpen :: Atom Digit OneOrMore :: Atom (Lit ".") ZeroOrOne
                :: Atom Digit ZeroOrMore :: GroupClose :: q) (MState None None) s
    = Some m ->
  exists g, group1 m = Some g /\ is_decimal g = true.
Proof.
  intros Hq Hm. rewrite match_here_open in Hm.
  apply match_atom in Hm as (t1 & s1 & _ & Ht1 & Hlen1 & Hm).
  apply match_atom in Hm as (t2 & s2 & _ & Ht2 & Hlen2 & Hm).
  apply match_atom in Hm as (t3 & s3 & _ & Ht3 & _ & Hm).
  rewrite !consume_all_open, match_here_close in Hm. simpl in Hm.
  apply match_here_idle_end in Hm; [| assumption]. subst m. simpl.
  apply nonempty_cons in Hlen1 as (c & d & ->).
  eexists. split; [reflexivity |].
  rewrite str_app_nil_l.
  change (all_digits (String c d) = true) in Ht1.
  change (all_digits t3 = true) in Ht3.
  destruct (dot_or_nothing t2 Ht2 Hlen2) as [-> | ->].
  - rewrite str_app_nil_r, str_app_cons. apply is_decimal_digits.
    rewrite <- str_app_cons. unfold all_digits in *. rewrite str_forall_app.
    now rewrite Ht1, Ht3.
  - rewrite str_app_assoc. now apply is_decimal_dotted.
Qed.

Lemma score_capture_decimal (pattern text g : string) :
  In pattern GradingEngine.score_patterns ->
  re_search pattern text = Some g -> is_decimal g = true.
Proof.
  intros Hin Hs. unfold re_search in Hs.
  apply search_from_Some in Hs as (s' & m & Hm & ->).
  assert (Hg : exists g, group1 m = Some g /\ is_decimal g = true).
  { simpl in Hin.
    destruct Hin as [<- | [<- | [<- | [<- | []]]]];
      match type of Hm with
      | match_here (re_compile ?p) _ _ = _ =>
          apply (digit_capture _ (firstn 7 (re_compile p)) (skipn 10 (re_compile p)))
            in Hm; [exact Hm | reflexivity ..]
      end. }
  destruct Hg as (g & -> & Hg). exact Hg.
Qed.

Lemma percent_capture_decimal (text g : string) :
  re_search "(\d+\.?\d*)%" text = Some g -> is_decimal g = true.
Proof.
  intros Hs. unfold re_search in Hs.
  apply search_from_Some in Hs as (s' & m & Hm & ->).
  change (re_compile "(\d+\.?\d*)%")
    with [GroupOpen; Atom Digit OneOrMore; Atom (Lit ".") ZeroOrOne;
          Atom Digit ZeroOrMore; GroupClose; Atom (Lit "%") Once] in Hm.
  apply decimal_capture in Hm as (g & -> & Hg); [exact Hg | reflexivity].
Qed.

Lemma float_of_str_decimal (g : string) :
  is_decimal g = true -> float_of_str g = Ok (decimal_float g).
Proof. intros Hg. unfold float_of_str. now rewrite Hg. Qed.

(** ** The engine's parsers *)

Lemma first_score_captures (patterns : list string) (text : string) :
  (forall p g, In p patterns -> re_search p text = Some g -> is_decimal g = true) ->
  GradingEngine.first_score patterns text
  = Ok (decimal_float <$> first_capture patterns text).
Proof.
  unfold first_capture. induction patterns as [|p ps IH]; intros Hdec; simpl.
  - reflexivity.
  - destruct (re_search p text) as [g|] eqn:E; simpl.
    + rewrite (float_of_str_decimal g); [reflexivity |].
      apply (Hdec p g); [now left | assumption].
    + apply IH. intros q g Hq. apply Hdec. now right.
Qed.

Section Parsers.
Context `{Runtime} `{PromptGenerator}.

Lemma parse_text_result_str (self : GradingEngine.t) (sid problem code : string)
    (response : GradingResponse.t) (text : string) :
  GradingResponse.raw_response response = PyStr text ->
  GradingEngine._parse_text_result self sid problem code response
  = Ok (GradingResult.mk sid problem code true
          (GradingEngine.opt_float (claimed_grade text))
          (PyFloat (default 0%float (claimed_grade text)))
          (PyDict {[ "raw_text" := PyStr text ]}) PyNone PyNone PyNone
          (GradingResponse.processing_time response) None).
Proof.
  intros Hraw. unfold GradingEngine._parse_text_result. rewrite Hraw.
  rewrite (first_score_captures GradingEngine.score_patterns text)
    by (intros p g; apply score_capture_decimal).
  unfold claimed_grade.
  change claimed_patterns with GradingEngine.score_patterns.
  rewrite bind_Ok.
  destruct (first_capture GradingEngine.score_patterns text) as [g|]; simpl.
  - reflexivity.
  - destruct (re_search "(\d+\.?\d*)%" text) as [g|] eqn:E; simpl; [| reflexivity].
    now rewrite (float_of_str_decimal g (percent_capture_decimal text g E)).
Qed.

(** What a decoded response must be for the JSON parsers to go on: the
    test ["error" in parsed] and the method [get] leave only a dict. *)
Lemma py_in_get_dict (parsed : pyval) (b : bool) (k : string) (dflt v : pyval) :
  py_in "error" parsed = Ok b -> py_get parsed k dflt = Ok v ->
  exists d, parsed = PyDict d /\ b = dict_has d "error" /\ v = dict_get d k dflt.
Proof.
  destruct parsed; simpl; try discriminate.
  intros [= <-] [= <-]. eauto.
Qed.

Lemma py_in_getitem_dict (parsed : pyval) (b : bool) (v : pyval) :
  py_in "error" parsed = Ok b -> py_getitem parsed "error" = Ok v ->
  exists d, parsed = PyDict d /\ b = dict_has d "error" /\ d !! "error" = Some v.
Proof.
  destruct parsed; simpl; try discriminate.
  intros [= <-]. destruct (d !! "error") eqn:E; [| discriminate].
  intros [= <-]. eauto.
Qed.

Lemma dict_has_false (d : gmap string pyval) (k : string) :
  dict_has d k = false <-> d !! k = None.
Proof.
  unfold dict_has. rewrite bool_decide_eq_false, <- eq_None_not_Some. reflexivity.
Qed.

Lemma dict_has_true (d : gmap string pyval) (k : string) :
  dict_has d k = true <-> is_Some (d !! k).
Proof. unfold dict_has. apply bool_decide_eq_true. Qed.

Lemma parse_json_result_object (self : GradingEngine.t) (sid problem code : string)
    (response : GradingResponse.t) (d : gmap string pyval) :
  MultiModelClient.parse_json_response (GradingResponse.raw_response response)
    = Ok (PyDict d) ->
  d !! "error" = None ->
  GradingEngine._parse_json_result self sid problem code response
  = (fallback ← GradingEngine.score_as_percentage (dict_get d "total_score" (PyInt 0));
     Ok (json_result sid problem code response d fallback)).
Proof.
  intros Hp He. unfold GradingEngine._parse_json_result. rewrite Hp, bind_Ok.
  simpl. rewrite (proj2 (dict_has_false d "error") He). simpl.
  destruct (GradingEngine.score_as_percentage _); reflexivity.
Qed.

Lemma parse_json_result_inv (self : GradingEngine.t) (sid problem code : string)
    (response : GradingResponse.t) (r : GradingResult.t) :
  GradingEngine._parse_json_result self sid problem code response = Ok r ->
  exists d,
    MultiModelClient.parse_json_response (GradingResponse.raw_response response)
      = Ok (PyDict d)
    /\ ((exists e, d !! "error" = Some e
         /\ r = GradingResult.failed sid problem code
                  (GradingResponse.processing_time response)
                  (Some ("JSON parsing error: " +:+ py_str e)))
        \/ (d !! "error" = None
            /\ exists fallback,
                 GradingEngine.score_as_percentage (dict_get d "total_score" (PyInt 0))
                   = Ok fallback
                 /\ r = json_result sid problem code response d fallback)).
Proof.
  unfold GradingEngine._parse_json_result. intros Hr.
  bind_inv Hr. rename a into parsed. bind_inv Hr. rename a into b.
  destruct b.
  - unfold GradingEngine.parsing_error in Hr. bind_inv Hr.
    destruct (py_in_getitem_dict _ _ _ Ha0 Ha1) as (d & -> & _ & He).
    exists d. split; [assumption |]. left. exists a. split; [assumption | congruence].
  - bind_inv Hr. destruct (py_in_get_dict _ _ _ _ _ Ha0 Ha1) as (d & -> & Hb & ->).
    exists d. split; [assumption |]. right.
    split; [now apply dict_has_false |].
    bind_inv Hr. exists a. split; [assumption |].
    simpl in Hr. injection Hr as <-. reflexivity.
Qed.

Lemma parse_simple_result_object (self : GradingEngine.t) (sid problem code : string)
    (response : GradingResponse.t) (d : gmap string pyval) :
  MultiModelClient.parse_json_response (GradingResponse.raw_response response)
    = Ok (PyDict d) ->
  d !! "error" = None ->
  GradingEngine._parse_simple_result self sid problem code response
  = Ok (simple_result sid problem code response d).
Proof.
  intros Hp He. unfold GradingEngine._parse_simple_result. rewrite Hp, bind_Ok.
  simpl. now rewrite (proj2 (dict_has_false d "error") He).
Qed.

Lemma parse_simple_result_inv (self : GradingEngine.t) (sid problem code : string)
    (response : GradingResponse.t) (r : GradingResult.t) :
  GradingEngine._parse_simple_result self sid problem code response = Ok r ->
  exists d,
    MultiModelClient.parse_json_response (GradingResponse.raw_response response)
      = Ok (PyDict d)
    /\ ((exists e, d !! "error" = Some e
         /\ r = GradingResult.failed sid problem code
                  (GradingResponse.processing_time response)
                  (Some ("JSON parsing error: " +:+ py_str e)))
        \/ (d !! "error" = None /\ r = simple_result sid problem code response d)).
Proof.
  unfold GradingEngine._parse_simple_result. intros Hr.
  bind_inv Hr. rename a into parsed. bind_inv Hr. rename a into b.
  destruct b.
  - unfold GradingEngine.parsing_error in Hr. bind_inv Hr.
    destruct (py_in_getitem_dict _ _ _ Ha0 Ha1) as (d & -> & _ & He).
    exists d. split; [assumption |]. left. exists a. split; [assumption | congruence].
  - bind_inv Hr. destruct (py_in_get_dict _ _ _ _ _ Ha0 Ha1) as (d & -> & Hb & ->).
    exists d. split; [assumption |]. right.
    split; [now apply dict_has_false |].
    simpl in Hr. injection Hr as <-. reflexivity.
Qed.

Lemma parse_text_result_inv (self : GradingEngine.t) (sid problem code : string)
    (response : GradingResponse.t) (r : GradingResult.t) :
  GradingEngine._parse_text_result self sid problem code response = Ok r ->
  exists text, GradingResponse.raw_response response = PyStr text.
Proof.
  unfold GradingEngine._parse_text_result.
  destruct (GradingResponse.raw_response response); try discriminate. eauto.
Qed.

Lemma grade_response_json (self : GradingEngine.t) (sid problem code : string)
    (response : GradingResponse.t) :
  GradingResponse.success response = true ->
  GradingEngine.grade_response self sid problem code "json" response
  = GradingEngine._parse_json_result self sid problem code response.
Proof. intros Hs. unfold GradingEngine.grade_response. now rewrite Hs. Qed.

Lemma grade_response_simple (self : GradingEngine.t) (sid problem code : string)
    (response : GradingResponse.t) :
  GradingResponse.success response = true ->
  GradingEngine.grade_response self sid problem code "simple" response
  = GradingEngine._parse_simple_result self sid problem code response.
Proof. intros Hs. unfold GradingEngine.grade_response. now rewrite Hs. Qed.

Lemma grade_response_text (self : GradingEngine.t) (sid problem code et : string)
    (response : GradingResponse.t) :
  GradingResponse.success response = true -> et <> "json" -> et <> "simple" ->
  GradingEngine.grade_response self sid problem code et response
  = GradingEngine._parse_text_result self sid problem code response.
Proof.
  intros Hs Hj Hsi. unfold GradingEngine.grade_response.
  apply String.eqb_neq in Hj, Hsi. now rewrite Hs, Hj, Hsi.
Qed.

End Parsers.

(** * The properties of the specification *)

(** ** C2: a failed client response *)

(** C2.  When the client's response has success=false, [grade_code] returns
    a result with success=false that carries the response's error message
    and elapsed time and has grade, percentage and feedback None; the text
    of the response is not looked at, and nothing is raised.  This holds
    for whatever response the client reports, in particular for the failed
    response that [_call_openai] builds from a status other than 200. *)
Theorem failed_response_short_circuit `{Runtime} `{PromptGenerator}
    (self : GradingEngine.t) (sid problem code et : string)
    (response : GradingResponse.t) :
  GradingResponse.success response = false ->
  GradingEngine.grade_response self sid problem code et response
    = Ok (GradingResult.mk sid problem code false PyNone PyNone PyNone
            PyNone PyNone PyNone
            (GradingResponse.processing_time response)
            (GradingResponse.error_message response))
  /\ (forall x model_solution,
        MultiModelClient.evaluate_code (GradingEngine.client self) x
          (GradingEngine.select_prompt et problem code model_solution) = response ->
        GradingEngine.grade_code self x sid problem code et model_solution
        = Ok (GradingResult.mk sid problem code false PyNone PyNone PyNone
                PyNone PyNone PyNone
                (GradingResponse.processing_time response)
                (GradingResponse.error_message response)))
  /\ (forall x model_solution status_code text,
        MultiModelClient.provider (GradingEngine.client self) = "openai" ->
        post x (MultiModelClient.base_url (GradingEngine.client self))
          (GradingEngine.select_prompt et problem code model_solution)
          = HttpResponse status_code text ->
        status_code <> 200%Z ->
        GradingEngine.grade_code self x sid problem code et model_solution
        = Ok (GradingResult.mk sid problem code false PyNone PyNone PyNone
                PyNone PyNone PyNone
                (PrimFloat.sub (t_replied x) (t_start x))
                (Some ("OpenAI API error: " +:+ pretty status_code +:+ " - " +:+ text)))).
Proof.
  intros Hfail.
  assert (Hshort : forall resp, GradingResponse.success resp = false ->
            GradingEngine.grade_response self sid problem code et resp
            = Ok (GradingResult.mk sid problem code false PyNone PyNone PyNone
                    PyNone PyNone PyNone
                    (GradingResponse.processing_time resp)
                    (GradingResponse.error_message resp))).
  { intros resp Hresp. unfold GradingEngine.grade_response. now rewrite Hresp. }
  split; [now apply Hshort |]. split.
  - intros x ms Hx. unfold GradingEngine.grade_code. rewrite Hx. now apply Hshort.
  - intros x ms status text Hprov Hpost Hstatus.
    unfold GradingEngine.grade_code.
    assert (Hresp : MultiModelClient.evaluate_code (GradingEngine.client self) x
                      (GradingEngine.select_prompt et problem code ms)
                    = GradingResponse.failed
                        (Some ("OpenAI API error: " +:+ pretty status +:+ " - " +:+ text))
                        (PrimFloat.sub (t_replied x) (t_start x))).
    { unfold MultiModelClient.evaluate_code. rewrite Hprov. simpl.
      unfold MultiModelClient._call_openai, MultiModelClient.call. rewrite Hpost.
      destruct (Z.eqb_spec status 200); [contradiction | reflexivity]. }
    rewrite Hresp. now apply Hshort.
Qed.

(** A run of C2: the provider answers 500, and the result of [grade_code]
    carries the client's message and the 2.5 seconds that passed. *)
Lemma failed_response_short_circuit_witness :
  GradingEngine.grade_code (H := reference_runtime) (H0 := plain_prompts)
    openai_engine (answering (HttpResponse 500 "boom")) "s1" "p" "c" "json" None
  = Ok (GradingResult.mk "s1" "p" "c" false PyNone PyNone PyNone PyNone PyNone PyNone
          2.5%float (Some "OpenAI API error: 500 - boom")).
Proof.
  exact (proj1 (proj2 (failed_response_short_circuit (H := reference_runtime)
                         (H0 := plain_prompts) openai_engine "s1" "p" "c" "json"
                         (GradingResponse.failed (Some "OpenAI API error: 500 - boom")
                            2.5%float)
                         eq_refl))
           (answering (HttpResponse 500 "boom")) None eq_refl).
Defined.

(** ** C4: the simple format *)

(** C4.  In the simple format, when the response decodes to a JSON object
    without the key "error", the result has success=true; its grade is
    100.0 when is_correct is true (whatever hints is), 50.0 when is_correct
    is false or absent and hints is empty or absent, 25.0 when is_correct is
    false or absent and hints is a list that is not empty; the percentage
    is the grade, and hints (an empty list when absent) is the issues
    field. *)
Theorem simple_grade_heuristic `{Runtime}
    (self : GradingEngine.t) (sid problem code : string)
    (response : GradingResponse.t) (d : gmap string pyval) :
  GradingResponse.success response = true ->
  MultiModelClient.parse_json_response (GradingResponse.raw_response response)
    = Ok (PyDict d) ->
  d !! "error" = None ->
  exists r,
    GradingEngine.grade_response self sid problem code "simple" response = Ok r
    /\ GradingResult.success r = true
    /\ GradingResult.percentage r = GradingResult.grade r
    /\ GradingResult.issues r = dict_get d "hints" (PyList [])
    /\ (d !! "is_correct" = Some (PyBool true) ->
        GradingResult.grade r = PyFloat 100%float)
    /\ (d !! "is_correct" = Some (PyBool false) \/ d !! "is_correct" = None ->
        d !! "hints" = Some (PyList []) \/ d !! "hints" = None ->
        GradingResult.grade r = PyFloat 50%float)
    /\ (d !! "is_correct" = Some (PyBool false) \/ d !! "is_correct" = None ->
        forall h hs, d !! "hints" = Some (PyList (h :: hs)) ->
        GradingResult.grade r = PyFloat 25%float
        /\ GradingResult.issues r = PyList (h :: hs)).
Proof.
  intros Hs Hp He. exists (simple_result sid problem code response d).
  split.
  { unfold GradingEngine.grade_response. rewrite Hs. simpl.
    now apply parse_simple_result_object. }
  unfold simple_result, dict_get. simpl.
  split; [reflexivity |]. split; [reflexivity |]. split; [reflexivity |].
  split; [intros ->; reflexivity |].
  split; [intros [-> | ->] [-> | ->]; reflexivity |].
  intros Hc h hs Hh. rewrite Hh. destruct Hc as [-> | ->]; split; reflexivity.
Qed.

(** The three responses of the specification's test, run through
    [grade_code]: grades 100.0, 50.0 and 25.0. *)
Lemma simple_grade_heuristic_witness :
  exists r,
    GradingEngine.grade_response (H := reference_runtime)
      openai_engine "s1" "p" "c" "simple"
      (GradingResponse.succeeded
         (PyStr (dq "{'is_correct': false, 'hints': [{'line_number': 3}]}")) 2.5%float)
    = Ok r
    /\ GradingResult.grade r = PyFloat 25%float
    /\ GradingResult.percentage r = PyFloat 25%float
    /\ GradingResult.issues r = PyList [PyDict {[ "line_number" := PyInt 3 ]}].
Proof.
  destruct (simple_grade_heuristic (H := reference_runtime)
              openai_engine "s1" "p" "c"
              (GradingResponse.succeeded
                 (PyStr (dq "{'is_correct': false, 'hints': [{'line_number': 3}]}"))
                 2.5%float)
              (<["is_correct" := PyBool false]>
                 (<["hints" := PyList [PyDict {[ "line_number" := PyInt 3 ]}]]> ∅)))
    as (r & Hr & _ & Hpct & _ & _ & _ & H25);
    [reflexivity | vm_compute; reflexivity | vm_compute; reflexivity |].
  exists r.
  destruct (H25 (or_introl eq_refl) (PyDict {[ "line_number" := PyInt 3 ]}) [])
    as [Hg Hi]; [vm_compute; reflexivity |].
  split; [exact Hr |]. split; [exact Hg |]. split; [| exact Hi].
  rewrite Hpct. exact Hg.
Defined.

Example simple_examples :
  let run content :=
    GradingResult.grade <$>
      (GradingEngine.grade_code (H := reference_runtime) (H0 := plain_prompts)
         openai_engine (answering (completion (dq content))) "s1" "p" "c" "simple" None) in
  run "{'is_correct': true, 'hints': []}" = Ok (PyFloat 100%float)
  /\ run "{'is_correct': false, 'hints': []}" = Ok (PyFloat 50%float)
  /\ run "{'is_correct': false, 'hints': [{'line_number': 1, 'hint': 'x'}]}"
     = Ok (PyFloat 25%float)
  /\ run "{'is_correct': true, 'hints': [{'line_number': 1, 'hint': 'x'}]}"
     = Ok (PyFloat 100%float).
Proof. vm_compute. repeat split. Qed.

(** ** C10: a JSON object without total_score *)

(** C10 as stated fails: the provider succeeds, the response is a JSON
    object with neither "error" nor "total_score", and the percentage of the
    result is the 85 that the object gives, not 0. *)
Lemma absent_score_counterexample :
  exists d r,
    MultiModelClient.parse_json_response (H := reference_runtime)
      (PyStr (dq "{'percentage': 85}")) = Ok (PyDict d)
    /\ d !! "error" = None /\ d !! "total_score" = None
    /\ GradingEngine.grade_code (H := reference_runtime) (H0 := plain_prompts)
         openai_engine (answering (completion (dq "{'percentage': 85}")))
         "s1" "p" "c" "json" None = Ok r
    /\ GradingResult.success r = true
    /\ GradingResult.grade r = PyInt 0
    /\ GradingResult.percentage r = PyInt 85
    /\ num_eq (GradingResult.percentage r) (PyInt 0) = false.
Proof.
  exists {[ "percentage" := PyInt 85 ]}. eexists.
  split; [vm_compute; reflexivity |].
  split; [vm_compute; reflexivity |].
  split; [vm_compute; reflexivity |].
  split; [vm_compute; reflexivity |].
  repeat split.
Qed.

(** C10, amended.  In the json format, when the response decodes to a JSON
    object with neither "error" nor "total_score", the result has
    success=true and grade 0; its percentage is 0 when the object has no
    "percentage" either, and the object's "percentage" otherwise. *)
Theorem absent_score_reads_zero `{Runtime}
    (self : GradingEngine.t) (sid problem code : string)
    (response : GradingResponse.t) (d : gmap string pyval) :
  GradingResponse.success response = true ->
  MultiModelClient.parse_json_response (GradingResponse.raw_response response)
    = Ok (PyDict d) ->
  d !! "error" = None ->
  d !! "total_score" = None ->
  exists r,
    GradingEngine.grade_response self sid problem code "json" response = Ok r
    /\ GradingResult.success r = true
    /\ GradingResult.grade r = PyInt 0
    /\ GradingResult.percentage r = dict_get d "percentage" (PyInt 0)
    /\ (d !! "percentage" = None -> GradingResult.percentage r = PyInt 0)
    /\ (forall v, d !! "percentage" = Some v -> GradingResult.percentage r = v).
Proof.
  intros Hs Hp He Ht.
  exists (json_result sid problem code response d (PyInt 0)).
  split.
  { unfold GradingEngine.grade_response. rewrite Hs. simpl.
    rewrite (parse_json_result_object self sid problem code response d Hp He).
    unfold dict_get at 1. rewrite Ht. reflexivity. }
  unfold json_result, dict_get. simpl. rewrite Ht.
  split; [reflexivity |]. split; [reflexivity |]. split; [reflexivity |].
  split; [intros ->; reflexivity | intros v ->; reflexivity].
Qed.

Lemma absent_score_reads_zero_witness :
  exists r,
    GradingEngine.grade_response (H := reference_runtime)
      openai_engine "s1" "p" "c" "json"
      (GradingResponse.succeeded (PyStr (dq "{'issues': []}")) 2.5%float) = Ok r
    /\ GradingResult.success r = true
    /\ GradingResult.grade r = PyInt 0
    /\ GradingResult.percentage r = PyInt 0.
Proof.
  destruct (absent_score_reads_zero (H := reference_runtime)
              openai_engine "s1" "p" "c"
              (GradingResponse.succeeded (PyStr (dq "{'issues': []}")) 2.5%float)
              {[ "issues" := PyList [] ]})
    as (r & Hr & Hs & Hg & _ & Hp & _);
    [reflexivity | vm_compute; reflexivity | vm_compute; reflexivity
    | vm_compute; reflexivity |].
  exists r. split; [exact Hr |]. split; [exact Hs |]. split; [exact Hg |].
  apply Hp. vm_compute. reflexivity.
Defined.

(** ** C5: the percentage fallback *)

(** C5 as stated fails: for total_score = 7 and no percentage the result's
    percentage is 7.000000000000001, which is not equal to 7. *)
Lemma percentage_fallback_counterexample :
  exists d r,
    MultiModelClient.parse_json_response (H := reference_runtime)
      (PyStr (dq "{'total_score': 7}")) = Ok (PyDict d)
    /\ d !! "percentage" = None
    /\ d !! "total_score" = Some (PyInt 7)
    /\ GradingEngine.grade_code (H := reference_runtime) (H0 := plain_prompts)
         openai_engine (answering (completion (dq "{'total_score': 7}")))
         "s1" "p" "c" "json" None = Ok r
    /\ GradingResult.grade r = PyInt 7
    /\ GradingResult.percentage r = PyFloat (scaled 7)
    /\ num_eq (GradingResult.percentage r) (GradingResult.grade r) = false
    /\ Prim2SF (scaled 7) = S754_finite false 7881299347898369 (-50).
Proof.
  exists {[ "total_score" := PyInt 7 ]}. eexists.
  split; [vm_compute; reflexivity |].
  split; [vm_compute; reflexivity |].
  split; [vm_compute; reflexivity |].
  split; [vm_compute; reflexivity |].
  repeat split.
Qed.

Lemma off_scores_exact (z : Z) :
  (0 <= z <= 100)%Z ->
  PrimFloat.Leibniz.eqb (scaled z) (float_of_Z z) = negb (existsb (Z.eqb z) off_scores)
  /\ float_is_Z (scaled z) z = negb (existsb (Z.eqb z) off_scores)
  /\ PrimFloat.is_infinity (float_of_Z z) = false.
Proof.
  intros Hz.
  assert (Hall : forallb (fun n =>
            let z := Z.of_nat n in
            Bool.eqb (PrimFloat.Leibniz.eqb (scaled z) (float_of_Z z))
                     (negb (existsb (Z.eqb z) off_scores))
            && Bool.eqb (float_is_Z (scaled z) z) (negb (existsb (Z.eqb z) off_scores))
            && negb (PrimFloat.is_infinity (float_of_Z z)))
          (seq 0 101) = true) by (vm_compute; reflexivity).
  rewrite forallb_forall in Hall.
  specialize (Hall (Z.to_nat z)). rewrite Z2Nat.id in Hall by lia.
  assert (Hin : In (Z.to_nat z) (seq 0 101)) by (apply in_seq; lia).
  apply Hall in Hin. simpl in Hin.
  apply andb_prop in Hin as [Hin Hfin]. apply andb_prop in Hin as [H1 H2].
  apply Bool.eqb_prop in H1, H2. apply negb_true_iff in Hfin. auto.
Qed.

(** C5, amended.  In the json format, when the decoded object has no
    "percentage", the percentage of the result is the float
    [total_score / 100.0 * 100]: it is 0 when total_score is 0 or absent,
    82.0 (equal to 82) for total_score = 82, and for an integer score from 0
    to 100 it is equal to the score except at 7, 14, 28, 29, 55, 56, 57 and
    58, where the two roundings leave it one step away from the score. *)
Theorem percentage_fallback `{Runtime}
    (self : GradingEngine.t) (sid problem code : string)
    (response : GradingResponse.t) (d : gmap string pyval) :
  GradingResponse.success response = true ->
  MultiModelClient.parse_json_response (GradingResponse.raw_response response)
    = Ok (PyDict d) ->
  d !! "error" = None ->
  d !! "percentage" = None ->
  (d !! "total_score" = None \/ d !! "total_score" = Some (PyInt 0) ->
   exists r,
     GradingEngine.grade_response self sid problem code "json" response = Ok r
     /\ GradingResult.percentage r = PyInt 0)
  /\ (forall z, d !! "total_score" = Some (PyInt z) -> z <> 0%Z ->
      PrimFloat.is_infinity (float_of_Z z) = false ->
      exists r,
        GradingEngine.grade_response self sid problem code "json" response = Ok r
        /\ GradingResult.grade r = PyInt z
        /\ GradingResult.percentage r = PyFloat (scaled z))
  /\ (forall f, d !! "total_score" = Some (PyFloat f) -> PrimFloat.is_zero f = false ->
      exists r,
        GradingEngine.grade_response self sid problem code "json" response = Ok r
        /\ GradingResult.grade r = PyFloat f
        /\ GradingResult.percentage r
           = PyFloat (PrimFloat.mul (PrimFloat.div f 100%float) 100%float))
  /\ (d !! "total_score" = Some (PyInt 82) ->
      exists r,
        GradingEngine.grade_response self sid problem code "json" response = Ok r
        /\ GradingResult.percentage r = PyFloat 82%float
        /\ num_eq (GradingResult.percentage r) (GradingResult.grade r) = true)
  /\ (forall z, (0 <= z <= 100)%Z -> d !! "total_score" = Some (PyInt z) ->
      exists r,
        GradingEngine.grade_response self sid problem code "json" response = Ok r
        /\ num_eq (GradingResult.percentage r) (GradingResult.grade r)
           = negb (existsb (Z.eqb z) off_scores)).
Proof.
  intros Hs Hp He Hpct.
  assert (Hgo : forall fallback,
            GradingEngine.score_as_percentage (dict_get d "total_score" (PyInt 0))
              = Ok fallback ->
            GradingEngine.grade_response self sid problem code "json" response
              = Ok (json_result sid problem code response d fallback)).
  { intros fb Hfb. unfold GradingEngine.grade_response. rewrite Hs. simpl.
    rewrite (parse_json_result_object self sid problem code response d Hp He).
    now rewrite Hfb. }
  assert (Hnz : forall z, d !! "total_score" = Some (PyInt z) -> z <> 0%Z ->
            PrimFloat.is_infinity (float_of_Z z) = false ->
            GradingEngine.grade_response self sid problem code "json" response
              = Ok (json_result sid problem code response d (PyFloat (scaled z)))).
  { intros z Hz Hnz Hfin. apply Hgo. unfold dict_get. rewrite Hz. simpl.
    unfold GradingEngine.score_as_percentage. simpl.
    destruct (Z.eqb_spec z 0); [contradiction |]. simpl.
    unfold int_to_float. now rewrite Hfin. }
  split; [| split; [| split; [| split]]].
  - intros Hz. exists (json_result sid problem code response d (PyInt 0)). split.
    + apply Hgo. unfold dict_get. destruct Hz as [-> | ->]; reflexivity.
    + unfold json_result, dict_get. simpl. now rewrite Hpct.
  - intros z Hz Hnz' Hfin. eexists. split; [exact (Hnz z Hz Hnz' Hfin) |].
    unfold json_result, dict_get. simpl. now rewrite Hz, Hpct.
  - intros f Hf Hfz. eexists. split.
    + apply Hgo. unfold dict_get. rewrite Hf. simpl.
      unfold GradingEngine.score_as_percentage. simpl. rewrite Hfz. reflexivity.
    + unfold json_result, dict_get. simpl. now rewrite Hf, Hpct.
  - intros Hz. eexists.
    split; [exact (Hnz 82%Z Hz ltac:(lia) ltac:(reflexivity)) |].
    unfold json_result, dict_get. simpl. rewrite Hz, Hpct. simpl.
    split; reflexivity.
  - intros z Hrange Hz. destruct (off_scores_exact z Hrange) as (_ & Hoff & Hfin).
    destruct (Z.eq_dec z 0%Z) as [-> | Hnz'].
    + exists (json_result sid problem code response d (PyInt 0)). split.
      * apply Hgo. unfold dict_get. rewrite Hz. reflexivity.
      * unfold json_result, dict_get. simpl. rewrite Hz, Hpct. reflexivity.
    + eexists. split; [exact (Hnz z Hz Hnz' Hfin) |].
      unfold json_result, dict_get. simpl. rewrite Hz, Hpct. simpl. exact Hoff.
Qed.

Lemma percentage_fallback_witness :
  exists r,
    GradingEngine.grade_response (H := reference_runtime)
      openai_engine "s1" "p" "c" "json"
      (GradingResponse.succeeded (PyStr (dq "{'total_score': 82}")) 2.5%float) = Ok r
    /\ GradingResult.percentage r = PyFloat 82%float
    /\ num_eq (GradingResult.percentage r) (GradingResult.grade r) = true.
Proof.
  destruct (percentage_fallback (H := reference_runtime)
              openai_engine "s1" "p" "c"
              (GradingResponse.succeeded (PyStr (dq "{'total_score': 82}")) 2.5%float)
              {[ "total_score" := PyInt 82 ]})
    as (_ & _ & _ & H82 & _);
    [reflexivity | vm_compute; reflexivity | vm_compute; reflexivity
    | vm_compute; reflexivity |].
  apply H82. vm_compute. reflexivity.
Defined.

(** ** C3: the text format *)

(** A search for a pattern that begins with a literal passes over the
    characters that are not that literal. *)
Lemma search_from_skip (c0 : ascii) (r : regex) (pre rest : string) :
  str_forall (fun c => negb (Ascii.eqb c0 c)) pre = true ->
  search_from (Atom (Lit c0) Once :: r) (pre +:+ rest)
  = search_from (Atom (Lit c0) Once :: r) rest.
Proof.
  induction pre as [|c pre IH]; push_app; [reflexivity |].
  intros Hpre. apply andb_prop in Hpre as [Hc Hpre].
  apply negb_true_iff in Hc.
  change (search_from (Atom (Lit c0) Once :: r) (String c (pre +:+ rest)))
    with (match (if Ascii.eqb c0 c
                 then match_here r (consume c (MState None None)) (pre +:+ rest)
                 else None) with
          | Some m => Some (default "" (group1 m))
          | None => search_from (Atom (Lit c0) Once :: r) (pre +:+ rest)
          end).
  rewrite Hc. now apply IH.
Qed.

Lemma no_char_forall (c0 : ascii) (s : string) :
  str_contains (String c0 "") s = false ->
  str_forall (fun c => negb (Ascii.eqb c0 c)) s = true.
Proof.
  intros Hno. pose proof (proj1 (str_contains_false _ _) Hno) as Hocc.
  clear Hno. induction s as [|c s IH]; [reflexivity |].
  simpl. apply andb_true_intro. split.
  - apply negb_true_iff. destruct (Ascii.eqb c0 c) eqn:E; [| reflexivity].
    exfalso. apply (Hocc 0). apply occurs_at_0. simpl. now rewrite E.
  - apply IH. intros j Hj. apply (Hocc (S j)). now apply occurs_at_S.
Qed.

Lemma score_line_87 (pre post : string) :
  str_contains "S" pre = false ->
  re_search "Score:\s*(\d+)/100" (pre +:+ "Score: 87/100" +:+ post) = Some "87".
Proof.
  intros Hpre. unfold re_search.
  change (re_compile "Score:\s*(\d+)/100")
    with (Atom (Lit "S") Once :: skipn 1 (re_compile "Score:\s*(\d+)/100")).
  rewrite search_from_skip by now apply no_char_forall.
  push_app. reflexivity.
Qed.

(** C3.  On a successful response that is a text, and for an evaluation
    type other than json and simple, the grade is the number captured by
    the first of the patterns TOTAL: N/100, Total: N/100, Score: N/100,
    Grade: N/100, in this order, that matches somewhere in the text; when
    none matches, it is the first number followed by a percent sign; when
    nothing matches, the grade is None and the percentage 0.0.  The
    percentage is the grade whenever there is one.  In particular a response
    whose first score line is "Score: 87/100" (no TOTAL: or Total: line
    matches, no S comes before the line) gets grade 87.0 and percentage
    87.0. *)
Theorem text_grade_first_match `{Runtime}
    (self : GradingEngine.t) (sid problem code et : string)
    (response : GradingResponse.t) (text : string) :
  GradingResponse.success response = true ->
  GradingResponse.raw_response response = PyStr text ->
  et <> "json" -> et <> "simple" ->
  exists r,
    GradingEngine.grade_response self sid problem code et response = Ok r
    /\ GradingResult.success r = true
    /\ GradingResult.grade r = GradingEngine.opt_float (claimed_grade text)
    /\ GradingResult.percentage r = PyFloat (default 0%float (claimed_grade text))
    /\ (forall g,
          first_capture claimed_patterns text = Some g ->
          GradingResult.grade r = PyFloat (decimal_float g))
    /\ (forall g,
          first_capture claimed_patterns text = None ->
          re_search "(\d+\.?\d*)%" text = Some g ->
          GradingResult.grade r = PyFloat (decimal_float g))
    /\ (first_capture claimed_patterns text = None ->
        re_search "(\d+\.?\d*)%" text = None ->
        GradingResult.grade r = PyNone /\ GradingResult.percentage r = PyFloat 0%float)
    /\ (forall pre post,
          text = pre +:+ "Score: 87/100" +:+ post ->
          str_contains "S" pre = false ->
          re_search "TOTAL:\s*(\d+)/100" text = None ->
          re_search "Total:\s*(\d+)/100" text = None ->
          GradingResult.grade r = PyFloat 87%float
          /\ GradingResult.percentage r = PyFloat 87%float).
Proof.
  intros Hs Hraw Hj Hsi. eexists. split.
  { rewrite (grade_response_text self sid problem code et response Hs Hj Hsi).
    exact (parse_text_result_str self sid problem code response text Hraw). }
  simpl. split; [reflexivity |]. split; [reflexivity |]. split; [reflexivity |].
  unfold claimed_grade.
  split; [intros g ->; reflexivity |].
  split; [intros g -> ->; reflexivity |].
  split; [intros -> ->; split; reflexivity |].
  intros pre post -> Hpre Ht1 Ht2.
  assert (Hcap : first_capture claimed_patterns (pre +:+ "Score: 87/100" +:+ post)
                 = Some "87").
  { unfold first_capture, claimed_patterns. simpl.
    now rewrite Ht1, Ht2, (score_line_87 pre post Hpre). }
  rewrite Hcap. split; reflexivity.
Qed.

(** A run of C3: a response with the line "Score: 87/100" in its middle. *)
Lemma text_grade_first_match_witness :
  exists r,
    GradingEngine.grade_response (H := reference_runtime)
      openai_engine "s1" "p" "c" "comprehensive"
      (GradingResponse.succeeded
         (PyStr ("Correctness: fine." +:+ newline +:+ "Score: 87/100" +:+ newline
                   +:+ "Well done."))
         2.5%float) = Ok r
    /\ GradingResult.grade r = PyFloat 87%float
    /\ GradingResult.percentage r = PyFloat 87%float.
Proof.
  destruct (text_grade_first_match (H := reference_runtime)
              openai_engine "s1" "p" "c" "comprehensive"
              (GradingResponse.succeeded
                 (PyStr ("Correctness: fine." +:+ newline +:+ "Score: 87/100" +:+ newline
                           +:+ "Well done."))
                 2.5%float)
              ("Correctness: fine." +:+ newline +:+ "Score: 87/100" +:+ newline
                 +:+ "Well done."))
    as (r & Hr & _ & _ & _ & _ & _ & _ & H87);
    [reflexivity | reflexivity | discriminate | discriminate |].
  exists r. split; [exact Hr |].
  apply (H87 ("Correctness: fine." +:+ newline) (newline +:+ "Well done."));
    vm_compute; reflexivity.
Defined.

Example text_examples :
  let run et content :=
    (fun r => (GradingResult.grade r, GradingResult.percentage r)) <$>
      (GradingEngine.grade_code (H := reference_runtime) (H0 := plain_prompts)
         openai_engine (answering (completion content)) "s1" "p" "c" et None) in
  run "comprehensive" "Score: 87/100" = Ok (PyFloat 87%float, PyFloat 87%float)
  /\ run "comprehensive" "Grade: 70/100, Total: 60/100" = Ok (PyFloat 60%float, PyFloat 60%float)
  /\ run "comprehensive" "about 12.5% of the cases fail, then 40%"
     = Ok (PyFloat 12.5%float, PyFloat 12.5%float)
  /\ run "prose" "TOTAL:91/100" = Ok (PyFloat 91%float, PyFloat 91%float)
  /\ run "comprehensive" "no number here" = Ok (PyNone, PyFloat 0%float).
Proof. vm_compute. repeat split. Qed.

(** ** C6: when the extractor raises *)


(** What the handler lets through reaches the caller. *)
Lemma parse_json_response_propagates `{Runtime} (text : string) (e : exn) :
  json_loads (MultiModelClient.unmarked (MultiModelClient.fenced_text text))
    = OtherError e ->
  MultiModelClient.parse_json_response (PyStr text) = Raise e.
Proof.
  intros He. unfold MultiModelClient.parse_json_response. now rewrite He.
Qed.



Example extractor_examples :
  let parse text :=
    MultiModelClient.parse_json_response (H := reference_runtime) (PyStr text) in
  parse (dq "{'total_score': 82}") = Ok (PyDict {[ "total_score" := PyInt 82 ]})
  /\ parse ("```" +:+ newline +:+ "[1, 2]" +:+ newline +:+ "```")
     = Ok (PyList [PyInt 1; PyInt 2])
  /\ parse ("```" +:+ newline +:+ "json" +:+ newline +:+ "[1, 2]" +:+ newline +:+ "```")
     = Ok (PyList [PyInt 1; PyInt 2])
  /\ parse "not json"
     = Ok (sentinel "Expecting value: line 1 column 1 (char 0)" "not json")
  /\ parse "```json [1, 2]"
     = Ok (sentinel "Expecting ',' delimiter: line 1 column 6 (char 5)" "```json [1, 2]").
Proof. vm_compute. repeat split. Qed.

(** ** C7: the round trip through a fence *)

(** C7 as stated fails: this string is a JSON object, yet the extractor
    answers the bare string and the fenced string with two different
    objects (both are error objects, each echoing its own input). *)
Lemma fence_roundtrip_counterexample :
  exists v,
    json_loads (Runtime := reference_runtime) (dq "{'k': '```'}") = Decoded v
    /\ MultiModelClient.parse_json_response (H := reference_runtime)
         (PyStr (fence_wrap (dq "{'k': '```'}")))
       <> MultiModelClient.parse_json_response (H := reference_runtime)
            (PyStr (dq "{'k': '```'}"))
    /\ MultiModelClient.parse_json_response (H := reference_runtime)
         (PyStr (dq "{'k': '```'}")) <> Ok v.
Proof.
  eexists. split; [vm_compute; reflexivity |].
  split; intros Heq;
    apply (f_equal (fun r => match r with
                             | Ok (PyDict d) => d !! "raw_response"
                             | _ => None
                             end)) in Heq;
    vm_compute in Heq; discriminate Heq.
Qed.

(** C7, amended.  For a string [s] that holds no fence, the extractor hands
    the same text to the decoder whether [s] comes bare or wrapped in a
    fence tagged json: [s] without the blanks around it.  So for every [s]
    without a fence that parses as a JSON value, and that the decoder reads
    alike with and without the blanks around it (as json.loads reads every
    JSON text), the wrapped string and the bare string give the same
    value, the value of [s]. *)
Theorem fence_roundtrip `{Runtime} (s : string) (v : pyval) :
  str_contains "```" s = false ->
  json_loads s = Decoded v ->
  json_loads (MultiModelClient.unmarked (str_strip s)) = json_loads s ->
  MultiModelClient.fenced_text (fence_wrap s) = MultiModelClient.fenced_text s
  /\ MultiModelClient.fenced_text s = str_strip s
  /\ MultiModelClient.parse_json_response (PyStr (fence_wrap s)) = Ok v
  /\ MultiModelClient.parse_json_response (PyStr s) = Ok v.
Proof.
  intros Hno Hv Hblank. rewrite Hv in Hblank.
  assert (Hbare : MultiModelClient.fenced_text s = str_strip s)
    by (apply fenced_text_none; now apply str_contains_false).
  pose proof (fenced_text_wrap s Hno) as Hwrap.
  split; [congruence |]. split; [assumption |].
  unfold MultiModelClient.parse_json_response. rewrite Hwrap, Hbare, Hblank. auto.
Qed.

(** A run of C7: a JSON object with blanks around it, bare and fenced. *)
Lemma fence_roundtrip_witness :
  MultiModelClient.parse_json_response (H := reference_runtime)
    (PyStr (fence_wrap (dq "  {'total_score': 82} ")))
  = Ok (PyDict {[ "total_score" := PyInt 82 ]})
  /\ MultiModelClient.parse_json_response (H := reference_runtime)
       (PyStr (dq "  {'total_score': 82} "))
     = Ok (PyDict {[ "total_score" := PyInt 82 ]}).
Proof.
  apply (fence_roundtrip (H := reference_runtime) (dq "  {'total_score': 82} ")
           (PyDict {[ "total_score" := PyInt 82 ]}));
    vm_compute; reflexivity.
Defined.

(** ** C8: the list-valued fields *)

(** C8 as stated fails in the engine: the result of a failed call has None
    under issues, recommendations and strengths. *)
Lemma list_fields_counterexample :
  exists r,
    GradingEngine.grade_code (H := reference_runtime) (H0 := plain_prompts)
      openai_engine (answering (HttpResponse 500 "boom")) "s1" "p" "c" "json" None
    = Ok r
    /\ GradingResult.issues r = PyNone
    /\ GradingResult.recommendations r = PyNone
    /\ GradingResult.strengths r = PyNone.
Proof. eexists. split; [vm_compute; reflexivity | repeat split]. Qed.

Lemma py_or_defaulted (field : pyval) : defaulted field (Some (py_or field (PyList []))).
Proof.
  exists (py_or field (PyList [])). unfold py_or.
  split; [reflexivity |].
  destruct (truthy field) eqn:E.
  - split; [intros ->; discriminate E |]. split; [reflexivity | discriminate].
  - split; [discriminate |]. split; [discriminate | reflexivity].
Qed.

(** C8, amended.  In the facade's output the entries issues,
    recommendations and strengths are never None: each is the engine's
    field when that is truthy and an empty list otherwise.  In the engine's
    GradingResult the three fields are None on every failed result and on
    every result of the text format; the simple format sets issues only (the
    hints of the object that the response decodes to, an empty list when
    the object has none); the json format sets each of the three to the
    entry of the object that the response decodes to, an empty list when
    the object lacks the key. *)
Theorem list_fields_defaults `{Runtime}
    (self : GradingEngine.t) (sid problem code et : string)
    (response : GradingResponse.t) (r : GradingResult.t) :
  GradingEngine.grade_response self sid problem code et response = Ok r ->
  defaulted (GradingResult.issues r) (CodeGrader._format_result r !! "issues")
  /\ defaulted (GradingResult.recommendations r)
       (CodeGrader._format_result r !! "recommendations")
  /\ defaulted (GradingResult.strengths r) (CodeGrader._format_result r !! "strengths")
  /\ (GradingResult.success r = false ->
      GradingResult.issues r = PyNone /\ GradingResult.recommendations r = PyNone
      /\ GradingResult.strengths r = PyNone)
  /\ (GradingResult.success r = true -> et <> "json" -> et <> "simple" ->
      GradingResult.issues r = PyNone /\ GradingResult.recommendations r = PyNone
      /\ GradingResult.strengths r = PyNone)
  /\ (GradingResult.success r = true -> et = "simple" ->
      exists d,
        MultiModelClient.parse_json_response (GradingResponse.raw_response response)
          = Ok (PyDict d)
        /\ GradingResult.feedback r = PyDict d
        /\ GradingResult.issues r = dict_get d "hints" (PyList [])
        /\ GradingResult.recommendations r = PyNone
        /\ GradingResult.strengths r = PyNone)
  /\ (GradingResult.success r = true -> et = "json" ->
      exists d,
        MultiModelClient.parse_json_response (GradingResponse.raw_response response)
          = Ok (PyDict d)
        /\ GradingResult.feedback r = PyDict d
        /\ GradingResult.issues r = dict_get d "issues" (PyList [])
        /\ GradingResult.recommendations r = dict_get d "recommendations" (PyList [])
        /\ GradingResult.strengths r = dict_get d "strengths" (PyList [])).
Proof.
  intros Hr.
  split; [apply py_or_defaulted |]. split; [apply py_or_defaulted |].
  split; [apply py_or_defaulted |].
  unfold GradingEngine.grade_response in Hr.
  destruct (GradingResponse.success response) eqn:Hs; simpl in Hr.
  2: { injection Hr as <-. simpl. repeat split; try reflexivity; discriminate. }
  destruct (String.eqb_spec et "json") as [-> | Hj].
  { apply parse_json_result_inv in Hr
      as (d & Hparse & [(e & _ & ->) | (_ & fb & _ & ->)]); simpl.
    - repeat split; try reflexivity; discriminate.
    - split; [discriminate |]. split; [congruence |]. split; [discriminate |].
      intros _ _. exists d. split; [exact Hparse | repeat split]. }
  destruct (String.eqb_spec et "simple") as [-> | Hsi].
  { apply parse_simple_result_inv in Hr
      as (d & Hparse & [(e & _ & ->) | (_ & ->)]); simpl.
    - repeat split; try reflexivity; discriminate.
    - split; [discriminate |]. split; [congruence |].
      split; [intros _ _; exists d; split; [exact Hparse | repeat split]
             | discriminate]. }
  destruct (parse_text_result_inv _ _ _ _ _ _ Hr) as [text Hraw].
  rewrite (parse_text_result_str self sid problem code response text Hraw) in Hr.
  injection Hr as <-. simpl.
  split; [discriminate |]. split; [repeat split |]. split; intros _ E; contradiction.
Qed.

(** A run of C8 in the json format: the issues are those of the object in
    the completion, and the facade fills the entries the object lacks. *)
Lemma list_fields_defaults_witness :
  let response :=
    GradingResponse.succeeded (PyStr (dq "{'total_score': 90, 'issues': ['slow']}"))
      1%float in
  (exists d,
     MultiModelClient.parse_json_response (H := reference_runtime)
       (GradingResponse.raw_response response) = Ok (PyDict d)
     /\ PyList [PyStr "slow"] = dict_get d "issues" (PyList [])
     /\ PyList [] = dict_get d "strengths" (PyList []))
  /\ defaulted (PyList [])
       (CodeGrader._format_result
          (GradingResult.mk "s1" "p" "c" true (PyInt 90) (PyFloat 90)
             (PyDict {[ "total_score" := PyInt 90; "issues" := PyList [PyStr "slow"] ]})
             (PyList [PyStr "slow"]) (PyList []) (PyList []) 1%float None)
        !! "strengths").
Proof.
  intros response.
  assert (Hg : GradingEngine.grade_response (H := reference_runtime) openai_engine
                 "s1" "p" "c" "json" response
               = Ok (GradingResult.mk "s1" "p" "c" true (PyInt 90) (PyFloat 90)
                       (PyDict {[ "total_score" := PyInt 90;
                                  "issues" := PyList [PyStr "slow"] ]})
                       (PyList [PyStr "slow"]) (PyList []) (PyList []) 1%float None))
    by (vm_compute; reflexivity).
  destruct (list_fields_defaults (H := reference_runtime) _ _ _ _ _ _ _ Hg)
    as (_ & _ & Hstrengths & _ & _ & _ & Hjson).
  destruct (Hjson eq_refl eq_refl) as (d & Hparse & _ & Hissues & _ & Hs).
  split; [exists d; auto | exact Hstrengths].
Defined.

Example facade_examples :
  let shown content :=
    (fun out => (out !! "issues", out !! "recommendations", out !! "strengths")) <$>
      (CodeGrader.grade_code (H := reference_runtime) (H0 := plain_prompts)
         (CodeGrader.mk openai_engine "openai")
         (answering (completion content)) "p" "c" "s1" "json" None) in
  shown (dq "{'total_score': 90, 'issues': null, 'strengths': ['short']}")
    = Ok (Some (PyList []), Some (PyList []), Some (PyList [PyStr "short"]))
  /\ shown "no json at all"
     = Ok (Some (PyList []), Some (PyList []), Some (PyList [])).
Proof. vm_compute. repeat split. Qed.

(** ** C1: the invariant of a grading result *)

Section ClientFailure.
Context `{Runtime}.

Lemma call_failed_message (x : exchange) (url prompt : string) (start_time : float)
    (extract : pyval -> result pyval) (name : string) (r : GradingResponse.t) :
  MultiModelClient.call x url prompt start_time extract name = Ok r ->
  GradingResponse.success r = false ->
  is_Some (GradingResponse.error_message r).
Proof.
  unfold MultiModelClient.call.
  destruct (post x url prompt) as [status text | e]; [| discriminate].
  destruct (status =? 200)%Z.
  - intros Hr. bind_inv Hr. bind_inv Hr. injection Hr as <-. discriminate.
  - intros [= <-] _. simpl. eauto.
Qed.

(** A failed response of [evaluate_code] always carries a message. *)
Lemma evaluate_code_failed_message (self : MultiModelClient.t) (x : exchange)
    (prompt : string) :
  GradingResponse.success (MultiModelClient.evaluate_code self x prompt) = false ->
  is_Some (GradingResponse.error_message (MultiModelClient.evaluate_code self x prompt)).
Proof.
  unfold MultiModelClient.evaluate_code,
    MultiModelClient._call_openai, MultiModelClient._call_anthropic,
    MultiModelClient._call_gemini, MultiModelClient._call_groq.
  repeat match goal with
         | |- context [String.eqb ?a ?b] => destruct (String.eqb a b)
         end;
    try match goal with
        | |- context [MultiModelClient.call ?a ?b ?c ?d ?e ?f] =>
            destruct (MultiModelClient.call a b c d e f) as [r | e0] eqn:Hcall;
              [intros Hs; exact (call_failed_message _ _ _ _ _ _ _ Hcall Hs) |]
        end;
    intros _; simpl; eauto.
Qed.

End ClientFailure.

(** C1 as stated fails: in the comprehensive format a response in which no
    score pattern matches yields success=true with an absent grade. *)
Lemma result_invariant_counterexample :
  exists r,
    GradingEngine.grade_code (H := reference_runtime) (H0 := plain_prompts)
      openai_engine (answering (completion "The solution looks fine to me."))
      "s1" "p" "c" "comprehensive" None = Ok r
    /\ GradingResult.success r = true
    /\ GradingResult.grade r = PyNone
    /\ ~ result_invariant r.
Proof.
  eexists. split; [vm_compute; reflexivity |].
  split; [reflexivity |]. split; [reflexivity |].
  intros [_ Hpresent]. destruct (Hpresent eq_refl) as [Hgrade _].
  now apply Hgrade.
Qed.

(** C1, amended.  For every result of [grade_code]: when success is false,
    grade, percentage and feedback are None and error_message is set; when
    success is true, the simple format gives a grade and a percentage, both
    the same float, read off the object that the response decodes to; the
    text format gives a percentage, and a grade equal to it unless no
    pattern matched in the response, in which case the grade is None and
    the percentage 0.0; the json format gives the total_score and the
    percentage of the object that the response decodes to (0 and the scaled
    score where the object has none), which are None only where the object
    itself holds null under the key. *)
Theorem result_invariant_by_format `{Runtime} `{PromptGenerator}
    (self : GradingEngine.t) (x : exchange) (sid problem code et : string)
    (model_solution : option string) (r : GradingResult.t) :
  let response :=
    MultiModelClient.evaluate_code (GradingEngine.client self) x
      (GradingEngine.select_prompt et problem code model_solution) in
  GradingEngine.grade_code self x sid problem code et model_solution = Ok r ->
  (GradingResult.success r = false ->
     GradingResult.grade r = PyNone /\ GradingResult.percentage r = PyNone
     /\ GradingResult.feedback r = PyNone /\ is_Some (GradingResult.error_message r))
  /\ (GradingResult.success r = true -> et = "simple" ->
      exists d g,
        MultiModelClient.parse_json_response (GradingResponse.raw_response response)
          = Ok (PyDict d)
        /\ GradingResult.feedback r = PyDict d
        /\ g = (if truthy (dict_get d "is_correct" (PyBool false)) then 100%float
                else if truthy (dict_get d "hints" (PyList [])) then 25%float
                else 50%float)
        /\ GradingResult.grade r = PyFloat g /\ GradingResult.percentage r = PyFloat g)
  /\ (GradingResult.success r = true -> et <> "json" -> et <> "simple" ->
      exists p text,
        GradingResponse.raw_response response = PyStr text
        /\ p = default 0%float (claimed_grade text)
        /\ GradingResult.percentage r = PyFloat p
        /\ GradingResult.feedback r = PyDict {[ "raw_text" := PyStr text ]}
        /\ (GradingResult.grade r = PyFloat p /\ claimed_grade text = Some p
            \/ (GradingResult.grade r = PyNone /\ p = 0%float
                /\ claimed_grade text = None)))
  /\ (GradingResult.success r = true -> et = "json" ->
      exists d fallback,
        MultiModelClient.parse_json_response (GradingResponse.raw_response response)
          = Ok (PyDict d)
        /\ GradingResult.feedback r = PyDict d
        /\ GradingResult.grade r = dict_get d "total_score" (PyInt 0)
        /\ GradingResult.percentage r = dict_get d "percentage" fallback
        /\ (truthy (GradingResult.grade r) = false /\ fallback = PyInt 0
            \/ exists g,
                 truthy (GradingResult.grade r) = true
                 /\ as_float (GradingResult.grade r) = Ok g
                 /\ fallback = PyFloat (PrimFloat.mul (PrimFloat.div g 100%float)
                                          100%float))
        /\ (GradingResult.grade r = PyNone -> d !! "total_score" = Some PyNone)
        /\ (GradingResult.percentage r = PyNone -> d !! "percentage" = Some PyNone)).
Proof.
  intros response. unfold GradingEngine.grade_code. fold response.
  pose proof (evaluate_code_failed_message (GradingEngine.client self) x
                (GradingEngine.select_prompt et problem code model_solution)) as Hmsg.
  fold response in Hmsg. clearbody response.
  unfold GradingEngine.grade_response.
  destruct (GradingResponse.success response) eqn:Hs; simpl.
  2: { intros [= <-]. simpl. split; [auto |]. repeat split; discriminate. }
  clear Hmsg.
  destruct (String.eqb_spec et "json") as [-> | Hj].
  { intros Hr.
    apply parse_json_result_inv in Hr
      as (d & Hparse & [(e & _ & ->) | (_ & fb & Hfb & ->)]); simpl.
    - split; [eauto |]. repeat split; discriminate.
    - split; [discriminate |]. split; [discriminate |]. split; [congruence |].
      intros _ _. exists d, fb. split; [exact Hparse |].
      split; [reflexivity |]. split; [reflexivity |]. split; [reflexivity |].
      unfold GradingEngine.score_as_percentage in Hfb.
      split; [| split].
      + destruct (truthy (dict_get d "total_score" (PyInt 0))) eqn:Ht.
        * right. bind_inv Hfb. injection Hfb as <-. eauto.
        * left. injection Hfb as <-. auto.
      + unfold dict_get.
        destruct (d !! "total_score") as [v|]; simpl; [congruence | discriminate].
      + unfold dict_get. destruct (d !! "percentage") as [v|]; simpl; [congruence |].
        intros ->. destruct (truthy _); [| discriminate]. bind_inv Hfb. discriminate. }
  destruct (String.eqb_spec et "simple") as [-> | Hsi].
  { intros Hr.
    apply parse_simple_result_inv in Hr
      as (d & Hparse & [(e & _ & ->) | (_ & ->)]); simpl.
    - split; [eauto |]. repeat split; discriminate.
    - split; [discriminate |]. split; [| split; [congruence | discriminate]].
      intros _ _. exists d. eexists. split; [exact Hparse |].
      split; [reflexivity |]. split; [reflexivity |].
      destruct (truthy (dict_get d "is_correct" (PyBool false)));
        [split; reflexivity |].
      destruct (truthy (dict_get d "hints" (PyList []))); split; reflexivity. }
  intros Hr. destruct (parse_text_result_inv _ _ _ _ _ _ Hr) as [text Hraw].
  rewrite (parse_text_result_str self sid problem code response text Hraw) in Hr.
  injection Hr as <-. simpl.
  split; [discriminate |]. split; [congruence |]. split; [| congruence].
  intros _ _ _. eexists. exists text. split; [exact Hraw |].
  split; [reflexivity |]. split; [reflexivity |]. split; [reflexivity |].
  destruct (claimed_grade text); simpl; [left | right]; auto.
Qed.

(** A run of C1 in the json format: the grade and the percentage are those
    of the object in the completion. *)
Lemma result_invariant_by_format_witness :
  let response :=
    MultiModelClient.evaluate_code (H := reference_runtime) openai_client
      (answering (completion (dq "{'total_score': 82}")))
      (GradingEngine.select_prompt (H0 := plain_prompts) "json" "p" "c" None) in
  exists d fallback,
    MultiModelClient.parse_json_response (H := reference_runtime)
      (GradingResponse.raw_response response) = Ok (PyDict d)
    /\ PyInt 82 = dict_get d "total_score" (PyInt 0)
    /\ PyFloat 82 = dict_get d "percentage" fallback.
Proof.
  intros response.
  assert (Hg : GradingEngine.grade_code (H := reference_runtime) (H0 := plain_prompts)
                 openai_engine (answering (completion (dq "{'total_score': 82}")))
                 "s1" "p" "c" "json" None
               = Ok (GradingResult.mk "s1" "p" "c" true (PyInt 82) (PyFloat 82)
                       (PyDict {[ "total_score" := PyInt 82 ]})
                       (PyList []) (PyList []) (PyList []) 2.5%float None))
    by (vm_compute; reflexivity).
  destruct (proj2 (proj2 (proj2
              (result_invariant_by_format (H := reference_runtime)
                 (H0 := plain_prompts) _ _ _ _ _ _ _ _ Hg))) eq_refl eq_refl)
    as (d & fallback & Hparse & _ & Hgrade & Hpercentage & _).
  exists d, fallback. auto.
Defined.

(** ** C9: which operations raise *)


(** Two more faults that reach the caller of [grade_code], both from the
    shape of a response that decodes: a JSON array in place of an object,
    and a total_score that is a string. *)
Example response_shape_faults :
  let run content :=
    GradingEngine.grade_code (H := reference_runtime) (H0 := plain_prompts)
      openai_engine (answering (completion content)) "s1" "p" "c" "json" None in
  run "[1, 2]" = Raise (AttributeError "'list' object has no attribute 'get'")
  /\ run (dq "{'total_score': '82'}")
     = Raise (TypeError "unsupported operand type(s) for /: 'str' and 'float'").
Proof. split; vm_compute; reflexivity. Qed.

Section Faults.
Context `{Runtime} `{PromptGenerator}.


Lemma client_init_unsupported (api_key model provider : string) :
  supported_provider provider = false ->
  MultiModelClient.__init__ api_key model provider
  = Raise (ValueError ("Unsupported provider: " +:+ provider)).
Proof.
  unfold supported_provider, MultiModelClient.__init__. simpl.
  destruct (String.eqb (str_lower provider) "openai"); [discriminate |].
  destruct (String.eqb (str_lower provider) "anthropic"); [discriminate |].
  destruct (String.eqb (str_lower provider) "gemini"); [discriminate |].
  destruct (String.eqb (str_lower provider) "groq"); [discriminate | reflexivity].
Qed.





End Faults.



(** * Further properties of the code *)

(** ** The client *)

Lemma lower_char_idem (c : ascii) : lower_char (lower_char c) = lower_char c.
Proof. destruct c as [[] [] [] [] [] [] [] []]; reflexivity. Qed.

Lemma str_lower_idem (s : string) : str_lower (str_lower s) = str_lower s.
Proof.
  induction s as [|c s IH]; [reflexivity |]. simpl. now rewrite lower_char_idem, IH.
Qed.

(** X1.  The provider name is read without regard to case: for a name that
    is accepted, the client built from it is the client built from its
    lower-case spelling, and it stores the lower-case spelling. *)
Theorem client_init_ignores_case (api_key model provider : string) :
  supported_provider provider = true ->
  MultiModelClient.__init__ api_key model provider
  = MultiModelClient.__init__ api_key model (str_lower provider)
  /\ exists client,
       MultiModelClient.__init__ api_key model provider = Ok client
       /\ MultiModelClient.provider client = str_lower provider
       /\ MultiModelClient.api_key client = api_key
       /\ MultiModelClient.model client = model.
Proof.
  unfold supported_provider, MultiModelClient.__init__. simpl.
  rewrite str_lower_idem.
  destruct (String.eqb (str_lower provider) "openai"); [eauto 10 |].
  destruct (String.eqb (str_lower provider) "anthropic"); [eauto 10 |].
  destruct (String.eqb (str_lower provider) "gemini"); [eauto 10 |].
  destruct (String.eqb (str_lower provider) "groq"); [eauto 10 | discriminate].
Qed.

Lemma client_init_ignores_case_witness :
  MultiModelClient.__init__ "sk-test" "llama3-8b-8192" "Groq"
  = MultiModelClient.__init__ "sk-test" "llama3-8b-8192" "groq".
Proof.
  exact (proj1 (client_init_ignores_case "sk-test" "llama3-8b-8192" "Groq" eq_refl)).
Defined.

Section Client.
Context `{Runtime}.

Lemma call_status_error (x : exchange) (url prompt : string) (start_time : float)
    (extract : pyval -> result pyval) (name : string) (status_code : Z) (text : string) :
  post x url prompt = HttpResponse status_code text ->
  status_code <> 200%Z ->
  MultiModelClient.call x url prompt start_time extract name
  = Ok (GradingResponse.failed
          (Some (name +:+ " API error: " +:+ pretty status_code +:+ " - " +:+ text))
          (PrimFloat.sub (t_replied x) start_time)).
Proof.
  intros Hpost Hs. unfold MultiModelClient.call. rewrite Hpost.
  destruct (Z.eqb_spec status_code 200); [contradiction | reflexivity].
Qed.

Lemma call_succeeded (x : exchange) (url prompt : string) (start_time : float)
    (extract : pyval -> result pyval) (name : string) (r : GradingResponse.t) :
  MultiModelClient.call x url prompt start_time extract name = Ok r ->
  GradingResponse.success r = true ->
  exists text data content,
    post x url prompt = HttpResponse 200 text
    /\ json_loads text = Decoded data
    /\ extract data = Ok content
    /\ r = GradingResponse.succeeded content (PrimFloat.sub (t_replied x) start_time).
Proof.
  unfold MultiModelClient.call.
  destruct (post x url prompt) as [status text | e]; [| discriminate].
  destruct (Z.eqb_spec status 200) as [-> | _].
  - unfold MultiModelClient.response_json.
    destruct (json_loads text) as [data | msg | e] eqn:Hd; try discriminate.
    simpl. destruct (extract data) as [content | e] eqn:He; [| discriminate].
    simpl. intros [= <-] _. exists text, data, content. auto.
  - intros [= <-]. discriminate.
Qed.

End Client.

(** X2.  A reply with a status other than 200 becomes a failed response
    that names the provider, the status and the body as it came; the time
    is the one read after the reply, and the body is not decoded.  This is
    so for each of the four providers. *)
Theorem evaluate_code_status_error `{Runtime} (self : MultiModelClient.t)
    (x : exchange) (prompt name : string) (status_code : Z) (text : string) :
  In (MultiModelClient.provider self, name) provider_names ->
  (forall url, post x url prompt = HttpResponse status_code text) ->
  status_code <> 200%Z ->
  MultiModelClient.evaluate_code self x prompt
  = GradingResponse.failed
      (Some (name +:+ " API error: " +:+ pretty status_code +:+ " - " +:+ text))
      (PrimFloat.sub (t_replied x) (t_start x)).
Proof.
  intros Hin Hpost Hs. unfold MultiModelClient.evaluate_code.
  simpl in Hin.
  destruct Hin as [Hp | [Hp | [Hp | [Hp | []]]]]; injection Hp as Hp <-;
    rewrite <- Hp; simpl;
    unfold MultiModelClient._call_openai, MultiModelClient._call_anthropic,
      MultiModelClient._call_gemini, MultiModelClient._call_groq;
    now rewrite (call_status_error _ _ _ _ _ _ status_code text (Hpost _) Hs).
Qed.

Lemma evaluate_code_status_error_witness :
  MultiModelClient.evaluate_code (H := reference_runtime)
    (MultiModelClient.mk "key" "claude-3-haiku-20240307" "anthropic"
       "https://api.anthropic.com/v1/messages")
    (answering (HttpResponse 429 "slow down")) "prompt"
  = GradingResponse.failed (Some "Anthropic API error: 429 - slow down") 2.5%float.
Proof.
  apply (evaluate_code_status_error (H := reference_runtime)
           (MultiModelClient.mk "key" "claude-3-haiku-20240307" "anthropic"
              "https://api.anthropic.com/v1/messages")
           (answering (HttpResponse 429 "slow down")) "prompt" "Anthropic" 429
           "slow down").
  - simpl. auto.
  - reflexivity.
  - discriminate.
Defined.

(** X3.  A successful response of [evaluate_code] always comes from a reply
    with status 200 to the request at the client's URL, whose body
    decodes: it carries the completion found in the decoded body, at the
    place where the provider's call looks for it, and the time read after
    the reply. *)
Theorem evaluate_code_success_inv `{Runtime} (self : MultiModelClient.t)
    (x : exchange) (prompt : string) :
  GradingResponse.success (MultiModelClient.evaluate_code self x prompt) = true ->
  exists text data content,
    post x (request_url self) prompt = HttpResponse 200 text
    /\ json_loads text = Decoded data
    /\ completion_of (MultiModelClient.provider self) data = Ok content
    /\ MultiModelClient.evaluate_code self x prompt
       = GradingResponse.succeeded content (PrimFloat.sub (t_replied x) (t_start x)).
Proof.
  unfold MultiModelClient.evaluate_code, request_url, completion_of,
    MultiModelClient._call_openai, MultiModelClient._call_anthropic,
    MultiModelClient._call_gemini, MultiModelClient._call_groq.
  destruct (String.eqb_spec (MultiModelClient.provider self) "openai") as [-> | _].
  { simpl.
    destruct (MultiModelClient.call _ _ _ _ _ _) as [r | e] eqn:Hcall;
      [| simpl; discriminate].
    intros Hs.
    destruct (call_succeeded _ _ _ _ _ _ _ Hcall Hs)
      as (text & data & content & Hp & Hd & He & ->).
    exists text, data, content. auto. }
  destruct (String.eqb_spec (MultiModelClient.provider self) "anthropic") as [-> | _].
  { simpl.
    destruct (MultiModelClient.call _ _ _ _ _ _) as [r | e] eqn:Hcall;
      [| simpl; discriminate].
    intros Hs.
    destruct (call_succeeded _ _ _ _ _ _ _ Hcall Hs)
      as (text & data & content & Hp & Hd & He & ->).
    exists text, data, content. auto. }
  destruct (String.eqb (MultiModelClient.provider self) "gemini").
  { destruct (MultiModelClient.call _ _ _ _ _ _) as [r | e] eqn:Hcall;
      [| simpl; discriminate].
    intros Hs.
    destruct (call_succeeded _ _ _ _ _ _ _ Hcall Hs)
      as (text & data & content & Hp & Hd & He & ->).
    exists text, data, content. auto. }
  destruct (String.eqb (MultiModelClient.provider self) "groq");
    [| simpl; discriminate].
  destruct (MultiModelClient.call _ _ _ _ _ _) as [r | e] eqn:Hcall;
    [| simpl; discriminate].
  intros Hs.
  destruct (call_succeeded _ _ _ _ _ _ _ Hcall Hs)
    as (text & data & content & Hp & Hd & He & ->).
  exists text, data, content. auto.
Qed.

Lemma evaluate_code_success_inv_witness :
  exists text data content,
    post (answering (completion "fine")) (request_url openai_client) "prompt"
    = HttpResponse 200 text
    /\ json_loads (Runtime := reference_runtime) text = Decoded data
    /\ completion_of "openai" data = Ok content
    /\ MultiModelClient.evaluate_code (H := reference_runtime) openai_client
         (answering (completion "fine")) "prompt"
       = GradingResponse.succeeded content
           (PrimFloat.sub (t_replied (answering (completion "fine")))
              (t_start (answering (completion "fine")))).
Proof.
  apply (evaluate_code_success_inv (H := reference_runtime) openai_client
           (answering (completion "fine")) "prompt").
  vm_compute. reflexivity.
Defined.

(** X4.  Every response of [evaluate_code] has the same shape: grade,
    percentage and feedback are never set; it has an error message exactly
    when it is no success; and a failed response has the empty completion. *)
Theorem evaluate_code_response_shape `{Runtime} (self : MultiModelClient.t)
    (x : exchange) (prompt : string) :
  GradingResponse.grade (MultiModelClient.evaluate_code self x prompt) = None
  /\ GradingResponse.percentage (MultiModelClient.evaluate_code self x prompt) = None
  /\ GradingResponse.feedback (MultiModelClient.evaluate_code self x prompt) = None
  /\ (GradingResponse.success (MultiModelClient.evaluate_code self x prompt) = true
      <-> GradingResponse.error_message (MultiModelClient.evaluate_code self x prompt)
          = None)
  /\ (GradingResponse.success (MultiModelClient.evaluate_code self x prompt) = false
      <-> GradingResponse.raw_response (MultiModelClient.evaluate_code self x prompt)
          = PyStr ""
          /\ is_Some (GradingResponse.error_message
                        (MultiModelClient.evaluate_code self x prompt))).
Proof.
  assert (Hcall : forall url start extract name r,
            MultiModelClient.call x url prompt start extract name = Ok r ->
            (exists content t, r = GradingResponse.succeeded content t)
            \/ (exists m t, r = GradingResponse.failed (Some m) t)).
  { intros url start extract name r. unfold MultiModelClient.call.
    destruct (post x url prompt) as [status text | e]; [| discriminate].
    destruct (status =? 200)%Z.
    - intros Hr. bind_inv Hr. bind_inv Hr. injection Hr as <-. left. eauto.
    - intros [= <-]. right. eauto. }
  assert (Hshape : (exists content t,
                      MultiModelClient.evaluate_code self x prompt
                      = GradingResponse.succeeded content t)
                   \/ (exists m t,
                         MultiModelClient.evaluate_code self x prompt
                         = GradingResponse.failed (Some m) t)).
  { unfold MultiModelClient.evaluate_code,
      MultiModelClient._call_openai, MultiModelClient._call_anthropic,
      MultiModelClient._call_gemini, MultiModelClient._call_groq.
    repeat match goal with
           | |- context [String.eqb ?a ?b] => destruct (String.eqb a b)
           end;
      try match goal with
          | |- context [MultiModelClient.call ?a ?b ?c ?d ?e ?f] =>
              destruct (MultiModelClient.call a b c d e f) as [r | e0] eqn:Hc;
                [exact (Hcall _ _ _ _ _ Hc) |]
          end;
      right; eauto. }
  destruct Hshape as [(content & t & ->) | (m & t & ->)]; simpl.
  - repeat split; try discriminate; auto.
    + intros [_ [? [=]]].
  - repeat split; try discriminate; eauto.
Qed.

(** X5.  A reply with status 200 whose body is not what the provider's
    call expects never yields a success and never raises: a body that does
    not decode gives a failed response with the decoder's message, and a
    decoded object without the key the call reads first gives a failed
    response whose message is the quoted key.  Both take the time read in
    the exception handler. *)
Theorem evaluate_code_unexpected_body `{Runtime} (self : MultiModelClient.t)
    (x : exchange) (prompt key text : string) :
  In (MultiModelClient.provider self, key) first_keys ->
  (forall url, post x url prompt = HttpResponse 200 text) ->
  (forall msg,
     json_loads text = JSONDecodeError msg ->
     MultiModelClient.evaluate_code self x prompt
     = GradingResponse.failed
         (Some ("Error calling " +:+ MultiModelClient.provider self +:+ " API: "
                  +:+ msg))
         (PrimFloat.sub (t_failed x) (t_start x)))
  /\ (forall d,
        json_loads text = Decoded (PyDict d) -> d !! key = None ->
        MultiModelClient.evaluate_code self x prompt
        = GradingResponse.failed
            (Some ("Error calling " +:+ MultiModelClient.provider self +:+ " API: '"
                     +:+ key +:+ "'"))
            (PrimFloat.sub (t_failed x) (t_start x))).
Proof.
  intros Hin Hpost. simpl in Hin.
  split; [intros msg Hd | intros d Hd Hk];
    unfold MultiModelClient.evaluate_code;
    destruct Hin as [Hp | [Hp | [Hp | [Hp | []]]]]; injection Hp as Hp <-;
    rewrite <- Hp; simpl;
    unfold MultiModelClient._call_openai, MultiModelClient._call_anthropic,
      MultiModelClient._call_gemini, MultiModelClient._call_groq,
      MultiModelClient.call, MultiModelClient.response_json,
      MultiModelClient.choice_message_content;
    rewrite Hpost; simpl; rewrite Hd; simpl; rewrite ?Hk; reflexivity.
Qed.

Lemma evaluate_code_unexpected_body_witness :
  MultiModelClient.evaluate_code (H := reference_runtime) openai_client
    (answering (HttpResponse 200 (dq "{'error': {'message': 'overloaded'}}")))
    "prompt"
  = GradingResponse.failed (Some "Error calling openai API: 'choices'") 2.5%float.
Proof.
  apply (proj2 (evaluate_code_unexpected_body (H := reference_runtime) openai_client
                  (answering (HttpResponse 200 (dq "{'error': {'message': 'overloaded'}}")))
                  "prompt" "choices" (dq "{'error': {'message': 'overloaded'}}")
                  ltac:(simpl; auto) ltac:(reflexivity))
          {[ "error" := PyDict {[ "message" := PyStr "overloaded" ]} ]}).
  - vm_compute. reflexivity.
  - vm_compute. reflexivity.
Defined.

(** ** Construction of the facade *)

Lemma client_init_inv (api_key model provider : string) (client : MultiModelClient.t) :
  MultiModelClient.__init__ api_key model provider = Ok client ->
  supported_provider provider = true
  /\ MultiModelClient.provider client = str_lower provider
  /\ MultiModelClient.api_key client = api_key
  /\ MultiModelClient.model client = model.
Proof.
  unfold supported_provider, MultiModelClient.__init__. simpl.
  destruct (String.eqb (str_lower provider) "openai"); [intros [= <-]; auto |].
  destruct (String.eqb (str_lower provider) "anthropic"); [intros [= <-]; auto |].
  destruct (String.eqb (str_lower provider) "gemini"); [intros [= <-]; auto |].
  destruct (String.eqb (str_lower provider) "groq"); [intros [= <-]; auto |].
  discriminate.
Qed.

(** X6.  Construction of the facade succeeds exactly when the provider
    name is accepted and the provider passes the connection test: the
    client answers the test prompt with a success whose completion
    contains the words "Connection successful".  The grader keeps the
    provider name as the caller wrote it, its client the lower-case
    spelling. *)
Theorem facade_init_passed_test `{Runtime} (x : exchange)
    (api_key model provider : string) (grader : CodeGrader.t) :
  CodeGrader.__init__ x api_key model provider = Ok grader
  <-> exists client,
        MultiModelClient.__init__ api_key model provider = Ok client
        /\ grader = CodeGrader.mk (GradingEngine.mk client) provider
        /\ GradingResponse.success
             (MultiModelClient.evaluate_code client x test_prompt) = true
        /\ py_in "Connection successful"
             (GradingResponse.raw_response
                (MultiModelClient.evaluate_code client x test_prompt))
           = Ok true.
Proof.
  unfold CodeGrader.__init__, GradingEngine.__init__,
    CodeGrader._test_connection, GradingEngine.test_connection,
    MultiModelClient.test_connection.
  fold test_prompt. split.
  - destruct (MultiModelClient.__init__ api_key model provider) as [client | e];
      [| discriminate].
    simpl.
    destruct (GradingResponse.success
                (MultiModelClient.evaluate_code client x test_prompt)) eqn:Hs;
      simpl; [| discriminate].
    destruct (py_in "Connection successful" _) as [[] | e] eqn:Hin; simpl;
      try discriminate.
    intros [= <-]. exists client. auto.
  - intros (client & -> & -> & Hs & Hin). simpl. rewrite Hs, Hin. reflexivity.
Qed.

Lemma facade_init_passed_test_witness :
  CodeGrader.__init__ (H := reference_runtime)
    (answering (completion "Connection successful")) "sk-test" "gpt-3.5-turbo" "OpenAI"
  = Ok (CodeGrader.mk openai_engine "OpenAI").
Proof.
  apply (proj2 (facade_init_passed_test (H := reference_runtime)
                  (answering (completion "Connection successful"))
                  "sk-test" "gpt-3.5-turbo" "OpenAI"
                  (CodeGrader.mk openai_engine "OpenAI"))).
  exists openai_client. repeat split; vm_compute; reflexivity.
Defined.

(** X7.  Construction can raise a third fault, next to ValueError and
    ConnectionError: when the provider answers the connection test with a
    completion that is no string, list or object (null, a boolean, a
    number), the test for the expected words raises TypeError, and
    construction lets it through. *)
Theorem facade_init_type_error `{Runtime} (x : exchange)
    (api_key model provider : string) (client : MultiModelClient.t)
    (v : pyval) (t : float) :
  MultiModelClient.__init__ api_key model provider = Ok client ->
  MultiModelClient.evaluate_code client x test_prompt = GradingResponse.succeeded v t ->
  iterable v = false ->
  CodeGrader.__init__ x api_key model provider
  = Raise (TypeError ("argument of type '" +:+ type_name v +:+ "' is not iterable")).
Proof.
  intros Hc He Hv.
  unfold CodeGrader.__init__, GradingEngine.__init__. rewrite Hc. simpl.
  unfold CodeGrader._test_connection, GradingEngine.test_connection,
    MultiModelClient.test_connection. simpl. fold test_prompt. rewrite He. simpl.
  destruct v; try discriminate; reflexivity.
Qed.

Lemma facade_init_type_error_witness :
  CodeGrader.__init__ (H := reference_runtime)
    (answering (HttpResponse 200
                  (dq "{'choices': [{'message': {'role': 'assistant', 'content': null}}]}")))
    "sk-test" "gpt-3.5-turbo" "openai"
  = Raise (TypeError "argument of type 'NoneType' is not iterable").
Proof.
  apply (facade_init_type_error (H := reference_runtime)
           (answering (HttpResponse 200
              (dq "{'choices': [{'message': {'role': 'assistant', 'content': null}}]}")))
           "sk-test" "gpt-3.5-turbo" "openai" openai_client PyNone 2.5%float).
  - reflexivity.
  - vm_compute. reflexivity.
  - reflexivity.
Defined.

(** ** A completion that is no string *)

(** X8.  When the provider succeeds with a completion that is no string,
    [grade_code] raises for every evaluation type: TypeError or
    AttributeError, from the first string operation that the parser applies
    to the completion. *)
Theorem non_string_completion_raises `{Runtime} (self : GradingEngine.t)
    (sid problem code et : string) (response : GradingResponse.t) :
  GradingResponse.success response = true ->
  (forall s, GradingResponse.raw_response response <> PyStr s) ->
  exists msg,
    GradingEngine.grade_response self sid problem code et response = Raise (TypeError msg)
    \/ GradingEngine.grade_response self sid problem code et response
       = Raise (AttributeError msg).
Proof.
  intros Hs Hraw. unfold GradingEngine.grade_response. rewrite Hs. simpl.
  unfold GradingEngine._parse_json_result, GradingEngine._parse_simple_result,
    GradingEngine._parse_text_result, MultiModelClient.parse_json_response.
  destruct (GradingResponse.raw_response response) as [| b | z | f | s | l | d] eqn:Hr;
    try (exfalso; exact (Hraw s eq_refl));
    destruct (String.eqb et "json"); try destruct (String.eqb et "simple");
    simpl;
    repeat match goal with
           | |- context [if ?b then _ else _] => destruct b; simpl
           end;
    eauto.
Qed.

Lemma non_string_completion_raises_witness :
  exists msg,
    GradingEngine.grade_response (H := reference_runtime) openai_engine "s1" "p" "c"
      "json" (GradingResponse.succeeded PyNone 1%float) = Raise (TypeError msg)
    \/ GradingEngine.grade_response (H := reference_runtime) openai_engine "s1" "p" "c"
         "json" (GradingResponse.succeeded PyNone 1%float) = Raise (AttributeError msg).
Proof.
  apply (non_string_completion_raises (H := reference_runtime) openai_engine "s1" "p" "c"
           "json" (GradingResponse.succeeded PyNone 1%float)).
  - reflexivity.
  - discriminate.
Defined.

(** ** Fences that are not a pair *)

Lemma occurs_at_app (sub a s : string) (i : nat) :
  occurs_at sub (a +:+ s) (String.length a + i) <-> occurs_at sub s i.
Proof.
  rewrite <- (occurs_at_drop sub (a +:+ s) (String.length a) i)
    by (rewrite str_length_app; lia).
  now rewrite str_drop_app.
Qed.

Lemma first_at_0 (sub s : string) : str_startswith sub s = true -> first_at sub s 0.
Proof.
  intros Hs. split; [now apply occurs_at_0 | intros j Hj; lia].
Qed.

Lemma substring_app_mid (a b c : string) :
  substring (String.length a) (String.length b) (a +:+ (b +:+ c)) = b.
Proof.
  rewrite <- str_take_drop_substring, str_drop_app. apply str_take_app.
Qed.

Lemma str_take_length (s : string) : str_take (String.length s) s = s.
Proof.
  rewrite <- (str_app_nil_r s) at 2. apply str_take_app.
Qed.

(** X9.  An opening json fence that is never closed costs the text its
    last character: the search for the closing fence gives -1, which the
    slice reads as the last position.  A complete JSON object in such a
    response loses its closing brace. *)
Theorem unclosed_json_fence_drops_last (body : string) :
  str_contains "```" body = false ->
  MultiModelClient.fenced_text ("```json" +:+ body)
  = str_strip (str_take (String.length body - 1) body).
Proof.
  intros Hb. rewrite str_contains_false in Hb.
  rewrite (fenced_text_json_open ("```json" +:+ body) 0).
  - rewrite <- str_take_drop_substring.
    change (0 + 7) with (String.length "```json"). rewrite str_drop_app.
    rewrite str_length_app. simpl String.length.
    replace (7 + String.length body - 1 - 7) with (String.length body - 1) by lia.
    reflexivity.
  - apply first_at_0. apply str_startswith_app.
  - intros j Hj Hocc.
    replace j with (String.length "```json" + (j - 7)) in Hocc by (simpl; lia).
    apply occurs_at_app in Hocc. exact (Hb _ Hocc).
Qed.

Lemma unclosed_json_fence_drops_last_witness :
  MultiModelClient.fenced_text ("```json" +:+ dq "{'total_score': 90}")
  = dq "{'total_score': 90".
Proof.
  rewrite (unclosed_json_fence_drops_last (dq "{'total_score': 90}"));
    vm_compute; reflexivity.
Defined.

(** X10.  A text with a single fence, which is not a json fence, is read as
    the empty text: the first and the last fence are the same one, and the
    slice between them is empty.  So a response that opens a block and
    never closes it decodes as the empty string does. *)
Theorem single_fence_reads_empty `{Runtime} (text : string) (i : nat) :
  str_contains "```json" text = false ->
  first_at "```" text i -> last_at "```" text i ->
  MultiModelClient.fenced_text text = ""
  /\ forall msg,
       json_loads "" = JSONDecodeError msg ->
       MultiModelClient.parse_json_response (PyStr text) = Ok (sentinel msg text).
Proof.
  intros Hj Hfirst Hlast. rewrite str_contains_false in Hj.
  assert (Hf : MultiModelClient.fenced_text text = "").
  { rewrite (fenced_text_plain text i i Hj Hfirst Hlast).
    replace (i - (i + 3)) with 0 by lia.
    now destruct (substring (i + 3) 0 text) eqn:Hsub;
      [| rewrite <- str_take_drop_substring in Hsub]. }
  split; [exact Hf |].
  intros msg Hmsg. unfold MultiModelClient.parse_json_response.
  rewrite Hf. change (MultiModelClient.unmarked "") with "". now rewrite Hmsg.
Qed.

Lemma single_fence_reads_empty_witness :
  MultiModelClient.parse_json_response (H := reference_runtime)
    (PyStr ("```python" +:+ newline +:+ "print(1)"))
  = Ok (sentinel "Expecting value: line 1 column 1 (char 0)"
          ("```python" +:+ newline +:+ "print(1)")).
Proof.
  apply (proj2 (single_fence_reads_empty (H := reference_runtime)
                  ("```python" +:+ newline +:+ "print(1)") 0
                  ltac:(vm_compute; reflexivity)
                  ltac:(apply index_of_Some; vm_compute; reflexivity)
                  ltac:(apply rindex_of_Some; vm_compute; reflexivity))).
  vm_compute. reflexivity.
Defined.

(** ** A fenced block amid prose *)

Lemma no_backtick_no_fence (sub a rest : string) (j : nat) :
  no_backtick a = true -> j < String.length a ->
  ~ occurs_at (String "`" sub) (a +:+ rest) j.
Proof.
  revert j. induction a as [|c a IH]; intros j Ha Hj; simpl in Hj; [lia |].
  unfold no_backtick in Ha. simpl in Ha. apply andb_prop in Ha as [Hc Ha].
  rewrite str_app_cons. destruct j as [|j].
  - rewrite occurs_at_0. cbn [str_startswith]. intros Hocc.
    destruct (Ascii.eqb_spec "`" c) as [<- | _]; [| discriminate Hocc].
    rewrite Ascii.eqb_refl in Hc. discriminate Hc.
  - rewrite occurs_at_S. apply IH; [exact Ha | lia].
Qed.

(** X11.  The extractor reads the first json block and nothing else: for a
    text that has prose, a json fence, a body, a closing fence and anything
    at all after it, the extracted text is the body without the blanks
    around it, as long as the prose before the block and the body have no
    backtick. *)
Theorem fenced_block_amid_prose (pre body post : string) :
  no_backtick pre = true -> no_backtick body = true ->
  MultiModelClient.fenced_text (pre +:+ "```json" +:+ body +:+ "```" +:+ post)
  = str_strip body.
Proof.
  intros Hpre Hbody.
  set (text := pre +:+ "```json" +:+ body +:+ "```" +:+ post).
  assert (Htext : text = (pre +:+ "```json") +:+ (body +:+ ("```" +:+ post))).
  { unfold text. now rewrite str_app_assoc. }
  assert (Hlen : String.length (pre +:+ "```json") = String.length pre + 7).
  { now rewrite str_length_app. }
  rewrite (fenced_text_json text (String.length pre) (String.length pre + 7
             + String.length body)).
  - replace (String.length pre + 7 + String.length body - (String.length pre + 7))
      with (String.length body) by lia.
    rewrite Htext, <- Hlen. now rewrite substring_app_mid.
  - split.
    + unfold text. rewrite <- (Nat.add_0_r (String.length pre)).
      apply occurs_at_app, occurs_at_0, str_startswith_app.
    + intros j Hj. unfold text. now apply no_backtick_no_fence.
  - split; [lia |]. split.
    + rewrite Htext.
      replace (String.length pre + 7 + String.length body)
        with (String.length (pre +:+ "```json") + (String.length body + 0)) by lia.
      apply occurs_at_app, occurs_at_app, occurs_at_0, str_startswith_app.
    + intros j Hlo Hhi. rewrite Htext.
      replace j with (String.length (pre +:+ "```json") + (j - (String.length pre + 7)))
        by lia.
      rewrite occurs_at_app. apply no_backtick_no_fence; [exact Hbody | lia].
Qed.

Lemma fenced_block_amid_prose_witness :
  MultiModelClient.fenced_text
    ("Here is my evaluation: " +:+ "```json" +:+ " [82] " +:+ "```"
       +:+ " I hope this helps. ```python")
  = "[82]".
Proof.
  rewrite (fenced_block_amid_prose "Here is my evaluation: " " [82] "
             " I hope this helps. ```python");
    vm_compute; reflexivity.
Defined.

(** ** The results of the engine *)

Section Engine.
Context `{Runtime}.

Lemma grade_response_shape (self : GradingEngine.t) (sid problem code et : string)
    (response : GradingResponse.t) (r : GradingResult.t) :
  (GradingResponse.success response = false ->
   is_Some (GradingResponse.error_message response)) ->
  GradingEngine.grade_response self sid problem code et response = Ok r ->
  GradingResult.student_id r = sid
  /\ GradingResult.problem r = problem
  /\ GradingResult.code r = code
  /\ GradingResult.processing_time r = GradingResponse.processing_time response
  /\ (GradingResult.success r = true <-> GradingResult.error_message r = None)
  /\ (GradingResult.success r = true -> GradingResponse.success response = true).
Proof.
  intros Hmsg. unfold GradingEngine.grade_response.
  destruct (GradingResponse.success response) eqn:Hs; simpl.
  - destruct (String.eqb et "json"); [| destruct (String.eqb et "simple")]; intros Hr.
    + destruct (parse_json_result_inv _ _ _ _ _ _ Hr)
        as (d & _ & [(e & _ & ->) | (_ & fallback & _ & ->)]);
        simpl; repeat split; auto; discriminate.
    + destruct (parse_simple_result_inv _ _ _ _ _ _ Hr)
        as (d & _ & [(e & _ & ->) | (_ & ->)]);
        simpl; repeat split; auto; discriminate.
    + destruct (parse_text_result_inv _ _ _ _ _ _ Hr) as (text & Hraw).
      rewrite (parse_text_result_str self sid problem code response text Hraw) in Hr.
      injection Hr as <-. simpl; repeat split; auto.
  - intros [= <-]. simpl. destruct (Hmsg eq_refl) as [m ->].
    repeat split; auto; discriminate.
Qed.

Lemma grade_code_shape `{PromptGenerator} (self : GradingEngine.t) (x : exchange)
    (sid problem code et : string) (ms : option string) (r : GradingResult.t) :
  GradingEngine.grade_code self x sid problem code et ms = Ok r ->
  GradingResult.student_id r = sid
  /\ GradingResult.problem r = problem
  /\ GradingResult.code r = code
  /\ GradingResult.processing_time r
     = GradingResponse.processing_time
         (MultiModelClient.evaluate_code (GradingEngine.client self) x
            (GradingEngine.select_prompt et problem code ms))
  /\ (GradingResult.success r = true <-> GradingResult.error_message r = None)
  /\ (GradingResult.success r = true ->
      GradingResponse.success
        (MultiModelClient.evaluate_code (GradingEngine.client self) x
           (GradingEngine.select_prompt et problem code ms)) = true).
Proof.
  unfold GradingEngine.grade_code. apply grade_response_shape.
  apply evaluate_code_failed_message.
Qed.

End Engine.

(** X12.  Every result that [grade_code] returns hands back the student
    id, the problem and the code it was given and the elapsed time of the
    client's response; it has an error message exactly when it is no
    success; and it is a success only if the client's response was one. *)
Theorem grade_code_echo `{Runtime} `{PromptGenerator} (self : GradingEngine.t)
    (x : exchange) (sid problem code et : string) (ms : option string)
    (r : GradingResult.t) :
  GradingEngine.grade_code self x sid problem code et ms = Ok r ->
  GradingResult.student_id r = sid
  /\ GradingResult.problem r = problem
  /\ GradingResult.code r = code
  /\ GradingResult.processing_time r
     = GradingResponse.processing_time
         (MultiModelClient.evaluate_code (GradingEngine.client self) x
            (GradingEngine.select_prompt et problem code ms))
  /\ (GradingResult.success r = true <-> GradingResult.error_message r = None)
  /\ (GradingResult.success r = true ->
      GradingResponse.success
        (MultiModelClient.evaluate_code (GradingEngine.client self) x
           (GradingEngine.select_prompt et problem code ms)) = true).
Proof.
  unfold GradingEngine.grade_code. apply grade_response_shape.
  apply evaluate_code_failed_message.
Qed.

Lemma grade_code_echo_witness :
  exists r,
    GradingEngine.grade_code (H := reference_runtime) (H0 := plain_prompts)
      openai_engine (answering (completion (dq "{'total_score': 82}")))
      "s1" "two sum" "return 0" "json" None = Ok r
    /\ GradingResult.student_id r = "s1"
    /\ GradingResult.problem r = "two sum"
    /\ GradingResult.code r = "return 0".
Proof.
  eexists. split; [vm_compute; reflexivity |].
  destruct (grade_code_echo (H := reference_runtime) (H0 := plain_prompts)
              openai_engine (answering (completion (dq "{'total_score': 82}")))
              "s1" "two sum" "return 0" "json" None _ eq_refl)
    as (Hsid & Hproblem & Hcode & _).
  auto.
Defined.

(** X13.  An object with the key "error" is always reported as a failure,
    in the json and in the simple format alike: the result carries the
    value under the key as a parsing error, and the score and every other
    entry of the object are dropped, even though the text decoded. *)
Theorem error_key_fails_result `{Runtime} (self : GradingEngine.t)
    (sid problem code et : string) (response : GradingResponse.t) (text : string)
    (d : gmap string pyval) (e : pyval) :
  GradingResponse.success response = true ->
  GradingResponse.raw_response response = PyStr text ->
  json_loads (MultiModelClient.unmarked (MultiModelClient.fenced_text text))
    = Decoded (PyDict d) ->
  d !! "error" = Some e ->
  et = "json" \/ et = "simple" ->
  GradingEngine.grade_response self sid problem code et response
  = Ok (GradingResult.failed sid problem code
          (GradingResponse.processing_time response)
          (Some ("JSON parsing error: " +:+ py_str e))).
Proof.
  intros Hs Hraw Hd He Het.
  assert (Hhas : dict_has d "error" = true) by (apply dict_has_true; eauto).
  destruct Het as [-> | ->].
  - rewrite grade_response_json by assumption.
    unfold GradingEngine._parse_json_result, GradingEngine.parsing_error,
      MultiModelClient.parse_json_response.
    rewrite Hraw, Hd. simpl. rewrite Hhas. simpl. now rewrite He.
  - rewrite grade_response_simple by assumption.
    unfold GradingEngine._parse_simple_result, GradingEngine.parsing_error,
      MultiModelClient.parse_json_response.
    rewrite Hraw, Hd. simpl. rewrite Hhas. simpl. now rewrite He.
Qed.

Lemma error_key_fails_result_witness :
  GradingEngine.grade_response (H := reference_runtime) openai_engine "s1" "p" "c" "json"
    (GradingResponse.succeeded (PyStr (dq "{'total_score': 90, 'error': 'none'}"))
       1%float)
  = Ok (GradingResult.failed "s1" "p" "c" 1%float (Some "JSON parsing error: none")).
Proof.
  rewrite (error_key_fails_result (H := reference_runtime) openai_engine "s1" "p" "c"
             "json" _ (dq "{'total_score': 90, 'error': 'none'}")
             {[ "total_score" := PyInt 90; "error" := PyStr "none" ]} (PyStr "none")).
  - reflexivity.
  - reflexivity.
  - reflexivity.
  - vm_compute. reflexivity.
  - vm_compute. reflexivity.
  - left. reflexivity.
Defined.

(** X14.  The fallback percentage is computed before the object is asked
    for its own: a total_score that is truthy and no number (a non-empty
    string, a list, an object) makes the json format raise, whether or not
    the object has a percentage. *)
Theorem fallback_computed_eagerly `{Runtime} (self : GradingEngine.t)
    (sid problem code : string) (response : GradingResponse.t) (text : string)
    (d : gmap string pyval) (score : pyval) (e : exn) :
  GradingResponse.success response = true ->
  GradingResponse.raw_response response = PyStr text ->
  json_loads (MultiModelClient.unmarked (MultiModelClient.fenced_text text))
    = Decoded (PyDict d) ->
  d !! "error" = None ->
  d !! "total_score" = Some score ->
  truthy score = true ->
  as_float score = Raise e ->
  GradingEngine.grade_response self sid problem code "json" response = Raise e.
Proof.
  intros Hs Hraw Hd He Hscore Ht Hf.
  rewrite grade_response_json by assumption.
  rewrite (parse_json_result_object self sid problem code response d); [| | exact He].
  - unfold dict_get. rewrite Hscore. unfold GradingEngine.score_as_percentage.
    cbn [default from_option id]. now rewrite Ht, Hf.
  - unfold MultiModelClient.parse_json_response. now rewrite Hraw, Hd.
Qed.

Lemma fallback_computed_eagerly_witness :
  GradingEngine.grade_response (H := reference_runtime) openai_engine "s1" "p" "c" "json"
    (GradingResponse.succeeded
       (PyStr (dq "{'total_score': '82', 'percentage': 82}")) 1%float)
  = Raise (TypeError "unsupported operand type(s) for /: 'str' and 'float'").
Proof.
  rewrite (fallback_computed_eagerly (H := reference_runtime) openai_engine "s1" "p" "c"
             _ (dq "{'total_score': '82', 'percentage': 82}")
             {[ "total_score" := PyStr "82"; "percentage" := PyInt 82 ]} (PyStr "82")
             (TypeError "unsupported operand type(s) for /: 'str' and 'float'")).
  - reflexivity.
  - reflexivity.
  - reflexivity.
  - vm_compute. reflexivity.
  - vm_compute. reflexivity.
  - vm_compute. reflexivity.
  - reflexivity.
  - reflexivity.
Defined.

(** X15.  An evaluation type that is none of json, simple and
    comprehensive sends the JSON prompt and reads the answer with the text
    parser: the call is the comprehensive format's reading of the
    provider's answer to the JSON prompt. *)
Theorem unknown_format_text_parser `{Runtime} `{PromptGenerator}
    (self : GradingEngine.t) (x : exchange) (sid problem code et : string)
    (ms : option string) :
  et <> "json" -> et <> "simple" -> et <> "comprehensive" ->
  GradingEngine.grade_code self x sid problem code et ms
  = GradingEngine.grade_response self sid problem code "comprehensive"
      (MultiModelClient.evaluate_code (GradingEngine.client self) x
         (generate_json_prompt problem code ms)).
Proof.
  intros Hj Hs Hc. apply String.eqb_neq in Hj, Hs, Hc.
  unfold GradingEngine.grade_code, GradingEngine.select_prompt,
    GradingEngine.grade_response.
  rewrite Hj, Hs, Hc. reflexivity.
Qed.

Lemma unknown_format_text_parser_witness :
  GradingEngine.grade_code (H := reference_runtime) (H0 := plain_prompts)
    openai_engine (answering (completion (dq "{'total_score': 82}")))
    "s1" "p" "c" "detailed" None
  = GradingEngine.grade_response (H := reference_runtime) openai_engine "s1" "p" "c"
      "comprehensive"
      (MultiModelClient.evaluate_code (H := reference_runtime) openai_client
         (answering (completion (dq "{'total_score': 82}")))
         (generate_json_prompt (PromptGenerator := plain_prompts) "p" "c" None)).
Proof.
  apply (unknown_format_text_parser (H := reference_runtime) (H0 := plain_prompts)
           openai_engine (answering (completion (dq "{'total_score': 82}")))
           "s1" "p" "c" "detailed" None);
    discriminate.
Defined.

(** The simple format never uses the reference solution. *)
Remark simple_ignores_model_solution `{Runtime} `{PromptGenerator}
    (self : CodeGrader.t) (x : exchange) (problem student_code sid : string)
    (ms : option string) :
  CodeGrader.grade_code self x problem student_code sid "simple" ms
  = CodeGrader.grade_code self x problem student_code sid "simple" None.
Proof. reflexivity. Qed.

(** ** Batches *)

Section Batches.
Context `{Runtime} `{PromptGenerator}.

Lemma grade_batch_loop_inv (self : GradingEngine.t) (net : nat -> exchange)
    (et : string) (submissions : list (gmap string string)) :
  forall i acc results,
    GradingEngine.grade_batch_loop self net i submissions et acc = Ok results ->
    exists rs,
      results = (acc ++ rs)%list
      /\ itemwise submissions rs
           (fun k sid problem code ms r =>
              GradingEngine.grade_code self (net (i + k)) sid problem code et ms = Ok r).
Proof.
  induction submissions as [|sub rest IH]; intros i acc results; simpl.
  - intros [= <-]. exists []. split; [now rewrite app_nil_r |].
    split; [reflexivity | intros k s Hk; discriminate Hk].
  - unfold GradingEngine.submission_item.
    destruct (sub !! "problem") as [p|] eqn:Hp; [| discriminate].
    destruct (sub !! "code") as [c|] eqn:Hc; [| discriminate]. simpl.
    destruct (GradingEngine.grade_code self (net i)
                (default "unknown" (sub !! "student_id")) p c et
                (sub !! "model_solution")) as [r | e] eqn:Hr; [| discriminate].
    simpl. intros Hloop.
    destruct (IH _ _ _ Hloop) as (rs & -> & Hlen & Hitems).
    exists (r :: rs). split; [now rewrite <- app_assoc |].
    split; [simpl; now rewrite Hlen |].
    intros [|k] s Hk; simpl in Hk.
    + injection Hk as <-. exists p, c, r. rewrite Nat.add_0_r. auto.
    + destruct (Hitems k s Hk) as (p' & c' & r' & Hp' & Hc' & Hr' & Hg).
      exists p', c', r'. replace (i + S k) with (S i + k) by lia. auto.
Qed.

Lemma grade_batch_loop_prefix (self : GradingEngine.t) (net : nat -> exchange)
    (et : string) (rest : list (gmap string string))
    (graded : list (gmap string string)) :
  forall i acc,
    (forall k s, graded !! k = Some s ->
       exists problem code,
         s !! "problem" = Some problem /\ s !! "code" = Some code
         /\ returns (GradingEngine.grade_code self (net (i + k))
                       (default "unknown" (s !! "student_id")) problem code et
                       (s !! "model_solution"))) ->
    exists acc',
      GradingEngine.grade_batch_loop self net i (graded ++ rest)%list et acc
      = GradingEngine.grade_batch_loop self net (i + length graded) rest et acc'.
Proof.
  induction graded as [|sub graded IH]; intros i acc Hok; simpl.
  - exists acc. now rewrite Nat.add_0_r.
  - destruct (Hok 0 sub eq_refl) as (p & c & Hp & Hc & [r Hr]).
    rewrite Nat.add_0_r in Hr.
    unfold GradingEngine.submission_item. rewrite Hp, Hc. simpl. rewrite Hr. simpl.
    destruct (IH (S i) (acc ++ [r])%list) as [acc' Hacc'].
    + intros k s Hk. destruct (Hok (S k) s Hk) as (p' & c' & Hp' & Hc' & Hret).
      exists p', c'. replace (S i + k) with (i + S k) by lia. auto.
    + exists acc'. rewrite Hacc'. f_equal. lia.
Qed.

End Batches.

(** X16.  A batch is graded in the order of its submissions: the result at
    each index is what [grade_code] returns for the submission at that
    index, with its problem and code, the student id "unknown" when it
    has none, and its reference solution if it has one; there are as many
    results as submissions. *)
Theorem grade_batch_in_order `{Runtime} `{PromptGenerator} (self : GradingEngine.t)
    (net : nat -> exchange) (submissions : list (gmap string string)) (et : string)
    (results : list GradingResult.t) :
  GradingEngine.grade_batch self net submissions et = Ok results ->
  itemwise submissions results
    (fun k sid problem code ms r =>
       GradingEngine.grade_code self (net k) sid problem code et ms = Ok r).
Proof.
  intros Hb. destruct (grade_batch_loop_inv self net et submissions 0 [] results Hb)
    as (rs & -> & Hitems).
  exact Hitems.
Qed.

Lemma grade_batch_in_order_witness :
  exists results,
    GradingEngine.grade_batch (H := reference_runtime) (H0 := plain_prompts)
      openai_engine (fun _ => answering (completion "Score: 70/100"))
      [ {[ "problem" := "p1"; "code" := "c1"; "student_id" := "ann" ]};
        {[ "problem" := "p2"; "code" := "c2" ]} ] "comprehensive" = Ok results
    /\ length results = 2.
Proof.
  eexists. split; [vm_compute; reflexivity |].
  exact (proj1 (grade_batch_in_order (H := reference_runtime) (H0 := plain_prompts)
                  openai_engine (fun _ => answering (completion "Score: 70/100"))
                  [ {[ "problem" := "p1"; "code" := "c1"; "student_id" := "ann" ]};
                    {[ "problem" := "p2"; "code" := "c2" ]} ] "comprehensive" _
                  eq_refl)).
Defined.

(** X17.  A batch gives all its results or none: when the submissions
    before one were graded and that one lacks "problem" or "code", the
    whole call raises KeyError and the results of the earlier submissions
    are lost. *)
Theorem grade_batch_no_partial `{Runtime} `{PromptGenerator} (self : GradingEngine.t)
    (net : nat -> exchange) (graded : list (gmap string string))
    (submission : gmap string string) (rest : list (gmap string string))
    (et : string) :
  (forall k s, graded !! k = Some s ->
     exists problem code,
       s !! "problem" = Some problem /\ s !! "code" = Some code
       /\ returns (GradingEngine.grade_code self (net k)
                     (default "unknown" (s !! "student_id")) problem code et
                     (s !! "model_solution"))) ->
  (submission !! "problem" = None ->
   GradingEngine.grade_batch self net (graded ++ submission :: rest)%list et
   = Raise (KeyError "'problem'"))
  /\ (is_Some (submission !! "problem") -> submission !! "code" = None ->
      GradingEngine.grade_batch self net (graded ++ submission :: rest)%list et
      = Raise (KeyError "'code'")).
Proof.
  intros Hok. unfold GradingEngine.grade_batch.
  destruct (grade_batch_loop_prefix self net et (submission :: rest) graded 0 [] Hok)
    as [acc' ->].
  simpl. unfold GradingEngine.submission_item. split.
  - intros ->. reflexivity.
  - intros [p ->] ->. reflexivity.
Qed.

Lemma grade_batch_no_partial_witness :
  GradingEngine.grade_batch (H := reference_runtime) (H0 := plain_prompts)
    openai_engine (fun _ => answering (completion "Score: 70/100"))
    ([ {[ "problem" := "p1"; "code" := "c1" ]} ]
       ++ {[ "problem" := "p2" ]} :: [])%list "comprehensive"
  = Raise (KeyError "'code'").
Proof.
  apply (proj2 (grade_batch_no_partial (H := reference_runtime) (H0 := plain_prompts)
                  openai_engine (fun _ => answering (completion "Score: 70/100"))
                  [ {[ "problem" := "p1"; "code" := "c1" ]} ] {[ "problem" := "p2" ]}
                  [] "comprehensive"
                  ltac:(intros [|k] s Hk; [| discriminate Hk];
                        injection Hk as <-; exists "p1", "c1";
                        split; [vm_compute; reflexivity |];
                        split; [vm_compute; reflexivity |];
                        eexists; vm_compute; reflexivity))).
  - eexists. vm_compute. reflexivity.
  - vm_compute. reflexivity.
Defined.

(** X18.  The facade's [grade_multiple] is its [grade_code], submission by
    submission and in order: the entry at each index is what [grade_code]
    returns for the submission at that index, the student id being
    "unknown" (not the "student" of [grade_code]) when the submission has
    none. *)
Theorem grade_multiple_itemwise `{Runtime} `{PromptGenerator} (self : CodeGrader.t)
    (net : nat -> exchange) (submissions : list (gmap string string))
    (format : string) (outputs : list (gmap string pyval)) :
  CodeGrader.grade_multiple self net submissions format = Ok outputs ->
  itemwise submissions outputs
    (fun k sid problem code ms output =>
       CodeGrader.grade_code self (net k) problem code sid format ms = Ok output).
Proof.
  unfold CodeGrader.grade_multiple, GradingEngine.grade_batch.
  destruct (GradingEngine.grade_batch_loop _ net 0 submissions format [])
    as [results | e] eqn:Hb; [| discriminate].
  simpl. intros [= <-].
  destruct (grade_batch_loop_inv _ net format submissions 0 [] results Hb)
    as (rs & -> & Hlen & Hitems).
  simpl. split; [now rewrite length_map |].
  intros k s Hk. destruct (Hitems k s Hk) as (p & c & r & Hp & Hc & Hr & Hg).
  exists p, c, (CodeGrader._format_result r).
  split; [exact Hp |]. split; [exact Hc |]. split.
  - change (map CodeGrader._format_result rs) with (CodeGrader._format_result <$> rs).
    now rewrite list_lookup_fmap, Hr.
  - unfold CodeGrader.grade_code. simpl in Hg. now rewrite Hg.
Qed.

Lemma grade_multiple_itemwise_witness :
  CodeGrader.grade_code (H := reference_runtime) (H0 := plain_prompts)
    (CodeGrader.mk openai_engine "openai") (answering (HttpResponse 500 "down"))
    "p1" "c1" "unknown" "json" None
  = Ok (CodeGrader._format_result
          (GradingResult.failed "unknown" "p1" "c1" 2.5%float
             (Some "OpenAI API error: 500 - down"))).
Proof.
  assert (Hm : CodeGrader.grade_multiple (H := reference_runtime) (H0 := plain_prompts)
                 (CodeGrader.mk openai_engine "openai")
                 (fun _ => answering (HttpResponse 500 "down"))
                 [ {[ "problem" := "p1"; "code" := "c1" ]} ] "json"
               = Ok [ CodeGrader._format_result
                        (GradingResult.failed "unknown" "p1" "c1" 2.5%float
                           (Some "OpenAI API error: 500 - down")) ])
    by (vm_compute; reflexivity).
  destruct (proj2 (grade_multiple_itemwise (H := reference_runtime)
                     (H0 := plain_prompts) _ _ _ _ _ Hm)
              0 {[ "problem" := "p1"; "code" := "c1" ]} eq_refl)
    as (p & c & output & Hp & Hc & Ho & Hg).
  vm_compute in Hp. vm_compute in Hc. injection Hp as <-. injection Hc as <-.
  injection Ho as <-. exact Hg.
Defined.

(** ** The output of the facade *)

Lemma format_result_keys (r : GradingResult.t) :
  dom (CodeGrader._format_result r) = (list_to_set result_keys : gset string).
Proof.
  unfold CodeGrader._format_result, result_keys.
  rewrite !dom_insert_L, dom_empty_L. simpl. set_solver.
Qed.

Lemma format_result_error (r : GradingResult.t) :
  CodeGrader._format_result r !! "error" = Some PyNone
  <-> GradingResult.error_message r = None.
Proof.
  change (CodeGrader._format_result r !! "error")
    with (Some (CodeGrader.opt_str (GradingResult.error_message r))).
  destruct (GradingResult.error_message r); simpl; split; congruence.
Qed.

(** X19.  What the facade's [grade_code] returns always has the same ten
    keys, neither the problem nor the code among them; its student id is
    the one given; its success is a boolean, and its error is None exactly
    when the success is true. *)
Theorem facade_output_shape `{Runtime} `{PromptGenerator} (self : CodeGrader.t)
    (x : exchange) (problem student_code sid format : string) (ms : option string)
    (output : gmap string pyval) :
  CodeGrader.grade_code self x problem student_code sid format ms = Ok output ->
  dom output = (list_to_set result_keys : gset string)
  /\ output !! "problem" = None
  /\ output !! "code" = None
  /\ output !! "student_id" = Some (PyStr sid)
  /\ exists ok : bool,
       output !! "success" = Some (PyBool ok)
       /\ (ok = true <-> output !! "error" = Some PyNone).
Proof.
  unfold CodeGrader.grade_code.
  destruct (GradingEngine.grade_code _ x sid problem student_code format ms)
    as [r | e] eqn:Hr; [| discriminate].
  simpl. intros [= <-].
  destruct (grade_code_shape _ _ _ _ _ _ _ _ Hr) as (Hsid & _ & _ & _ & Herr & _).
  split; [apply format_result_keys |].
  split; [reflexivity |]. split; [reflexivity |].
  split; [now rewrite <- Hsid |].
  exists (GradingResult.success r). split; [reflexivity |].
  now rewrite format_result_error.
Qed.

Lemma facade_output_shape_witness :
  CodeGrader._format_result
    (GradingResult.failed "s1" "p" "c" 2.5%float (Some "OpenAI API error: 500 - down"))
    !! "student_id" = Some (PyStr "s1").
Proof.
  assert (Hg : CodeGrader.grade_code (H := reference_runtime) (H0 := plain_prompts)
                 (CodeGrader.mk openai_engine "openai")
                 (answering (HttpResponse 500 "down")) "p" "c" "s1" "json" None
               = Ok (CodeGrader._format_result
                       (GradingResult.failed "s1" "p" "c" 2.5%float
                          (Some "OpenAI API error: 500 - down"))))
    by (vm_compute; reflexivity).
  exact (proj1 (proj2 (proj2 (proj2 (facade_output_shape (H := reference_runtime)
                                       (H0 := plain_prompts) _ _ _ _ _ _ _ _ Hg))))).
Defined.

(** ** The prompt that is sent *)

Lemma evaluate_code_ext `{Runtime} (self : MultiModelClient.t) (x x' : exchange)
    (prompt : string) :
  same_clocks x x' ->
  (forall url, post x url prompt = post x' url prompt) ->
  MultiModelClient.evaluate_code self x prompt
  = MultiModelClient.evaluate_code self x' prompt.
Proof.
  intros (Hs & Hr & Hu & Hf) Hpost.
  unfold MultiModelClient.evaluate_code,
    MultiModelClient._call_openai, MultiModelClient._call_anthropic,
    MultiModelClient._call_gemini, MultiModelClient._call_groq, MultiModelClient.call.
  now rewrite ?Hpost, Hs, Hr, Hu, Hf.
Qed.

(** X20.  [get_prompt_only] returns the very prompt that [grade_code]
    sends, and nothing else of the outside world matters to a grading but
    the answer to that prompt and the clock: two worlds that answer this
    prompt alike and read the same times give the same outcome. *)
Theorem prompt_only_determines_grade `{Runtime} `{PromptGenerator}
    (self : CodeGrader.t) (x x' : exchange) (problem student_code sid format : string)
    (ms : option string) :
  same_clocks x x' ->
  (forall url,
     post x url (CodeGrader.get_prompt_only self problem student_code format ms)
     = post x' url (CodeGrader.get_prompt_only self problem student_code format ms)) ->
  CodeGrader.grade_code self x problem student_code sid format ms
  = CodeGrader.grade_code self x' problem student_code sid format ms.
Proof.
  intros Hclocks Hpost.
  unfold CodeGrader.grade_code, GradingEngine.grade_code.
  change (GradingEngine.select_prompt format problem student_code ms)
    with (CodeGrader.get_prompt_only self problem student_code format ms).
  now rewrite (evaluate_code_ext _ x x' _ Hclocks Hpost).
Qed.

Lemma prompt_only_determines_grade_witness :
  CodeGrader.grade_code (H := reference_runtime) (H0 := plain_prompts)
    (CodeGrader.mk openai_engine "openai")
    (answering (completion "Score: 70/100")) "p" "c" "s1" "comprehensive" None
  = CodeGrader.grade_code (H := reference_runtime) (H0 := plain_prompts)
      (CodeGrader.mk openai_engine "openai")
      (Exchange
         (fun _ prompt =>
            if String.eqb prompt
                 (CodeGrader.get_prompt_only (H0 := plain_prompts)
                    (CodeGrader.mk openai_engine "openai") "p" "c" "comprehensive" None)
            then completion "Score: 70/100"
            else HttpFailure (ConnectionError "no route"))
         100%float 102.5%float 102.5%float 102.5%float)
      "p" "c" "s1" "comprehensive" None.
Proof.
  apply (prompt_only_determines_grade (H := reference_runtime) (H0 := plain_prompts)).
  - repeat split.
  - intros url. vm_compute. reflexivity.
Defined.

(** ** The prompts of the repository *)

Lemma str_contains_occurs (sub s : string) (i : nat) :
  occurs_at sub s i -> str_contains sub s = true.
Proof.
  intros Hocc. destruct (str_contains sub s) eqn:Hc; [reflexivity |].
  rewrite str_contains_false in Hc. destruct (Hc i Hocc).
Qed.

Lemma str_contains_here (sub rest : string) : str_contains sub (sub +:+ rest) = true.
Proof.
  apply (str_contains_occurs sub _ 0), occurs_at_0, str_startswith_app.
Qed.

Lemma str_contains_skip (sub a s : string) :
  str_contains sub s = true -> str_contains sub (a +:+ s) = true.
Proof.
  rewrite str_contains_true. intros (i & Hocc & _).
  apply (str_contains_occurs sub _ (String.length a + i)). now apply occurs_at_app.
Qed.

Ltac find_piece :=
  repeat first [apply str_contains_here | apply str_contains_skip].

Lemma str_startswith_weaken (p s rest : string) :
  str_startswith p s = true -> str_startswith p (s +:+ rest) = true.
Proof.
  revert s. induction p as [|a p IH]; intros s; [reflexivity |].
  destruct s as [|b s]; [discriminate |].
  rewrite str_app_cons. cbn [str_startswith]. intros Hp.
  apply andb_prop in Hp as [Hab Hp]. rewrite Hab. now apply IH.
Qed.

Lemma str_contains_left (sub a rest : string) :
  str_contains sub a = true -> str_contains sub (a +:+ rest) = true.
Proof.
  rewrite str_contains_true. intros (i & [Hi Hocc] & _).
  apply (str_contains_occurs sub _ i). split.
  - rewrite str_length_app. lia.
  - rewrite str_drop_app_le by exact Hi. now apply str_startswith_weaken.
Qed.

Section Embedding.
Variables problem student_code : string.

Lemma json_prompt_embeds (ms : option string) :
  str_contains problem (Prompts.generate_json_prompt problem student_code ms) = true
  /\ str_contains student_code (Prompts.generate_json_prompt problem student_code ms)
     = true.
Proof. unfold Prompts.generate_json_prompt. split; find_piece. Qed.

Lemma simple_prompt_embeds :
  str_contains problem (Prompts.generate_simple_prompt problem student_code) = true
  /\ str_contains student_code (Prompts.generate_simple_prompt problem student_code)
     = true.
Proof. unfold Prompts.generate_simple_prompt. split; find_piece. Qed.

Lemma comprehensive_prompt_embeds (ms : option string) :
  str_contains problem (Prompts.generate_comprehensive_prompt problem student_code ms)
  = true
  /\ str_contains student_code
       (Prompts.generate_comprehensive_prompt problem student_code ms) = true.
Proof. unfold Prompts.generate_comprehensive_prompt. split; find_piece. Qed.

Lemma prompts_embed_solution (solution : string) :
  solution <> "" ->
  str_contains solution
    (Prompts.generate_json_prompt problem student_code (Some solution)) = true
  /\ str_contains solution
       (Prompts.generate_comprehensive_prompt problem student_code (Some solution))
     = true.
Proof.
  intros Hne. apply String.eqb_neq in Hne.
  unfold Prompts.generate_json_prompt, Prompts.generate_comprehensive_prompt,
    Prompts.given.
  rewrite Hne. cbv zeta.
  split; do 4 apply str_contains_skip; apply str_contains_left; find_piece.
Qed.

End Embedding.

(** X21.  The prompts of the repository hold the problem and the student's
    code as they were given, character for character, in each of the three
    formats and in the fallback for an unknown format; a reference
    solution that is not empty is held as well, but in the simple format. *)
Theorem prompt_embeds_inputs (self : CodeGrader.t)
    (problem student_code format : string) (ms : option string) :
  str_contains problem
    (CodeGrader.get_prompt_only (H0 := source_prompts) self problem student_code
       format ms) = true
  /\ str_contains student_code
       (CodeGrader.get_prompt_only (H0 := source_prompts) self problem student_code
          format ms) = true
  /\ forall solution,
       ms = Some solution -> solution <> "" -> format <> "simple" ->
       str_contains solution
         (CodeGrader.get_prompt_only (H0 := source_prompts) self problem student_code
            format ms) = true.
Proof.
  unfold CodeGrader.get_prompt_only.
  destruct (json_prompt_embeds problem student_code ms) as [Hjp Hjc].
  destruct (simple_prompt_embeds problem student_code) as [Hsp Hsc].
  destruct (comprehensive_prompt_embeds problem student_code ms) as [Hcp Hcc].
  split; [| split].
  - destruct (String.eqb format "json"); [exact Hjp |].
    destruct (String.eqb format "simple"); [exact Hsp |].
    destruct (String.eqb format "comprehensive"); [exact Hcp | exact Hjp].
  - destruct (String.eqb format "json"); [exact Hjc |].
    destruct (String.eqb format "simple"); [exact Hsc |].
    destruct (String.eqb format "comprehensive"); [exact Hcc | exact Hjc].
  - intros solution -> Hne Hfmt. apply String.eqb_neq in Hfmt. rewrite Hfmt.
    destruct (prompts_embed_solution problem student_code solution Hne) as [Hj Hc].
    destruct (String.eqb format "json"); [exact Hj |].
    destruct (String.eqb format "comprehensive"); [exact Hc | exact Hj].
Qed.

(** X22.  An empty reference solution is no reference solution: the
    prompts of the repository are the same for the empty string as for
    None, and they are the prompts of the module's [get_prompt], which
    passes none. *)
Theorem empty_solution_is_none (self : CodeGrader.t)
    (problem student_code format : string) :
  CodeGrader.get_prompt_only (H0 := source_prompts) self problem student_code format
    (Some "")
  = get_prompt problem student_code format
  /\ CodeGrader.get_prompt_only (H0 := source_prompts) self problem student_code format
       None
     = get_prompt problem student_code format.
Proof.
  unfold CodeGrader.get_prompt_only, get_prompt.
  destruct (String.eqb format "json"); [split; reflexivity |].
  destruct (String.eqb format "simple"); [split; reflexivity |].
  destruct (String.eqb format "comprehensive"); split; reflexivity.
Qed.

(** ** The convenience function *)

(** X23.  What [quick_grade] returns is a result of the facade for the
    student "student": to return at all, the provider's name had to be an
    accepted one and the provider had to pass the connection test in the
    first exchange, before the submission was graded in the second. *)
Theorem quick_grade_inv `{Runtime} `{PromptGenerator} (x_test x : exchange)
    (api_key problem code format model provider : string)
    (output : gmap string pyval) :
  quick_grade x_test x api_key problem code format model provider = Ok output ->
  supported_provider provider = true
  /\ (exists grader,
        CodeGrader.__init__ x_test api_key model provider = Ok grader
        /\ CodeGrader.grade_code grader x problem code "student" format None
           = Ok output)
  /\ output !! "student_id" = Some (PyStr "student")
  /\ dom output = (list_to_set result_keys : gset string).
Proof.
  unfold quick_grade.
  destruct (CodeGrader.__init__ x_test api_key model provider) as [grader | e] eqn:Hg;
    [| discriminate].
  simpl. intros Hout.
  assert (Hsup : supported_provider provider = true).
  { destruct (supported_provider provider) eqn:Hsup; [reflexivity |].
    unfold CodeGrader.__init__, GradingEngine.__init__ in Hg.
    rewrite (client_init_unsupported _ _ _ Hsup) in Hg. discriminate. }
  split; [exact Hsup |]. split; [eauto |].
  unfold CodeGrader.grade_code in Hout.
  destruct (GradingEngine.grade_code _ x "student" problem code format None)
    as [r | e] eqn:Hr; [| discriminate].
  simpl in Hout. injection Hout as <-.
  destruct (grade_code_shape _ _ _ _ _ _ _ _ Hr) as (Hsid & _).
  split; [| apply format_result_keys].
  change (CodeGrader._format_result r !! "student_id")
    with (Some (PyStr (GradingResult.student_id r))).
  now rewrite Hsid.
Qed.

Lemma quick_grade_inv_witness :
  supported_provider "openai" = true
  /\ CodeGrader._format_result
       (GradingResult.failed "student" "p" "c" 2.5%float
          (Some "JSON parsing error: Invalid JSON response: Expecting value: line 1 column 1 (char 0)"))
     !! "student_id" = Some (PyStr "student").
Proof.
  assert (Hq : quick_grade (H := reference_runtime) (H0 := plain_prompts)
                 (answering (completion "Connection successful"))
                 (answering (completion "Connection successful"))
                 "sk-test" "p" "c" "json" "gpt-3.5-turbo" "openai"
               = Ok (CodeGrader._format_result
                       (GradingResult.failed "student" "p" "c" 2.5%float
                          (Some "JSON parsing error: Invalid JSON response: Expecting value: line 1 column 1 (char 0)"))))
    by (vm_compute; reflexivity).
  destruct (quick_grade_inv (H := reference_runtime) (H0 := plain_prompts)
              _ _ _ _ _ _ _ _ _ Hq) as (Hsup & _ & Hsid & _).
  split; [exact Hsup | exact Hsid].
Defined.

(** ** The request of a call *)

(** X24.  A call of [evaluate_code] depends on the outside world through
    one request only, the prompt posted to the client's URL, and through
    the clock.  For Gemini that URL holds the model's name, with "-latest"
    added to gemini-1.5-flash and gemini-1.5-pro, and the API key; for the
    other providers it is the base URL. *)
Theorem evaluate_code_single_request `{Runtime} (self : MultiModelClient.t)
    (x x' : exchange) (prompt : string) :
  same_clocks x x' ->
  post x (request_url self) prompt = post x' (request_url self) prompt ->
  MultiModelClient.evaluate_code self x prompt
  = MultiModelClient.evaluate_code self x' prompt.
Proof.
  intros (Hs & Hr & Hu & Hf).
  unfold request_url, MultiModelClient.evaluate_code,
    MultiModelClient._call_openai, MultiModelClient._call_anthropic,
    MultiModelClient._call_gemini, MultiModelClient._call_groq, MultiModelClient.call.
  rewrite Hs, Hr, Hu, Hf.
  destruct (String.eqb_spec (MultiModelClient.provider self) "openai") as [-> | _];
    [simpl; now intros -> |].
  destruct (String.eqb_spec (MultiModelClient.provider self) "anthropic") as [-> | _];
    [simpl; now intros -> |].
  destruct (String.eqb (MultiModelClient.provider self) "gemini");
    [now intros -> |].
  destruct (String.eqb (MultiModelClient.provider self) "groq");
    [now intros -> | reflexivity].
Qed.

Lemma evaluate_code_single_request_witness :
  MultiModelClient.evaluate_code (H := reference_runtime)
    (MultiModelClient.mk "KEY" "gemini-1.5-flash" "gemini"
       "https://generativelanguage.googleapis.com/v1beta/models")
    (answering (HttpResponse 403 "forbidden")) "prompt"
  = MultiModelClient.evaluate_code (H := reference_runtime)
      (MultiModelClient.mk "KEY" "gemini-1.5-flash" "gemini"
         "https://generativelanguage.googleapis.com/v1beta/models")
      (Exchange
         (fun url _ =>
            if String.eqb url
                 "https://generativelanguage.googleapis.com/v1beta/models/gemini-1.5-flash-latest:generateContent?key=KEY"
            then HttpResponse 403 "forbidden"
            else HttpFailure (ConnectionError "no route"))
         100%float 102.5%float 102.5%float 102.5%float)
      "prompt".
Proof.
  apply (evaluate_code_single_request (H := reference_runtime)).
  - repeat split.
  - vm_compute. reflexivity.
Defined.

(** ** A response that decodes to no object *)

(** X25.  In the json and the simple format, a completion that decodes to
    a JSON value other than an object (an array, a string, a number, a
    boolean, null) makes [grade_code] raise TypeError or AttributeError:
    the parser's test for the key "error" or its first [get] fails on
    it. *)
Theorem non_object_json_raises `{Runtime} (self : GradingEngine.t)
    (sid problem code et : string) (response : GradingResponse.t) (text : string)
    (v : pyval) :
  GradingResponse.success response = true ->
  GradingResponse.raw_response response = PyStr text ->
  json_loads (MultiModelClient.unmarked (MultiModelClient.fenced_text text))
    = Decoded v ->
  (forall d, v <> PyDict d) ->
  et = "json" \/ et = "simple" ->
  exists msg,
    GradingEngine.grade_response self sid problem code et response = Raise (TypeError msg)
    \/ GradingEngine.grade_response self sid problem code et response
       = Raise (AttributeError msg).
Proof.
  intros Hs Hraw Hd Hv Het.
  assert (Hp : MultiModelClient.parse_json_response (GradingResponse.raw_response response)
               = Ok v).
  { rewrite Hraw. unfold MultiModelClient.parse_json_response. now rewrite Hd. }
  destruct Het as [-> | ->];
    [rewrite grade_response_json by assumption;
     unfold GradingEngine._parse_json_result
    | rewrite grade_response_simple by assumption;
      unfold GradingEngine._parse_simple_result];
    rewrite Hp; simpl; unfold GradingEngine.parsing_error;
    (destruct v as [| b | z | f | s | l | d];
       [| | | | | | exfalso; exact (Hv d eq_refl)]); simpl;
    repeat match goal with
           | |- context [if ?b then _ else _] => destruct b; simpl
           end;
    eauto.
Qed.

Lemma non_object_json_raises_witness :
  exists msg,
    GradingEngine.grade_response (H := reference_runtime) openai_engine "s1" "p" "c"
      "simple" (GradingResponse.succeeded (PyStr "[]") 1%float) = Raise (TypeError msg)
    \/ GradingEngine.grade_response (H := reference_runtime) openai_engine "s1" "p" "c"
         "simple" (GradingResponse.succeeded (PyStr "[]") 1%float)
       = Raise (AttributeError msg).
Proof.
  apply (non_object_json_raises (H := reference_runtime) openai_engine "s1" "p" "c"
           "simple" (GradingResponse.succeeded (PyStr "[]") 1%float) "[]" (PyList [])).
  - reflexivity.
  - reflexivity.
  - vm_compute. reflexivity.
  - discriminate.
  - right. reflexivity.
Defined.

(** ** Plain fences *)

Lemma no_backtick_no_fence_end (sub a : string) (j : nat) :
  no_backtick a = true -> ~ occurs_at (String "`" (String "`" (String "`" sub))) a j.
Proof.
  intros Ha Hocc. pose proof (occurs_at_bound _ _ _ Hocc) as Hb. simpl in Hb.
  rewrite <- (str_app_nil_r a) in Hocc.
  apply (no_backtick_no_fence (String "`" (String "`" sub)) a "" j Ha);
    [lia | exact Hocc].
Qed.

Lemma no_fence_after_closing (post : string) (k : nat) :
  no_backtick post = true -> 1 <= k -> ~ occurs_at "```" ("```" +:+ post) k.
Proof.
  intros Hpost Hk. rewrite !str_app_cons, str_app_nil_l.
  destruct k as [|[|[|k]]]; [lia | | |]; rewrite ?occurs_at_S.
  - rewrite occurs_at_0. cbn [str_startswith].
    destruct post as [|c post]; [discriminate |].
    unfold no_backtick in Hpost. simpl in Hpost. apply andb_prop in Hpost as [Hc _].
    cbn [str_startswith]. destruct (Ascii.eqb_spec "`" c) as [<- | _];
      [discriminate Hc | discriminate].
  - rewrite occurs_at_0. cbn [str_startswith].
    destruct post as [|c post]; [discriminate |].
    unfold no_backtick in Hpost. simpl in Hpost. apply andb_prop in Hpost as [Hc _].
    cbn [str_startswith]. destruct (Ascii.eqb_spec "`" c) as [<- | _];
      [discriminate Hc | discriminate].
  - now apply no_backtick_no_fence_end.
Qed.

(** X26.  Without a json fence the extractor takes everything from the
    first fence to the last one: whatever lies between them, further
    fences included, is the extracted text, so two plain blocks of a
    response are read as one text together with the prose between them. *)
Theorem plain_fences_span (pre body post : string) :
  no_backtick pre = true -> no_backtick post = true ->
  str_contains "```json" (pre +:+ "```" +:+ body +:+ "```" +:+ post) = false ->
  MultiModelClient.fenced_text (pre +:+ "```" +:+ body +:+ "```" +:+ post)
  = str_strip body.
Proof.
  intros Hpre Hpost Hj. rewrite str_contains_false in Hj.
  set (text := pre +:+ "```" +:+ body +:+ "```" +:+ post) in *.
  assert (Htext : text = (pre +:+ "```") +:+ (body +:+ ("```" +:+ post))).
  { unfold text. now rewrite str_app_assoc. }
  assert (Htext' : text = (pre +:+ "```" +:+ body) +:+ ("```" +:+ post)).
  { unfold text. now rewrite !str_app_assoc. }
  assert (Hlen : String.length (pre +:+ "```") = String.length pre + 3).
  { now rewrite str_length_app. }
  assert (Hlen' : String.length (pre +:+ "```" +:+ body)
                  = String.length pre + 3 + String.length body).
  { rewrite !str_length_app. simpl. lia. }
  rewrite (fenced_text_plain text (String.length pre)
             (String.length pre + 3 + String.length body) Hj).
  - replace (String.length pre + 3 + String.length body - (String.length pre + 3))
      with (String.length body) by lia.
    rewrite Htext, <- Hlen. now rewrite substring_app_mid.
  - split.
    + unfold text. rewrite <- (Nat.add_0_r (String.length pre)).
      apply occurs_at_app, occurs_at_0, str_startswith_app.
    + intros j Hlt. unfold text. now apply no_backtick_no_fence.
  - split.
    + rewrite Htext', <- Hlen', <- (Nat.add_0_r (String.length _)).
      apply occurs_at_app, occurs_at_0, str_startswith_app.
    + intros j Hlt. rewrite Htext'.
      replace j with (String.length (pre +:+ "```" +:+ body)
                      + (j - (String.length pre + 3 + String.length body))) by lia.
      rewrite occurs_at_app. apply no_fence_after_closing; [exact Hpost | lia].
Qed.

Lemma plain_fences_span_witness :
  MultiModelClient.fenced_text
    ("First: " +:+ "```" +:+ "[1]``` and then ```[2]" +:+ "```" +:+ " done")
  = "[1]``` and then ```[2]".
Proof.
  rewrite (plain_fences_span "First: " "[1]``` and then ```[2]" " done");
    vm_compute; reflexivity.
Defined.
